(** * ContractFabrico backend: order pipeline

    A shallow embedding of the order store, the Stripe webhook route, the
    customer download routes, the admin refund and the expiry sweeper of
    the backend (orderService, paymentService, adminService,
    routes/payment, routes/orders), with the properties of the order life
    cycle stated against it.

    Conventions of the embedding:
    - the Prisma tables are finite maps keyed by the row id;
    - [new Date()] is an explicit argument [now], in milliseconds;
    - JavaScript numbers that hold money are rationals ([Q]); where an
      order is written or refunded a single product or quotient by 100 is
      taken exactly, which is what the doubles of the code give for whole
      cents, and the sums and the average of the analytics are rounded as
      doubles are ([round64]);
    - a thrown [Error] is the [Throw] outcome of a state-and-error monad
      over the [World]; writes made before a throw stay in the world;
    - the external collaborators (Stripe, the renderer and the object
      store, SendGrid) are an [Env] of outcome functions, and every call
      made to them is appended to a log in the [World]. *)

From Stdlib Require Import ZArith QArith Qround String Ascii List Bool Lia.
From Stdlib Require Import Qabs DecimalString DecimalNat Permutation.
From stdpp Require Import gmap strings sorting.
Import ListNotations.

Local Open Scope Z_scope.
Local Open Scope string_scope.

(** ** Data model *)

Inductive Status := pending | paid | failed | refunded.

#[global] Instance Status_eq_dec : EqDecision Status.
Proof. solve_decision. Defined.

Record Template := {
  template_id : string;
  title : string;
  price : Q
}.

(** [interface Order] of types/index.ts, as the row of the [orders] table
    (the joined [template] is left out).  [createdAt] and [updatedAt] are
    filled by the data base when the row is created; afterwards the
    embedding changes [updatedAt] only where the code assigns it. *)
Record Order := {
  order_id : string;
  templateId : string;
  customerEmail : string;
  formData : string;
  stripePaymentId : string;
  amount : Q;
  status : Status;
  pdfUrl : option string;
  docxUrl : option string;
  downloadExpiry : Z;
  createdAt : Z;
  updatedAt : Z
}.

Record Documents := {
  doc_pdfUrl : string;
  doc_docxUrl : string
}.

(** [Stripe.RefundCreateParams], the fields the code fills. *)
Record RefundCreateParams := {
  rp_payment_intent : string;
  rp_amount : option Z;
  rp_reason : option string
}.

(** [Stripe.Refund], the fields the code reads; [refund_amount] is in cents. *)
Record Refund := {
  refund_id : string;
  refund_amount : Z
}.

(** The object carried by a webhook event ([event.data.object]). *)
Record Session := {
  session_id : string;
  metadata : option (gmap string string);
  payment_intent : option string;
  amount_total : option Z
}.

Record Event := {
  event_id : string;
  event_type : string;
  data_object : Session
}.

(** ** Outcomes, world and the monad *)

Inductive result (A : Type) :=
| Ok (a : A)
| Throw (msg : string).
Arguments Ok {A} a.
Arguments Throw {A} msg.

Record World := {
  templates : gmap string Template;
  orders : gmap string Order;
  refund_calls : list RefundCreateParams;
  render_calls : list (string * string * Order);
  mail_calls : list (string * Order * Documents)
}.

(** What the collaborators answer; [Throw] is a rejected promise. *)
Record Env := {
  constructEvent : string -> string -> result Event;
  refunds_create : RefundCreateParams -> result Refund;
  JSON_parse : string -> result string;
  render_and_upload : string -> string -> Order -> result Documents;
  sgMail_send : string -> Order -> Documents -> result unit;
  getSignedUrl : string -> result string;
  deleteFile : string -> result unit;
  isEmail : string -> bool
}.

Definition M (A : Type) : Type := World -> result A * World.

Definition ret {A} (a : A) : M A := fun w => (Ok a, w).

Definition throw {A} (msg : string) : M A := fun w => (Throw msg, w).

Definition bind {A B} (m : M A) (k : A -> M B) : M B :=
  fun w =>
    match m w with
    | (Ok a, w') => k a w'
    | (Throw msg, w') => (Throw msg, w')
    end.

(** [try { m } catch (error) { h error }] *)
Definition try_catch {A} (m : M A) (h : string -> M A) : M A :=
  fun w =>
    match m w with
    | (Ok a, w') => (Ok a, w')
    | (Throw msg, w') => h msg w'
    end.

Definition lift {A} (r : result A) : M A := fun w => (r, w).

Notation "'let*' x ':=' m 'in' k" := (bind m (fun x => k))
  (at level 10, x name, m at level 100, k at level 200).

(** ** JavaScript helpers *)

(** Truthiness of a string and of a number. *)
Definition truthy_string (s : string) : bool := negb (String.eqb s "").

Definition truthy_opt_string (s : option string) : bool :=
  match s with
  | Some s => truthy_string s
  | None => false
  end.

Definition truthy_num (q : Q) : bool := negb (Qeq_bool q 0).

(** [Math.round]: the nearest integer, halves towards plus infinity.  Its
    argument is an exact product here; the code rounds the double product
    [amount * 100], which is the same integer for every amount of a whole
    number of cents below [2 ^ 50], and the statements that depend on the
    rounded value are about such amounts. *)
Definition Math_round (q : Q) : Z := Qfloor (q + (1 # 2)).

(** [d.setDate(d.getDate() + 7)] on a clock in milliseconds, in a zone
    whose offset does not change within the week. *)
Definition setDate_plus7 (t : Z) : Z := t + 7 * 86400000.

(** [s.split('/').pop()]: the text after the last slash. *)
Fixpoint split_pop_from (acc : string) (s : string) : string :=
  match s with
  | EmptyString => acc
  | String c s' =>
      if Ascii.eqb c "/"%char then split_pop_from "" s'
      else split_pop_from (acc ++ String c "") s'
  end.

Definition split_pop (s : string) : string := split_pop_from "" s.

(** ** Prisma *)

Definition set_status (st : Status) (o : Order) : Order :=
  {| order_id := order_id o; templateId := templateId o;
     customerEmail := customerEmail o; formData := formData o;
     stripePaymentId := stripePaymentId o; amount := amount o;
     status := st; pdfUrl := pdfUrl o; docxUrl := docxUrl o;
     downloadExpiry := downloadExpiry o; createdAt := createdAt o;
     updatedAt := updatedAt o |}.

Definition set_stripePaymentId (p : string) (o : Order) : Order :=
  {| order_id := order_id o; templateId := templateId o;
     customerEmail := customerEmail o; formData := formData o;
     stripePaymentId := p; amount := amount o;
     status := status o; pdfUrl := pdfUrl o; docxUrl := docxUrl o;
     downloadExpiry := downloadExpiry o; createdAt := createdAt o;
     updatedAt := updatedAt o |}.

Definition set_amount (a : Q) (o : Order) : Order :=
  {| order_id := order_id o; templateId := templateId o;
     customerEmail := customerEmail o; formData := formData o;
     stripePaymentId := stripePaymentId o; amount := a;
     status := status o; pdfUrl := pdfUrl o; docxUrl := docxUrl o;
     downloadExpiry := downloadExpiry o; createdAt := createdAt o;
     updatedAt := updatedAt o |}.

Definition set_pdfUrl (u : option string) (o : Order) : Order :=
  {| order_id := order_id o; templateId := templateId o;
     customerEmail := customerEmail o; formData := formData o;
     stripePaymentId := stripePaymentId o; amount := amount o;
     status := status o; pdfUrl := u; docxUrl := docxUrl o;
     downloadExpiry := downloadExpiry o; createdAt := createdAt o;
     updatedAt := updatedAt o |}.

Definition set_docxUrl (u : option string) (o : Order) : Order :=
  {| order_id := order_id o; templateId := templateId o;
     customerEmail := customerEmail o; formData := formData o;
     stripePaymentId := stripePaymentId o; amount := amount o;
     status := status o; pdfUrl := pdfUrl o; docxUrl := u;
     downloadExpiry := downloadExpiry o; createdAt := createdAt o;
     updatedAt := updatedAt o |}.

Definition set_updatedAt (t : Z) (o : Order) : Order :=
  {| order_id := order_id o; templateId := templateId o;
     customerEmail := customerEmail o; formData := formData o;
     stripePaymentId := stripePaymentId o; amount := amount o;
     status := status o; pdfUrl := pdfUrl o; docxUrl := docxUrl o;
     downloadExpiry := downloadExpiry o; createdAt := createdAt o;
     updatedAt := t |}.

Definition with_orders (os : gmap string Order) (w : World) : World :=
  {| templates := templates w; orders := os;
     refund_calls := refund_calls w; render_calls := render_calls w;
     mail_calls := mail_calls w |}.

(** [prisma.order.findUnique({ where: { id } })] *)
Definition order_findUnique (id : string) : M (option Order) :=
  fun w => (Ok (orders w !! id), w).

(** [prisma.order.findFirst({ where: { id, customerEmail } })]: the row
    with this id when its [customerEmail] column equals the argument. *)
Definition order_findFirst (id email : string) : M (option Order) :=
  fun w =>
    match orders w !! id with
    | Some o =>
        if String.eqb (customerEmail o) email then (Ok (Some o), w)
        else (Ok None, w)
    | None => (Ok None, w)
    end.

(** [prisma.order.update({ where: { id }, data })]: rejects when no row has
    the id, otherwise writes the changed row and returns it. *)
Definition order_update (id : string) (data : Order -> Order) : M Order :=
  fun w =>
    match orders w !! id with
    | Some o => (Ok (data o), with_orders (<[id := data o]> (orders w)) w)
    | None => (Throw "Record to update not found.", w)
    end.

(** [prisma.order.create]: the data base chooses the id ([newId]). *)
Definition order_create (newId : string) (o : Order) : M Order :=
  fun w =>
    match orders w !! newId with
    | Some _ => (Throw "Unique constraint failed on the fields: (`id`)", w)
    | None => (Ok o, with_orders (<[newId := o]> (orders w)) w)
    end.

(** [prisma.order.findMany({ where })]: the rows that pass the filter. *)
Definition order_findMany (where_ : Order -> bool) : M (list Order) :=
  fun w => (Ok (List.filter where_ (List.map snd (map_to_list (orders w)))), w).

Definition template_findUnique (id : string) : M (option Template) :=
  fun w => (Ok (templates w !! id), w).

(** ** OrderService *)

Record CreatePendingOrderData := {
  cpo_templateId : string;
  cpo_formData : string;
  cpo_customerEmail : string
}.

(** [OrderService.createPendingOrder] *)
Definition createPendingOrder (data : CreatePendingOrderData)
    (newId : string) (now : Z) : M Order :=
  try_catch
    (let* template := template_findUnique (cpo_templateId data) in
     match template with
     | None => throw "Template not found"
     | Some template =>
         let downloadExpiry := setDate_plus7 now in
         order_create newId
           {| order_id := newId;
              templateId := cpo_templateId data;
              customerEmail := cpo_customerEmail data;
              formData := cpo_formData data;
              stripePaymentId := "";
              amount := price template;
              status := pending;
              pdfUrl := None;
              docxUrl := None;
              downloadExpiry := downloadExpiry;
              createdAt := now;
              updatedAt := now |}
     end)
    (fun _ => throw "Failed to create order").

(** The optional third argument of [updateOrderStatus]. *)
Record AdditionalData := {
  ad_stripePaymentId : option string;
  ad_amount : option Q
}.

Definition no_additionalData : AdditionalData :=
  {| ad_stripePaymentId := None; ad_amount := None |}.

(** The [updateData] object built by [updateOrderStatus], as the change it
    makes to the row. *)
Definition updateData (st : Status) (additionalData : AdditionalData)
    (o : Order) : Order :=
  let o1 := set_status st o in
  let o2 :=
    match ad_stripePaymentId additionalData with
    | Some p => if truthy_string p then set_stripePaymentId p o1 else o1
    | None => o1
    end in
  match ad_amount additionalData with
  | Some a => if truthy_num a then set_amount a o2 else o2
  | None => o2
  end.

(** [OrderService.updateOrderStatus] *)
Definition updateOrderStatus (orderId : string) (st : Status)
    (additionalData : AdditionalData) : M Order :=
  try_catch
    (order_update orderId (updateData st additionalData))
    (fun _ => throw "Failed to update order status").

(** The [documents] argument of [updateOrderDocuments]; an absent field
    leaves the column as it is. *)
Record DocumentsUpdate := {
  du_pdfUrl : option string;
  du_docxUrl : option string
}.

Definition documentsData (d : DocumentsUpdate) (o : Order) : Order :=
  let o1 :=
    match du_pdfUrl d with
    | Some u => set_pdfUrl (Some u) o
    | None => o
    end in
  match du_docxUrl d with
  | Some u => set_docxUrl (Some u) o1
  | None => o1
  end.

(** [OrderService.updateOrderDocuments] *)
Definition updateOrderDocuments (orderId : string) (d : DocumentsUpdate)
    : M unit :=
  try_catch
    (let* _ := order_update orderId (documentsData d) in ret tt)
    (fun _ => throw "Failed to update order documents").

(** [OrderService.getOrderByIdAndEmail] *)
Definition getOrderByIdAndEmail (orderId email : string) : M (option Order) :=
  try_catch
    (order_findFirst orderId email)
    (fun _ => throw "Failed to retrieve order").

(** [OrderService.getDownloadLinks] *)
Definition getDownloadLinks (env : Env) (orderId : string) : M Documents :=
  try_catch
    (let* order := order_findUnique orderId in
     match order with
     | None => throw "Order not found"
     | Some order =>
         match pdfUrl order, docxUrl order with
         | Some pdf, Some docx =>
             if truthy_string pdf && truthy_string docx then
               let pdfKey := split_pop pdf in
               let docxKey := split_pop docx in
               let* pdfSignedUrl :=
                 lift (getSignedUrl env
                         ("documents/" ++ orderId ++ "/" ++ pdfKey)) in
               let* docxSignedUrl :=
                 lift (getSignedUrl env
                         ("documents/" ++ orderId ++ "/" ++ docxKey)) in
               ret {| doc_pdfUrl := pdfSignedUrl;
                      doc_docxUrl := docxSignedUrl |}
             else throw "Documents not available"
         | _, _ => throw "Documents not available"
         end
     end)
    (fun _ => throw "Failed to generate download links").

(** [for (const x of xs) { await body(x) }] *)
Fixpoint for_of {A} (body : A -> M unit) (xs : list A) : M unit :=
  match xs with
  | [] => ret tt
  | x :: xs' => let* _ := body x in for_of body xs'
  end.

(** [data: { pdfUrl: null, docxUrl: null }] *)
Definition clear_documents (o : Order) : Order :=
  set_docxUrl None (set_pdfUrl None o).

(** [if (url) { await storage.deleteFile(`documents/${id}/${key}`) }] *)
Definition delete_document (env : Env) (id : string) (url : option string)
    : M unit :=
  match url with
  | Some u =>
      if truthy_string u then
        lift (deleteFile env ("documents/" ++ id ++ "/" ++ split_pop u))
      else ret tt
  | None => ret tt
  end.

(** The body of the loop of [cleanupExpiredOrders], with its own
    [try]/[catch]. *)
Definition cleanup_order (env : Env) (order : Order) : M unit :=
  try_catch
    (let* _ := delete_document env (order_id order) (pdfUrl order) in
     let* _ := delete_document env (order_id order) (docxUrl order) in
     let* _ := order_update (order_id order) clear_documents in
     ret tt)
    (fun _ => ret tt).

(** [OrderService.cleanupExpiredOrders] *)
Definition cleanupExpiredOrders (env : Env) (now : Z) : M unit :=
  try_catch
    (let* expiredOrders :=
       order_findMany
         (fun o => Z.ltb (downloadExpiry o) now
                   && bool_decide (status o = paid)) in
     for_of (cleanup_order env) expiredOrders)
    (fun _ => ret tt).

(** ** DocumentService and EmailService, as capabilities *)

Definition log_render (c : string * string * Order) : M unit :=
  fun w =>
    (Ok tt,
     {| templates := templates w; orders := orders w;
        refund_calls := refund_calls w;
        render_calls := render_calls w ++ [c];
        mail_calls := mail_calls w |}).

Definition log_mail (c : string * Order * Documents) : M unit :=
  fun w =>
    (Ok tt,
     {| templates := templates w; orders := orders w;
        refund_calls := refund_calls w;
        render_calls := render_calls w;
        mail_calls := mail_calls w ++ [c] |}).

Definition log_refund (c : RefundCreateParams) : M unit :=
  fun w =>
    (Ok tt,
     {| templates := templates w; orders := orders w;
        refund_calls := refund_calls w ++ [c];
        render_calls := render_calls w;
        mail_calls := mail_calls w |}).

(** [DocumentService.generateDocuments]: one invocation renders and uploads
    both files; any failure inside is rethrown under one message. *)
Definition generateDocuments (env : Env) (templateId formData : string)
    (order : Order) : M Documents :=
  let* _ := log_render (templateId, formData, order) in
  try_catch
    (lift (render_and_upload env templateId formData order))
    (fun _ => throw "Failed to generate documents").

(** [EmailService.sendOrderConfirmation] *)
Definition sendOrderConfirmation (env : Env) (to : string) (order : Order)
    (documents : Documents) : M unit :=
  let* _ := log_mail (to, order, documents) in
  try_catch
    (lift (sgMail_send env to order documents))
    (fun _ => throw "Failed to send confirmation email").

(** ** PaymentService *)

(** The object both [processRefund] functions resolve to. *)
Record RefundResult := {
  success : bool;
  refundId : option string;
  rr_amount : option Q;
  message : option string
}.

(** The [refundParams] object [PaymentService.processRefund] builds. *)
Definition refundParams (paymentIntentId : string) (amount : option Q)
    (reason : option string) : RefundCreateParams :=
  {| rp_payment_intent := paymentIntentId;
     rp_amount :=
       match amount with
       | Some a => if truthy_num a then Some (Math_round (a * 100)) else None
       | None => None
       end;
     rp_reason :=
       match reason with
       | Some r => if truthy_string r then Some r else None
       | None => None
       end |}.

(** [PaymentService.processRefund]: it never rejects, a failure of
    [stripe.refunds.create] becomes [success: false] with the message. *)
Definition PaymentService_processRefund (env : Env)
    (paymentIntentId : string) (amount : option Q) (reason : option string)
    : M RefundResult :=
  try_catch
    (let* _ := log_refund (refundParams paymentIntentId amount reason) in
     let* refund :=
       lift (refunds_create env
               (refundParams paymentIntentId amount reason)) in
     ret {| success := true;
            refundId := Some (refund_id refund);
            rr_amount := Some (inject_Z (refund_amount refund) / 100)%Q;
            message := None |})
    (fun msg =>
       ret {| success := false; refundId := None; rr_amount := None;
              message := Some msg |}).

(** ** AdminService *)

Definition refund_failure (msg : string) : RefundResult :=
  {| success := false; refundId := None; rr_amount := None;
     message := Some msg |}.

(** The refund request [AdminService.processRefund] sends for an order. *)
Definition order_refundParams (o : Order) : RefundCreateParams :=
  refundParams (stripePaymentId o) (Some (amount o))
    (Some "requested_by_customer").

(** [AdminService.processRefund] *)
Definition AdminService_processRefund (env : Env)
    (orderId reason adminId : string) (now : Z) : M RefundResult :=
  try_catch
    (let* order := order_findUnique orderId in
     match order with
     | None => ret (refund_failure "Order not found")
     | Some order =>
         if negb (bool_decide (status order = paid)) then
           ret (refund_failure "Only paid orders can be refunded")
         else if bool_decide (status order = refunded) then
           ret (refund_failure "Order has already been refunded")
         else
           let* refundResult :=
             PaymentService_processRefund env (stripePaymentId order)
               (Some (amount order)) (Some "requested_by_customer") in
           if negb (success refundResult) then ret refundResult
           else
             let* _ :=
               order_update orderId
                 (fun o => set_updatedAt now (set_status refunded o)) in
             ret {| success := true;
                    refundId := refundId refundResult;
                    rr_amount := rr_amount refundResult;
                    message := None |}
     end)
    (fun _ => ret (refund_failure "Failed to process refund")).

(** ** Routes *)

Inductive Body :=
| Received
| ErrorBody (code : string)
| OrderBody (o_id o_templateId : string) (o_status : Status) (o_amount : Q)
    (o_createdAt o_updatedAt o_downloadExpiry : Z)
| DownloadBody (pdf docx : string) (expiresAt remainingTime : Z).

Record Response := {
  statusCode : Z;
  body : Body
}.

Definition respond (c : Z) (b : Body) : Response :=
  {| statusCode := c; body := b |}.

(** A route: the response and the world it leaves.  A [Throw] that reaches
    [next(error)] is answered by [errorHandler] with 500. *)
Definition Route : Type := World -> Response * World.

Definition run_route (m : M Response) : Route :=
  fun w =>
    match m w with
    | (Ok r, w') => (r, w')
    | (Throw _, w') => (respond 500 (ErrorBody "INTERNAL_ERROR"), w')
    end.

(** *** routes/payment: the webhook *)

(** [(session.metadata || {})[k]] *)
Definition metadata_get (session : Session) (k : string) : option string :=
  match metadata session with
  | Some md => md !! k
  | None => None
  end.

(** The field when it is truthy. *)
Definition truthy_field (session : Session) (k : string) : option string :=
  match metadata_get session k with
  | Some v => if truthy_string v then Some v else None
  | None => None
  end.

(** [session.amount_total ? session.amount_total / 100 : 0] *)
Definition session_amount (session : Session) : Q :=
  match amount_total session with
  | Some a => if Z.eqb a 0 then 0%Q else (inject_Z a / 100)%Q
  | None => 0%Q
  end.

Definition handleCheckoutSessionCompleted (env : Env) (session : Session)
    : M unit :=
  try_catch
    (match truthy_field session "orderId",
           truthy_field session "templateId",
           truthy_field session "customerEmail",
           truthy_field session "formData" with
     | Some orderId, Some templateId, Some customerEmail, Some formData =>
         let* order :=
           updateOrderStatus orderId paid
             {| ad_stripePaymentId := payment_intent session;
                ad_amount := Some (session_amount session) |} in
         let* parsed := lift (JSON_parse env formData) in
         let* documents := generateDocuments env templateId parsed order in
         let* _ :=
           updateOrderDocuments orderId
             {| du_pdfUrl := Some (doc_pdfUrl documents);
                du_docxUrl := Some (doc_docxUrl documents) |} in
         let* _ := sendOrderConfirmation env customerEmail order documents in
         ret tt
     | _, _, _, _ => throw "Missing required metadata in checkout session"
     end)
    (fun msg => throw msg).

Definition handleCheckoutSessionExpired (session : Session) : M unit :=
  try_catch
    (match truthy_field session "orderId" with
     | Some orderId =>
         let* _ := updateOrderStatus orderId failed no_additionalData in
         ret tt
     | None => ret tt
     end)
    (fun _ => ret tt).

(** [handlePaymentSucceeded] and [handlePaymentFailed] only write to the
    log. *)
Definition handlePaymentSucceeded (paymentIntent : Session) : M unit := ret tt.

Definition handlePaymentFailed (paymentIntent : Session) : M unit := ret tt.

Record WebhookRequest := {
  stripe_signature : option string;
  raw_body : string
}.

(** [router.post('/webhook')] *)
Definition webhook (env : Env) (req : WebhookRequest) : Route :=
  match stripe_signature req with
  | None =>
      fun w => (respond 400 (ErrorBody "WEBHOOK_SIGNATURE_MISSING"), w)
  | Some sig =>
      if negb (truthy_string sig) then
        fun w => (respond 400 (ErrorBody "WEBHOOK_SIGNATURE_MISSING"), w)
      else
        run_route
          (try_catch
             (let* event := lift (constructEvent env (raw_body req) sig) in
              let* _ :=
                if String.eqb (event_type event) "checkout.session.completed"
                then handleCheckoutSessionCompleted env (data_object event)
                else if String.eqb (event_type event) "checkout.session.expired"
                then handleCheckoutSessionExpired (data_object event)
                else if String.eqb (event_type event) "payment_intent.succeeded"
                then handlePaymentSucceeded (data_object event)
                else if String.eqb (event_type event)
                          "payment_intent.payment_failed"
                then handlePaymentFailed (data_object event)
                else ret tt in
              ret (respond 200 Received))
             (fun _ =>
                ret (respond 400 (ErrorBody "WEBHOOK_SIGNATURE_INVALID"))))
  end.

(** *** routes/orders *)

Record OrderRequest := {
  params_id : string;
  query_email : option string
}.

(** [validateOrderId, validateEmailQuery, handleValidationErrors]: the
    request goes on when the id is not empty and the email is one. *)
Definition validated (env : Env) (req : OrderRequest) : option string :=
  match query_email req with
  | Some email =>
      if truthy_string (params_id req) && isEmail env email then Some email
      else None
  | None => None
  end.

Definition validation_error : Response :=
  respond 400 (ErrorBody "VALIDATION_ERROR").

(** [router.get('/:id')] *)
Definition get_order (env : Env) (req : OrderRequest) : Route :=
  match validated env req with
  | None => fun w => (validation_error, w)
  | Some email =>
      run_route
        (let* order := getOrderByIdAndEmail (params_id req) email in
         match order with
         | None => ret (respond 404 (ErrorBody "ORDER_NOT_FOUND"))
         | Some order =>
             ret (respond 200
                    (OrderBody (order_id order) (templateId order)
                       (status order) (amount order) (createdAt order)
                       (updatedAt order) (downloadExpiry order)))
         end)
  end.

(** [router.get('/:id/download')] *)
Definition get_download (env : Env) (req : OrderRequest) (now : Z) : Route :=
  match validated env req with
  | None => fun w => (validation_error, w)
  | Some email =>
      run_route
        (let* order := getOrderByIdAndEmail (params_id req) email in
         match order with
         | None => ret (respond 404 (ErrorBody "ORDER_NOT_FOUND"))
         | Some order =>
             if negb (bool_decide (status order = paid)) then
               ret (respond 403 (ErrorBody "ORDER_NOT_PAID"))
             else if Z.ltb (downloadExpiry order) now then
               ret (respond 410 (ErrorBody "DOWNLOAD_EXPIRED"))
             else if negb (truthy_opt_string (pdfUrl order))
                     || negb (truthy_opt_string (docxUrl order)) then
               ret (respond 503 (ErrorBody "DOCUMENTS_NOT_READY"))
             else
               let* downloadLinks := getDownloadLinks env (params_id req) in
               ret (respond 200
                      (DownloadBody (doc_pdfUrl downloadLinks)
                         (doc_docxUrl downloadLinks) (downloadExpiry order)
                         (Z.max 0 (downloadExpiry order - now))))
         end)
  end.

(** ** A concrete shop, used by the examples below *)

Definition nda : Template :=
  {| template_id := "tpl_nda"; title := "Mutual NDA"; price := 999 # 100 |}.

Definition shop : World :=
  {| templates := {[ "tpl_nda" := nda ]}; orders := ∅;
     refund_calls := []; render_calls := []; mail_calls := [] |}.

Definition alice_data : CreatePendingOrderData :=
  {| cpo_templateId := "tpl_nda"; cpo_formData := "{}";
     cpo_customerEmail := "alice@example.com" |}.

Definition alice_metadata : gmap string string :=
  {[ "orderId" := "ord_1"; "templateId" := "tpl_nda";
     "customerEmail" := "alice@example.com"; "formData" := "{}" ]}.

Definition completed_session (cents : Z) : Session :=
  {| session_id := "cs_1"; metadata := Some alice_metadata;
     payment_intent := Some "pi_1"; amount_total := Some cents |}.

Definition expired_session : Session :=
  {| session_id := "cs_1"; metadata := Some alice_metadata;
     payment_intent := None; amount_total := None |}.

Definition bare_session : Session :=
  {| session_id := "cs_2"; metadata := None;
     payment_intent := Some "pi_2"; amount_total := Some 999 |}.

(** Stripe accepts the signature ["t=1,v1=ok"]; the body names the event. *)
Definition stripe_events (body sig : string) : result Event :=
  if negb (String.eqb sig "t=1,v1=ok") then
    Throw "No signatures found matching the expected signature for payload"
  else if String.eqb body "completed" then
    Ok {| event_id := "evt_1"; event_type := "checkout.session.completed";
          data_object := completed_session 999 |}
  else if String.eqb body "completed_500" then
    Ok {| event_id := "evt_2"; event_type := "checkout.session.completed";
          data_object := completed_session 500 |}
  else if String.eqb body "expired" then
    Ok {| event_id := "evt_3"; event_type := "checkout.session.expired";
          data_object := expired_session |}
  else if String.eqb body "bare" then
    Ok {| event_id := "evt_4"; event_type := "checkout.session.completed";
          data_object := bare_session |}
  else
    Ok {| event_id := "evt_5"; event_type := "customer.created";
          data_object := bare_session |}.

Definition the_documents : Documents :=
  {| doc_pdfUrl := "https://r2.example/documents/ord_1/ord_1.pdf?sig=a";
     doc_docxUrl := "https://r2.example/documents/ord_1/ord_1.docx?sig=b" |}.

(** Collaborators that all answer; [gateway_up] tells whether refunds go
    through. *)
Definition test_env (gateway_up : bool) : Env :=
  {| constructEvent := stripe_events;
     refunds_create := fun p =>
       if gateway_up then
         Ok {| refund_id := "re_1";
               refund_amount := default 0 (rp_amount p) |}
       else Throw "Stripe is unreachable";
     JSON_parse := fun s => Ok s;
     render_and_upload := fun _ _ _ => Ok the_documents;
     sgMail_send := fun _ _ _ => Ok tt;
     getSignedUrl := fun k => Ok ("https://r2.example/" ++ k ++ "?fresh");
     deleteFile := fun _ => Ok tt;
     isEmail := fun s => truthy_string s |}.

Definition signed (body : string) : WebhookRequest :=
  {| stripe_signature := Some "t=1,v1=ok"; raw_body := body |}.

(** The world after [alice_data] is checked out as ["ord_1"] at time 0. *)
Definition shop_pending : World :=
  snd (createPendingOrder alice_data "ord_1" 0 shop).

(** ... and after the payment is confirmed once. *)
Definition shop_paid : World :=
  snd (webhook (test_env true) (signed "completed") shop_pending).

(** The world after the paid order is refunded at time 5. *)
Definition shop_refunded : World :=
  snd (AdminService_processRefund (test_env true) "ord_1" "asked" "adm_1" 5
         shop_paid).

Definition alice_request : OrderRequest :=
  {| params_id := "ord_1"; query_email := Some "alice@example.com" |}.

(** The row of ["ord_1"] in [shop_pending]. *)
Definition alice_pending_order : Order :=
  {| order_id := "ord_1"; templateId := "tpl_nda";
     customerEmail := "alice@example.com"; formData := "{}";
     stripePaymentId := ""; amount := 999 # 100; status := pending;
     pdfUrl := None; docxUrl := None;
     downloadExpiry := 604800000; createdAt := 0; updatedAt := 0 |}.

(** The row of ["ord_1"] in [shop_paid]. *)
Definition alice_paid_order : Order :=
  {| order_id := "ord_1"; templateId := "tpl_nda";
     customerEmail := "alice@example.com"; formData := "{}";
     stripePaymentId := "pi_1"; amount := 999 # 100; status := paid;
     pdfUrl := Some (doc_pdfUrl the_documents);
     docxUrl := Some (doc_docxUrl the_documents);
     downloadExpiry := 604800000; createdAt := 0; updatedAt := 0 |}.

(** [test_env true], but SendGrid rejects every mail. *)
Definition mail_down_env : Env :=
  {| constructEvent := stripe_events;
     refunds_create := refunds_create (test_env true);
     JSON_parse := fun s => Ok s;
     render_and_upload := fun _ _ _ => Ok the_documents;
     sgMail_send := fun _ _ _ => Throw "Unauthorized";
     getSignedUrl := getSignedUrl (test_env true);
     deleteFile := fun _ => Ok tt;
     isEmail := fun s => truthy_string s |}.

(** ** Transitions of the system *)

(** What the outside can make the backend do to the order store. *)
Inductive Action :=
| Checkout (data : CreatePendingOrderData) (newId : string) (now : Z)
| Webhook (req : WebhookRequest)
| AdminRefund (orderId reason adminId : string) (now : Z)
| Sweep (now : Z).

Definition step (env : Env) (a : Action) (w : World) : World :=
  match a with
  | Checkout data newId now => snd (createPendingOrder data newId now w)
  | Webhook req => snd (webhook env req w)
  | AdminRefund orderId reason adminId now =>
      snd (AdminService_processRefund env orderId reason adminId now w)
  | Sweep now => snd (cleanupExpiredOrders env now w)
  end.

Definition run (env : Env) (acts : list Action) (w : World) : World :=
  fold_left (fun w a => step env a w) acts w.

(** What the sweeper may have done to the rows of [w0] when it has reached
    [w]: nothing, or cleared their artifact pointers. *)
Definition swept (w0 w : World) : Prop :=
  forall id,
    match orders w0 !! id with
    | Some o0 =>
        orders w !! id = Some o0
        \/ orders w !! id = Some (clear_documents o0)
    | None => orders w !! id = None
    end.

(** ** Letter case *)

(** [String.prototype.toLowerCase] on the ASCII letters. *)
Definition toLowerCase_ascii (c : ascii) : ascii :=
  let n := nat_of_ascii c in
  if ((65 <=? n) && (n <=? 90))%nat then ascii_of_nat (n + 32) else c.

Fixpoint toLowerCase (s : string) : string :=
  match s with
  | EmptyString => EmptyString
  | String c s' => String (toLowerCase_ascii c) (toLowerCase s')
  end.

(** Two strings that differ, but only in the case of their letters. *)
Definition differ_only_in_case (a b : string) : Prop :=
  toLowerCase a = toLowerCase b /\ a <> b.

(** The order has both artifact pointers, as the download route tests it. *)
Definition artifacts_ready (o : Order) : bool :=
  truthy_opt_string (pdfUrl o) && truthy_opt_string (docxUrl o).

(** ** Auxiliary notions for the properties of the sweeper and of runs *)

(** Every row is stored under its own id. *)
Definition keyed_by_id (w : World) : Prop :=
  forall id o, orders w !! id = Some o -> order_id o = id.

(** The [where] clause of [cleanupExpiredOrders]. *)
Definition sweepable (now : Z) (o : Order) : bool :=
  Z.ltb (downloadExpiry o) now && bool_decide (status o = paid).

(** Whether [delete_document] resolves. *)
Definition delete_ok (env : Env) (id : string) (url : option string) : bool :=
  match url with
  | Some u =>
      if truthy_string u then
        match deleteFile env ("documents/" ++ id ++ "/" ++ split_pop u) with
        | Ok _ => true
        | Throw _ => false
        end
      else true
  | None => true
  end.

(** Whether both files of an order are deleted without error. *)
Definition deletes_ok (env : Env) (o : Order) : bool :=
  delete_ok env (order_id o) (pdfUrl o)
  && delete_ok env (order_id o) (docxUrl o).

(** The columns no operation writes after creation. *)
Definition same_identity (o o' : Order) : Prop :=
  order_id o' = order_id o
  /\ templateId o' = templateId o
  /\ customerEmail o' = customerEmail o
  /\ formData o' = formData o
  /\ downloadExpiry o' = downloadExpiry o
  /\ createdAt o' = createdAt o.

(** The ways in which the operations rewrite a row. *)
Inductive row_change (o : Order) : Order -> Prop :=
| rc_same : row_change o o
| rc_status st ad : row_change o (updateData st ad o)
| rc_documents d ad : row_change o (documentsData d (updateData paid ad o))
| rc_refund now : row_change o (set_updatedAt now (set_status refunded o))
| rc_clear : row_change o (clear_documents o).

(** [test_env true], but the renderer fails. *)
Definition render_down_env : Env :=
  {| constructEvent := stripe_events;
     refunds_create := refunds_create (test_env true);
     JSON_parse := fun s => Ok s;
     render_and_upload := fun _ _ _ => Throw "Failed to launch the browser";
     sgMail_send := fun _ _ _ => Ok tt;
     getSignedUrl := getSignedUrl (test_env true);
     deleteFile := fun _ => Ok tt;
     isEmail := fun s => truthy_string s |}.

(** [test_env true], but the object store refuses to delete. *)
Definition storage_down_env : Env :=
  {| constructEvent := stripe_events;
     refunds_create := refunds_create (test_env true);
     JSON_parse := fun s => Ok s;
     render_and_upload := fun _ _ _ => Ok the_documents;
     sgMail_send := fun _ _ _ => Ok tt;
     getSignedUrl := fun _ => Throw "AccessDenied";
     deleteFile := fun _ => Throw "AccessDenied";
     isEmail := fun s => truthy_string s |}.

(** ** Further routes and services *)

(** A value of a JSON request body that the route reads without checking
    its type: a string, or a value of another kind, given by its
    truthiness and its text. *)
Inductive BodyValue :=
| BString (s : string)
| BOther (truthy : bool) (json : string).

Definition truthy_body (v : BodyValue) : bool :=
  match v with
  | BString s => truthy_string s
  | BOther truthy _ => truthy
  end.

(** The bodies of the replies of the routes below. *)
Inductive Payload :=
| PError (code : string)
| PErrorMessage (code message : string)
| PSent (sentTo : BodyValue)
| PRefund (refundId : option string) (amount : option Q)
| PCheckout (sessionId orderId : string).

Record Reply := {
  reply_status : Z;
  reply_payload : Payload
}.

Definition reply (c : Z) (p : Payload) : Reply :=
  {| reply_status := c; reply_payload := p |}.

(** As [run_route]: a [Throw] that reaches [next(error)] is answered by
    [errorHandler] with 500. *)
Definition run_reply (m : M Reply) : World -> Reply * World :=
  fun w =>
    match m w with
    | (Ok r, w') => (r, w')
    | (Throw _, w') => (reply 500 (PError "INTERNAL_ERROR"), w')
    end.

(** [OrderService.resendConfirmationEmail] *)
Definition resendConfirmationEmail (env : Env) (order : Order) : M unit :=
  try_catch
    (if negb (truthy_opt_string (pdfUrl order))
        || negb (truthy_opt_string (docxUrl order))
     then throw "Documents not available for this order"
     else
       let* downloadLinks := getDownloadLinks env (order_id order) in
       let* _ :=
         sendOrderConfirmation env (customerEmail order) order
           downloadLinks in
       ret tt)
    (fun _ => throw "Failed to resend confirmation email").

(** [prisma.order.findFirst({ where: { id, customerEmail } })] when the
    value given for [customerEmail] is not a string.  [prisma_filter] is
    Prisma's reading of such a value: it rejects the query, or takes the
    value for a filter on the column. *)
Definition order_findFirst_filter
    (prisma_filter : string -> result (string -> bool))
    (id json : string) : M (option Order) :=
  fun w =>
    match prisma_filter json with
    | Throw m => (Throw m, w)
    | Ok matches =>
        match orders w !! id with
        | Some o =>
            if matches (customerEmail o) then (Ok (Some o), w)
            else (Ok None, w)
        | None => (Ok None, w)
        end
    end.

(** [OrderService.getOrderByIdAndEmail] called with an [email] that is not
    a string. *)
Definition getOrderByIdAndFilter
    (prisma_filter : string -> result (string -> bool))
    (orderId json : string) : M (option Order) :=
  try_catch
    (order_findFirst_filter prisma_filter orderId json)
    (fun _ => throw "Failed to retrieve order").

Record ResendRequest := {
  rs_id : string;
  body_email : option BodyValue
}.

(** [router.post('/:id/resend-email')], behind [validateOrderId]; no
    validator looks at [req.body.email]. *)
Definition post_resend_email (env : Env)
    (prisma_filter : string -> result (string -> bool))
    (req : ResendRequest) : World -> Reply * World :=
  if negb (truthy_string (rs_id req)) then
    fun w => (reply 400 (PError "VALIDATION_ERROR"), w)
  else
    run_reply
      (match body_email req with
       | None => ret (reply 400 (PError "EMAIL_REQUIRED"))
       | Some email =>
           if negb (truthy_body email) then
             ret (reply 400 (PError "EMAIL_REQUIRED"))
           else
             let* order :=
               match email with
               | BString s => getOrderByIdAndEmail (rs_id req) s
               | BOther _ json =>
                   getOrderByIdAndFilter prisma_filter (rs_id req) json
               end in
             match order with
             | None => ret (reply 404 (PError "ORDER_NOT_FOUND"))
             | Some order =>
                 if negb (bool_decide (status order = paid)) then
                   ret (reply 403 (PError "ORDER_NOT_PAID"))
                 else
                   let* _ := resendConfirmationEmail env order in
                   ret (reply 200 (PSent email))
             end
       end).

(** The JSON text of the filter object whose only member is [not], with
    the empty string as its value. *)
Definition not_empty_json : string :=
  let q := String (ascii_of_nat 34) EmptyString in
  "{" ++ q ++ "not" ++ q ++ ":" ++ q ++ q ++ "}".

(** A reading of filters that knows [not_empty_json], which every address
    but the empty one satisfies, and rejects everything else. *)
Definition test_filter (json : string) : result (string -> bool) :=
  if String.eqb json not_empty_json
  then Ok (fun s => negb (String.eqb s EmptyString))
  else Throw "Invalid value provided".

(** The string has no slash. *)
Fixpoint slash_free (s : string) : bool :=
  match s with
  | EmptyString => true
  | String c s' => negb (Ascii.eqb c "/"%char) && slash_free s'
  end.

(** ** Admin authentication and the refund route *)

(** [interface JwtPayload] *)
Record JwtPayload := {
  adminId : string;
  jwt_email : string
}.

(** [s.split(' ')[1]]: the text between the first and the second space;
    [None] ([undefined]) when the string has no space. *)
Fixpoint after_space (s : string) : option string :=
  match s with
  | EmptyString => None
  | String c s' => if Ascii.eqb c " "%char then Some s' else after_space s'
  end.

Fixpoint until_space (s : string) : string :=
  match s with
  | EmptyString => EmptyString
  | String c s' =>
      if Ascii.eqb c " "%char then EmptyString else String c (until_space s')
  end.

Definition split_space_1 (s : string) : option string :=
  match after_space s with
  | Some rest => Some (until_space rest)
  | None => None
  end.

(** [authHeader && authHeader.split(' ')[1]], when it is truthy. *)
Definition bearer_token (authHeader : option string) : option string :=
  match authHeader with
  | Some h =>
      match split_space_1 h with
      | Some t => if truthy_string t then Some t else None
      | None => None
      end
  | None => None
  end.

(** The outcome of [authenticateToken] followed by [requireAdmin]: the
    payload put in [req.admin], or the reply that ends the request.
    [jwt_verify] is [jwt.verify(token, config.jwt.secret)]. *)
Definition authenticate (jwt_verify : string -> result JwtPayload)
    (authHeader : option string) : Reply + JwtPayload :=
  match bearer_token authHeader with
  | None => inl (reply 401 (PError "AUTH_TOKEN_MISSING"))
  | Some token =>
      match jwt_verify token with
      | Ok decoded => inr decoded
      | Throw _ => inl (reply 403 (PError "AUTH_TOKEN_INVALID"))
      end
  end.

Record RefundRequest := {
  authorization : option string;
  rf_id : string;
  rf_reason : string
}.

(** [router.post('/orders/:id/refund')] behind [authenticateToken] and
    [requireAdmin]. *)
Definition post_refund (env : Env) (jwt_verify : string -> result JwtPayload)
    (req : RefundRequest) (now : Z) : World -> Reply * World :=
  match authenticate jwt_verify (authorization req) with
  | inl r => fun w => (r, w)
  | inr admin =>
      run_reply
        (let* refund :=
           AdminService_processRefund env (rf_id req) (rf_reason req)
             (adminId admin) now in
         if negb (success refund) then
           ret (reply 400
                  (PErrorMessage "REFUND_FAILED"
                     (match message refund with
                      | Some m => if truthy_string m then m
                                  else "Refund processing failed"
                      | None => "Refund processing failed"
                      end)))
         else
           ret (reply 200 (PRefund (refundId refund) (rr_amount refund))))
  end.

(** A verifier that knows one token. *)
Definition test_verify (token : string) : result JwtPayload :=
  if String.eqb token "tok_admin" then
    Ok {| adminId := "adm_1"; jwt_email := "admin@example.com" |}
  else Throw "invalid signature".

(** The string has no space. *)
Fixpoint space_free (s : string) : bool :=
  match s with
  | EmptyString => true
  | String c s' => negb (Ascii.eqb c " "%char) && space_free s'
  end.

(** ** TemplateService: the cache in front of the template table *)

(** [cache] and [cacheExpiry] of [TemplateService], for the keys
    [template_<id>] that [getTemplateById] uses (the lists cached by
    [getAllTemplates] and [getCategories] live under other keys). *)
Record TemplateCache := {
  cache : gmap string Template;
  cacheExpiry : gmap string Z
}.

Definition CACHE_DURATION : Z := 15 * 60 * 1000.

Definition empty_cache : TemplateCache :=
  {| cache := ∅; cacheExpiry := ∅ |}.

(** [TemplateService.isCacheValid] *)
Definition isCacheValid (tc : TemplateCache) (key : string) (now : Z) : bool :=
  match cacheExpiry tc !! key with
  | Some expiry => Z.ltb now expiry
  | None => false
  end.

Definition template_key (id : string) : string := "template_" ++ id.

(** [TemplateService.getTemplateById]; the table lookup of the embedding
    does not fail, so the [catch] branch is not reached. *)
Definition getTemplateById (id : string) (now : Z) (tc : TemplateCache)
    (w : World) : option Template * TemplateCache :=
  if isCacheValid tc (template_key id) now then
    (cache tc !! template_key id, tc)
  else
    match templates w !! id with
    | None => (None, tc)
    | Some template =>
        (Some template,
         {| cache := <[template_key id := template]> (cache tc);
            cacheExpiry :=
              <[template_key id := now + CACHE_DURATION]> (cacheExpiry tc) |})
    end.

(** [TemplateService.clearCache] *)
Definition clearCache (tc : TemplateCache) : TemplateCache := empty_cache.

(** ** PaymentService.createCheckoutSession and its route *)

(** The parameters of [stripe.checkout.sessions.create] that depend on the
    request (the constant ones and the URLs are left out). *)
Record CheckoutParams := {
  cp_customer_email : string;
  cp_product_name : string;
  cp_unit_amount : Z;
  cp_metadata : gmap string string;
  cp_expires_at : Z
}.

Definition checkoutParams (template : Template)
    (data : CreatePendingOrderData) (orderId : string) (now : Z)
    : CheckoutParams :=
  {| cp_customer_email := cpo_customerEmail data;
     cp_product_name := title template;
     cp_unit_amount := Math_round (price template * 100);
     cp_metadata :=
       {[ "orderId" := orderId;
          "templateId" := cpo_templateId data;
          "customerEmail" := cpo_customerEmail data;
          "formData" := cpo_formData data ]};
     cp_expires_at := now / 1000 + 30 * 60 |}.

(** [PaymentService.createCheckoutSession]; [sessions_create] is
    [stripe.checkout.sessions.create] and answers the id of the session. *)
Definition createCheckoutSession
    (sessions_create : CheckoutParams -> result string)
    (data : CreatePendingOrderData) (orderId : string) (now : Z)
    (tc : TemplateCache) (w : World) : result string * TemplateCache :=
  match getTemplateById (cpo_templateId data) now tc w with
  | (None, tc') => (Throw "Failed to create checkout session", tc')
  | (Some template, tc') =>
      match sessions_create (checkoutParams template data orderId now) with
      | Ok session => (Ok session, tc')
      | Throw _ => (Throw "Failed to create checkout session", tc')
      end
  end.

(** [router.post('/create-checkout-session')] behind
    [validateCreateCheckoutSession]. *)
Definition post_create_checkout_session (env : Env)
    (sessions_create : CheckoutParams -> result string)
    (data : CreatePendingOrderData) (newId : string) (now : Z)
    (tc : TemplateCache) (w : World) : Reply * (TemplateCache * World) :=
  if negb (truthy_string (cpo_templateId data)
           && isEmail env (cpo_customerEmail data)) then
    (reply 400 (PError "VALIDATION_ERROR"), (tc, w))
  else
    match createPendingOrder data newId now w with
    | (Throw _, w') => (reply 500 (PError "INTERNAL_ERROR"), (tc, w'))
    | (Ok order, w') =>
        match createCheckoutSession sessions_create data (order_id order)
                now tc w' with
        | (Ok session, tc') =>
            (reply 200 (PCheckout session (order_id order)), (tc', w'))
        | (Throw _, tc') =>
            (reply 500 (PError "INTERNAL_ERROR"), (tc', w'))
        end
    end.

(** The session Stripe reports back for given parameters. *)
Definition session_of (p : CheckoutParams) (pi : string) : Session :=
  {| session_id := "cs_test"; metadata := Some (cp_metadata p);
     payment_intent := Some pi; amount_total := Some (cp_unit_amount p) |}.

(** The template table with the price of ["tpl_nda"] raised. *)
Definition shop_repriced : World :=
  {| templates :=
       {[ "tpl_nda" :=
            {| template_id := "tpl_nda"; title := "Mutual NDA";
               price := 1999 # 100 |} ]};
     orders := ∅; refund_calls := []; render_calls := [];
     mail_calls := [] |}.

Definition repriced_nda : Template :=
  {| template_id := "tpl_nda"; title := "Mutual NDA"; price := 1999 # 100 |}.

(** [shop_repriced] after [alice_data] is checked out at time 60000. *)
Definition shop_repriced_pending : World :=
  snd (createPendingOrder alice_data "ord_1" 60000 shop_repriced).

(** ** AdminService.getAnalytics *)

(** *** Numbers

    A number of the code is an IEEE 754 double.  The finite doubles are
    rationals, and a rational that is not a double stands for the double
    nearest to it.  [round64] rounds to the nearest double, ties to even,
    subnormal numbers included; what lies beyond the largest double
    ([Infinity] in the code) is outside its range. *)

Definition round_half_even (q : Q) : Z :=
  let f := Qfloor q in
  match Qcompare (q - inject_Z f) (1 # 2) with
  | Lt => f
  | Gt => f + 1
  | Eq => if Z.even f then f else f + 1
  end.

(** The exponent [e] with [2 ^ e <= q < 2 ^ (e + 1)], for [q > 0]. *)
Definition floor_log2 (q : Q) : Z :=
  let e := Z.log2 (Qnum q) - Z.log2 (Zpos (Qden q)) in
  if Qle_bool (Qpower 2 e) q then e else e - 1.

Definition round64 (q : Q) : Q :=
  if Qeq_bool q 0 then 0%Q
  else
    let e := Z.max (floor_log2 (Qabs q) - 52) (-1074) in
    Qred (inject_Z (round_half_even (q / Qpower 2 e)) * Qpower 2 e).

(** [x + y] and [x / y] on numbers. *)
Definition js_add (x y : Q) : Q := round64 (round64 x + round64 y).

Definition js_div (x y : Q) : Q := round64 (round64 x / round64 y).

(** The double nearest to an integer: the integer itself below [2 ^ 53],
    above it the nearest multiple of the spacing of the doubles there. *)
Definition double_of_Z (n : Z) : Z :=
  let a := Z.abs n in
  if Z.ltb a (2 ^ 53) then n
  else
    let e := Z.log2 a - 52 in
    let m := a / 2 ^ e in
    let r := a mod 2 ^ e in
    let half := 2 ^ (e - 1) in
    let m' :=
      if Z.ltb half r || (Z.eqb r half && Z.odd m) then m + 1 else m in
    Z.sgn n * (m' * 2 ^ e).

(** *** The period *)


(** White space as [parseInt] and [trim] see it, for code units below
    256. *)
Definition is_space (c : ascii) : bool :=
  let n := nat_of_ascii c in
  ((9 <=? n) && (n <=? 13) || (n =? 32) || (n =? 160))%nat.

Definition digit_of (c : ascii) : option Z :=
  let n := nat_of_ascii c in
  if ((48 <=? n) && (n <=? 57))%nat then Some (Z.of_nat n - 48) else None.

Fixpoint skip_space (s : string) : string :=
  match s with
  | EmptyString => EmptyString
  | String c s' => if is_space c then skip_space s' else s
  end.

(** The value of the longest prefix of digits; [None] when there is none. *)
Fixpoint parse_digits (acc : option Z) (s : string) : option Z :=
  match s with
  | EmptyString => acc
  | String c s' =>
      match digit_of c with
      | Some d => parse_digits (Some (10 * default 0 acc + d)) s'
      | None => acc
      end
  end.

(** [parseInt(s, 10)], with [None] for [NaN]: the double nearest to the
    integer the digits spell. *)
Definition parseInt10 (s : string) : option Z :=
  double_of_Z <$>
    match skip_space s with
    | String "-"%char s' => Z.opp <$> parse_digits None s'
    | String "+"%char s' => parse_digits None s'
    | s' => parse_digits None s'
    end.

(** [s.replace('d', '')]: the string without its first [d]. *)
Fixpoint remove_first_d (s : string) : string :=
  match s with
  | EmptyString => EmptyString
  | String c s' => if Ascii.eqb c "d"%char then s' else String c (remove_first_d s')
  end.

(** [parseInt(period.replace('d', ''), 10) || 30] *)
Definition analytics_days (period : string) : Z :=
  match parseInt10 (remove_first_d period) with
  | Some n => if Z.eqb n 0 then 30 else n
  | None => 30
  end.

Definition status_name (st : Status) : string :=
  match st with
  | pending => "pending"
  | paid => "paid"
  | failed => "failed"
  | refunded => "refunded"
  end.

(** An entry of [templateCounts]. *)
Record TemplateRevenue := {
  tr_templateId : string;
  tr_template : option Template;
  tr_count : Z;
  tr_revenue : Q
}.

Record RevenueAnalytics := {
  totalRevenue : Q;
  totalOrders : nat;
  averageOrderValue : Q;
  ordersByStatus : gmap string nat;
  topTemplates : list TemplateRevenue;
  recentOrders : list Order
}.

(** [orders.filter(order => order.status === 'paid')] *)
Definition paid_orders (os : list Order) : list Order :=
  List.filter (fun order => bool_decide (status order = paid)) os.

(** [paidOrders.reduce((sum, order) => sum + order.amount, 0)]: the
    amounts are added one after the other, each sum rounded. *)
Definition sum_amounts (os : list Order) : Q :=
  fold_left (fun sum order => js_add sum (amount order)) os 0%Q.

(** [acc[order.status] = (acc[order.status] || 0) + 1] *)
Definition count_status (acc : gmap string nat) (order : Order)
    : gmap string nat :=
  <[status_name (status order) :=
      (default 0 (acc !! status_name (status order)) + 1)%nat]> acc.

(** The names every object inherits from [Object.prototype]: read from the
    fresh object [{}] they give a function (or, for [__proto__], the
    prototype itself), which is truthy. *)
Definition object_prototype_key (key : string) : bool :=
  existsb (String.eqb key)
    [ "constructor"; "__proto__"; "hasOwnProperty"; "isPrototypeOf";
      "propertyIsEnumerable"; "toLocaleString"; "toString"; "valueOf";
      "__defineGetter__"; "__defineSetter__"; "__lookupGetter__";
      "__lookupSetter__" ].

(** The entry of [templateId] gets one order more; the object is the list
    of its own entries in the order the keys were added. *)
Fixpoint count_entry (tpl : option Template) (order : Order)
    (acc : list TemplateRevenue) : list TemplateRevenue :=
  match acc with
  | [] =>
      [ {| tr_templateId := templateId order; tr_template := tpl;
           tr_count := 0 + 1; tr_revenue := js_add 0 (amount order) |} ]
  | g :: acc' =>
      if String.eqb (tr_templateId g) (templateId order) then
        {| tr_templateId := tr_templateId g; tr_template := tr_template g;
           tr_count := tr_count g + 1;
           tr_revenue := js_add (tr_revenue g) (amount order) |} :: acc'
      else g :: count_entry tpl order acc'
  end.

(** One step of the reduction that builds [templateCounts].  For a
    template id that names an inherited property, [acc[templateId]] is
    truthy without being an entry: the two updates go to the inherited
    value and [acc] gets no entry of its own. *)
Definition count_template (tpl : option Template) (order : Order)
    (acc : list TemplateRevenue) : list TemplateRevenue :=
  if object_prototype_key (templateId order) then acc
  else count_entry tpl order acc.

(** Whether a key is an array index: such keys come first, in numeric
    order, when the values of an object are listed. *)
Fixpoint all_digits (s : string) : bool :=
  match s with
  | EmptyString => true
  | String c s' =>
      match digit_of c with Some _ => all_digits s' | None => false end
  end.

Definition array_index (key : string) : option Z :=
  match key with
  | EmptyString => None
  | String c rest =>
      if all_digits key
         && (negb (Ascii.eqb c "0"%char) || String.eqb rest "")
      then
        match parse_digits None key with
        | Some n => if Z.leb n 4294967294 then Some n else None
        | None => None
        end
      else None
  end.

(** Stable insertion into a list sorted by [before]: after the last
    element that may stay before [x]. *)
Fixpoint insert_sorted {A} (before : A -> A -> bool) (x : A) (l : list A)
    : list A :=
  match l with
  | [] => [x]
  | y :: l' =>
      if before y x then y :: insert_sorted before x l' else x :: y :: l'
  end.

(** [Array.prototype.sort] with a comparator that orders consistently:
    the stable sort.  [before y x] says that the comparator does not put
    [x] before [y]. *)
Definition stable_sort {A} (before : A -> A -> bool) (l : list A) : list A :=
  fold_left (fun sorted x => insert_sorted before x sorted) l [].

(** [Object.values(templateCounts)] *)
Definition object_values (acc : list TemplateRevenue) : list TemplateRevenue :=
  stable_sort
    (fun y x =>
       match array_index (tr_templateId y), array_index (tr_templateId x) with
       | Some i, Some j => Z.leb i j
       | _, _ => true
       end)
    (List.filter (fun g => bool_decide (is_Some (array_index (tr_templateId g))))
       acc)
  ++ List.filter
       (fun g => negb (bool_decide (is_Some (array_index (tr_templateId g)))))
       acc.

(** The orders the query of [getAnalytics] returns. *)
Definition orders_since (startDate : Z) (w : World) : list Order :=
  List.filter (fun o => Z.leb startDate (createdAt o))
    (List.map snd (map_to_list (orders w))).

(** The largest time value of a [Date], in milliseconds either side of
    the epoch; beyond it a date is invalid. *)
Definition MAX_TIME : Z := 8640000000000000.

(** [AdminService.getAnalytics].  [startDate] is [now] set back by [days]
    days of 86400000 milliseconds, as [setDate_plus7] sets it forward; when
    that is no valid date the query is rejected, and the [catch] branch
    throws.  The rows come in the order of the table.  The comparator of
    [topTemplates] takes the sign of a difference of two doubles, which is
    the sign of the exact difference. *)
Definition getAnalytics (period : string) (now : Z) (w : World)
    : result RevenueAnalytics :=
  let days := analytics_days period in
  let startDate := now - days * 86400000 in
  if Z.ltb MAX_TIME (Z.abs startDate) then
    Throw "Failed to retrieve analytics"
  else
    let orders := orders_since startDate w in
    let paidOrders := paid_orders orders in
    let totalRevenue := sum_amounts paidOrders in
    let totalOrders := length paidOrders in
    let averageOrderValue :=
      if (0 <? totalOrders)%nat
      then js_div totalRevenue (inject_Z (Z.of_nat totalOrders)) else 0%Q in
    let ordersByStatus := fold_left count_status orders ∅ in
    let templateCounts :=
      fold_left
        (fun acc order =>
           count_template (templates w !! templateId order) order acc)
        paidOrders [] in
    let topTemplates :=
      take 10
        (stable_sort (fun a b => Qle_bool (tr_revenue b) (tr_revenue a))
           (object_values templateCounts)) in
    let recentOrders :=
      take 10
        (stable_sort (fun a b => Z.leb (createdAt b) (createdAt a)) orders) in
    Ok {| totalRevenue := totalRevenue;
          totalOrders := totalOrders;
          averageOrderValue := averageOrderValue;
          ordersByStatus := ordersByStatus;
          topTemplates := topTemplates;
          recentOrders := recentOrders |}.

(** The paid orders of a template among [os]. *)
Definition orders_of_template (id : string) (os : list Order) : list Order :=
  List.filter (fun order => String.eqb (templateId order) id) os.

(** [gs] counts the templates of [os]: one entry for each template id of
    [os] that names no inherited property, holding the number of its
    orders, their amounts added up in their order, and the template of
    the table. *)
Definition counts_templates (w : World) (os : list Order)
    (gs : list TemplateRevenue) : Prop :=
  List.NoDup (List.map tr_templateId gs)
  /\ (forall id,
        In id (List.map tr_templateId gs)
        <-> object_prototype_key id = false
            /\ exists o, In o os /\ templateId o = id)
  /\ forall g, In g gs ->
       tr_count g
       = Z.of_nat (length (orders_of_template (tr_templateId g) os))
       /\ tr_revenue g = sum_amounts (orders_of_template (tr_templateId g) os)
       /\ tr_template g = templates w !! tr_templateId g.


(** ** Validators: sanitizing user input *)

(** The string without its trailing white space. *)
Fixpoint trim_end (s : string) : string :=
  match s with
  | EmptyString => EmptyString
  | String c s' =>
      match trim_end s' with
      | EmptyString => if is_space c then EmptyString else String c EmptyString
      | t => String c t
      end
  end.

(** [str.trim()] *)
Definition trim (str : string) : string := trim_end (skip_space str).

(** [s.replace(/[<>]/g, '')] *)
Fixpoint remove_angles (s : string) : string :=
  match s with
  | EmptyString => EmptyString
  | String c s' =>
      if Ascii.eqb c "<"%char || Ascii.eqb c ">"%char then remove_angles s'
      else String c (remove_angles s')
  end.

(** [sanitizeString] *)
Definition sanitizeString (str : string) : string :=
  remove_angles (trim str).

(** ** Basic facts *)

Lemma order_update_found id data w o :
  orders w !! id = Some o ->
  order_update id data w
  = (Ok (data o), with_orders (<[id := data o]> (orders w)) w).
Proof. intros H. unfold order_update. now rewrite H. Qed.

Lemma order_update_missing id data w :
  orders w !! id = None ->
  order_update id data w = (Throw "Record to update not found.", w).
Proof. intros H. unfold order_update. now rewrite H. Qed.

Lemma updateOrderStatus_found orderId st ad w o :
  orders w !! orderId = Some o ->
  updateOrderStatus orderId st ad w
  = (Ok (updateData st ad o),
     with_orders (<[orderId := updateData st ad o]> (orders w)) w).
Proof.
  intros H. unfold updateOrderStatus, try_catch.
  now rewrite (order_update_found _ _ _ _ H).
Qed.

Lemma updateOrderStatus_missing orderId st ad w :
  orders w !! orderId = None ->
  updateOrderStatus orderId st ad w
  = (Throw "Failed to update order status", w).
Proof.
  intros H. unfold updateOrderStatus, try_catch.
  now rewrite (order_update_missing _ _ _ H).
Qed.

Lemma updateData_status st ad o : status (updateData st ad o) = st.
Proof.
  unfold updateData.
  destruct (ad_stripePaymentId ad) as [p|], (ad_amount ad) as [a|];
    repeat match goal with |- context [if ?b then _ else _] => destruct b end;
    reflexivity.
Qed.

Lemma updateData_downloadExpiry st ad o :
  downloadExpiry (updateData st ad o) = downloadExpiry o.
Proof.
  unfold updateData.
  destruct (ad_stripePaymentId ad) as [p|], (ad_amount ad) as [a|];
    repeat match goal with |- context [if ?b then _ else _] => destruct b end;
    reflexivity.
Qed.

Lemma updateData_artifacts st ad o :
  pdfUrl (updateData st ad o) = pdfUrl o
  /\ docxUrl (updateData st ad o) = docxUrl o.
Proof.
  unfold updateData.
  destruct (ad_stripePaymentId ad) as [p|], (ad_amount ad) as [a|];
    repeat match goal with |- context [if ?b then _ else _] => destruct b end;
    split; reflexivity.
Qed.

Lemma documentsData_frame d o :
  status (documentsData d o) = status o
  /\ downloadExpiry (documentsData d o) = downloadExpiry o
  /\ amount (documentsData d o) = amount o.
Proof.
  unfold documentsData.
  destruct (du_pdfUrl d), (du_docxUrl d); repeat split; reflexivity.
Qed.

Lemma getOrderByIdAndEmail_found orderId email w o :
  orders w !! orderId = Some o ->
  getOrderByIdAndEmail orderId email w
  = (Ok (if String.eqb (customerEmail o) email then Some o else None), w).
Proof.
  intros H. unfold getOrderByIdAndEmail, try_catch, order_findFirst.
  rewrite H. now destruct (String.eqb (customerEmail o) email).
Qed.

Lemma getOrderByIdAndEmail_missing orderId email w :
  orders w !! orderId = None ->
  getOrderByIdAndEmail orderId email w = (Ok None, w).
Proof.
  intros H. unfold getOrderByIdAndEmail, try_catch, order_findFirst.
  now rewrite H.
Qed.

(** ** The refund, step by step *)

Lemma PaymentService_processRefund_eq env pid amt reason w :
  PaymentService_processRefund env pid amt reason w
  = (Ok match refunds_create env (refundParams pid amt reason) with
        | Ok refund =>
            {| success := true; refundId := Some (refund_id refund);
               rr_amount := Some (inject_Z (refund_amount refund) / 100)%Q;
               message := None |}
        | Throw msg => refund_failure msg
        end,
     snd (log_refund (refundParams pid amt reason) w)).
Proof.
  unfold PaymentService_processRefund, try_catch, bind, lift, log_refund, ret.
  cbn [snd].
  now destruct (refunds_create env (refundParams pid amt reason)).
Qed.

Lemma processRefund_not_paid env orderId reason adminId now w o :
  orders w !! orderId = Some o ->
  status o <> paid ->
  AdminService_processRefund env orderId reason adminId now w
  = (Ok (refund_failure "Only paid orders can be refunded"), w).
Proof.
  intros Ho Hs.
  unfold AdminService_processRefund, try_catch, bind, order_findUnique.
  rewrite Ho. now rewrite bool_decide_eq_false_2.
Qed.

Lemma processRefund_paid env orderId reason adminId now w o :
  orders w !! orderId = Some o ->
  status o = paid ->
  AdminService_processRefund env orderId reason adminId now w
  = match refunds_create env (order_refundParams o) with
    | Ok refund =>
        (Ok {| success := true; refundId := Some (refund_id refund);
               rr_amount := Some (inject_Z (refund_amount refund) / 100)%Q;
               message := None |},
         with_orders
           (<[orderId := set_updatedAt now (set_status refunded o)]> (orders w))
           (snd (log_refund (order_refundParams o) w)))
    | Throw msg =>
        (Ok (refund_failure msg), snd (log_refund (order_refundParams o) w))
    end.
Proof.
  intros Ho Hs.
  unfold AdminService_processRefund, try_catch, bind, order_findUnique.
  rewrite Ho, Hs. cbn [bool_decide decide_rel negb].
  rewrite bool_decide_eq_true_2 by reflexivity.
  rewrite bool_decide_eq_false_2 by discriminate. cbn [negb].
  rewrite PaymentService_processRefund_eq. fold (order_refundParams o).
  destruct (refunds_create env (order_refundParams o)) as [refund|msg];
    cbn [success refund_failure negb ret].
  - rewrite (order_update_found orderId _ _ o) by exact Ho. reflexivity.
  - reflexivity.
Qed.

Lemma processRefund_orders env orderId reason adminId now w :
  orders (snd (AdminService_processRefund env orderId reason adminId now w))
  = orders w
  \/ exists o,
       orders w !! orderId = Some o
       /\ orders (snd (AdminService_processRefund env orderId reason adminId
                         now w))
          = <[orderId := set_updatedAt now (set_status refunded o)]> (orders w).
Proof.
  destruct (orders w !! orderId) as [o|] eqn:Ho.
  - destruct (decide (status o = paid)) as [Hs|Hs].
    + rewrite (processRefund_paid env orderId reason adminId now w o Ho Hs).
      destruct (refunds_create env (order_refundParams o)) as [refund|m].
      * right. exists o. split; reflexivity.
      * now left.
    + left.
      now rewrite (processRefund_not_paid env orderId reason adminId now w o
                     Ho Hs).
  - left. unfold AdminService_processRefund, try_catch, bind, order_findUnique.
    now rewrite Ho.
Qed.

(** ** The webhook, step by step *)

Lemma handleCheckoutSessionCompleted_eq env session w :
  handleCheckoutSessionCompleted env session w
  = match truthy_field session "orderId",
          truthy_field session "templateId",
          truthy_field session "customerEmail",
          truthy_field session "formData" with
    | Some orderId, Some templateId, Some customerEmail, Some formData =>
        match orders w !! orderId with
        | None => (Throw "Failed to update order status", w)
        | Some o =>
            let o1 :=
              updateData paid
                {| ad_stripePaymentId := payment_intent session;
                   ad_amount := Some (session_amount session) |} o in
            let wa := with_orders (<[orderId := o1]> (orders w)) w in
            match JSON_parse env formData with
            | Throw m => (Throw m, wa)
            | Ok parsed =>
                let wb := snd (log_render (templateId, parsed, o1) wa) in
                match render_and_upload env templateId parsed o1 with
                | Throw _ => (Throw "Failed to generate documents", wb)
                | Ok d =>
                    let o2 :=
                      documentsData
                        {| du_pdfUrl := Some (doc_pdfUrl d);
                           du_docxUrl := Some (doc_docxUrl d) |} o1 in
                    let wd :=
                      snd (log_mail (customerEmail, o1, d)
                             (with_orders (<[orderId := o2]> (orders w)) wb)) in
                    match sgMail_send env customerEmail o1 d with
                    | Ok _ => (Ok tt, wd)
                    | Throw _ =>
                        (Throw "Failed to send confirmation email", wd)
                    end
                end
            end
        end
    | _, _, _, _ =>
        (Throw "Missing required metadata in checkout session", w)
    end.
Proof.
  unfold handleCheckoutSessionCompleted.
  destruct (truthy_field session "orderId") as [orderId|];
    [|reflexivity].
  destruct (truthy_field session "templateId") as [templateId|];
    [|reflexivity].
  destruct (truthy_field session "customerEmail") as [customerEmail|];
    [|reflexivity].
  destruct (truthy_field session "formData") as [formData0|];
    [|reflexivity].
  unfold try_catch at 1. unfold bind at 1.
  destruct (orders w !! orderId) as [o|] eqn:Ho.
  - rewrite (updateOrderStatus_found _ _ _ _ _ Ho).
    unfold bind at 1. unfold lift at 1.
    destruct (JSON_parse env formData0) as [parsed|m]; [|reflexivity].
    unfold bind at 1. unfold generateDocuments, bind, try_catch, lift, throw.
    cbn [log_render fst snd].
    destruct (render_and_upload env templateId parsed _) as [d|m];
      [|reflexivity].
    unfold updateOrderDocuments, try_catch, bind.
    erewrite order_update_found
      by (cbn [orders with_orders]; apply lookup_insert_eq).
    cbn [ret orders with_orders]. rewrite insert_insert_eq.
    unfold sendOrderConfirmation, bind, try_catch, lift, throw, ret.
    cbn [log_mail fst snd].
    cbn [templates orders refund_calls render_calls mail_calls with_orders].
    destruct (sgMail_send env customerEmail _ d) as [[]|m]; reflexivity.
  - now rewrite (updateOrderStatus_missing _ _ _ _ Ho).
Qed.

Lemma handleCheckoutSessionExpired_eq session w :
  handleCheckoutSessionExpired session w
  = match truthy_field session "orderId" with
    | Some orderId =>
        match orders w !! orderId with
        | Some o =>
            (Ok tt,
             with_orders
               (<[orderId := updateData failed no_additionalData o]> (orders w))
               w)
        | None => (Ok tt, w)
        end
    | None => (Ok tt, w)
    end.
Proof.
  unfold handleCheckoutSessionExpired, try_catch, bind.
  destruct (truthy_field session "orderId") as [orderId|]; [|reflexivity].
  destruct (orders w !! orderId) as [o|] eqn:Ho.
  - now rewrite (updateOrderStatus_found _ _ _ _ _ Ho).
  - now rewrite (updateOrderStatus_missing _ _ _ _ Ho).
Qed.

Lemma webhook_eq env req sig w :
  stripe_signature req = Some sig ->
  truthy_string sig = true ->
  webhook env req w
  = match constructEvent env (raw_body req) sig with
    | Throw _ => (respond 400 (ErrorBody "WEBHOOK_SIGNATURE_INVALID"), w)
    | Ok event =>
        if String.eqb (event_type event) "checkout.session.completed" then
          match handleCheckoutSessionCompleted env (data_object event) w with
          | (Ok _, w') => (respond 200 Received, w')
          | (Throw _, w') =>
              (respond 400 (ErrorBody "WEBHOOK_SIGNATURE_INVALID"), w')
          end
        else if String.eqb (event_type event) "checkout.session.expired" then
          (respond 200 Received,
           snd (handleCheckoutSessionExpired (data_object event) w))
        else (respond 200 Received, w)
    end.
Proof.
  intros Hs Ht. unfold webhook. rewrite Hs, Ht. cbn [negb].
  unfold run_route, try_catch, bind, lift.
  destruct (constructEvent env (raw_body req) sig) as [event|m];
    [|reflexivity].
  destruct (String.eqb (event_type event) "checkout.session.completed").
  - now destruct (handleCheckoutSessionCompleted env (data_object event) w)
      as [[[]|m] w'].
  - destruct (String.eqb (event_type event) "checkout.session.expired").
    + rewrite handleCheckoutSessionExpired_eq.
      destruct (truthy_field (data_object event) "orderId") as [orderId|];
        [|reflexivity].
      now destruct (orders w !! orderId).
    + destruct (String.eqb (event_type event) "payment_intent.succeeded");
        [reflexivity|].
      now destruct (String.eqb (event_type event)
                      "payment_intent.payment_failed").
Qed.

Lemma webhook_unsigned env req w :
  truthy_opt_string (stripe_signature req) = false ->
  webhook env req w
  = (respond 400 (ErrorBody "WEBHOOK_SIGNATURE_MISSING"), w).
Proof.
  unfold webhook, truthy_opt_string.
  destruct (stripe_signature req) as [sig|]; [|reflexivity].
  intros H. now rewrite H.
Qed.

(** What one webhook delivery can do to the order table: nothing, or
    rewrite one existing row, keeping its [downloadExpiry] and leaving it
    in a status other than pending. *)
Lemma webhook_orders env req w :
  orders (snd (webhook env req w)) = orders w
  \/ exists id o o',
       orders w !! id = Some o
       /\ orders (snd (webhook env req w)) = <[id := o']> (orders w)
       /\ downloadExpiry o' = downloadExpiry o
       /\ status o' <> pending
       /\ (status o' = paid
           \/ pdfUrl o' = pdfUrl o /\ docxUrl o' = docxUrl o).
Proof.
  destruct (truthy_opt_string (stripe_signature req)) eqn:Hs.
  2:{ left. now rewrite webhook_unsigned. }
  unfold truthy_opt_string in Hs.
  destruct (stripe_signature req) as [sig|] eqn:Hsig; [|discriminate].
  rewrite (webhook_eq env req sig w Hsig Hs).
  destruct (constructEvent env (raw_body req) sig) as [event|m];
    [|now left].
  destruct (String.eqb (event_type event) "checkout.session.completed").
  - rewrite handleCheckoutSessionCompleted_eq.
    destruct (truthy_field (data_object event) "orderId") as [orderId|];
      [|now left].
    destruct (truthy_field (data_object event) "templateId") as [templateId|];
      [|now left].
    destruct (truthy_field (data_object event) "customerEmail")
      as [customerEmail|]; [|now left].
    destruct (truthy_field (data_object event) "formData") as [formData0|];
      [|now left].
    destruct (orders w !! orderId) as [o|] eqn:Ho; [|now left].
    right. exists orderId, o.
    destruct (JSON_parse env formData0) as [parsed|m].
    + cbn zeta.
      destruct (render_and_upload env templateId parsed _) as [d|m].
      * eexists. split; [exact Ho|].
        destruct (sgMail_send env customerEmail _ d) as [[]|m];
          cbn [snd log_mail log_render orders with_orders];
          (split; [reflexivity|]);
          (split;
           [ rewrite (proj1 (proj2 (documentsData_frame _ _)));
             apply updateData_downloadExpiry
           | rewrite (proj1 (documentsData_frame _ _)), updateData_status;
             split; [discriminate | now left] ]).
      * eexists. split; [exact Ho|].
        cbn [snd log_render orders with_orders].
        split; [reflexivity|].
        split; [apply updateData_downloadExpiry|].
        rewrite updateData_status. split; [discriminate | now left].
    + eexists. split; [exact Ho|].
      cbn [snd orders with_orders]. split; [reflexivity|].
      split; [apply updateData_downloadExpiry|].
      rewrite updateData_status. split; [discriminate | now left].
  - destruct (String.eqb (event_type event) "checkout.session.expired");
      [|now left].
    rewrite handleCheckoutSessionExpired_eq.
    destruct (truthy_field (data_object event) "orderId") as [orderId|];
      [|now left].
    destruct (orders w !! orderId) as [o|] eqn:Ho; [|now left].
    right. exists orderId, o. eexists. split; [exact Ho|].
    cbn [snd orders with_orders]. split; [reflexivity|].
    split; [apply updateData_downloadExpiry|].
    rewrite updateData_status. split; [discriminate|].
    right. apply updateData_artifacts.
Qed.

Lemma truthy_num_cents a :
  a <> 0 -> truthy_num (inject_Z a / 100) = true.
Proof.
  intros Ha. unfold truthy_num.
  destruct (Qeq_bool (inject_Z a / 100) 0) eqn:E; [|reflexivity].
  exfalso. apply Qeq_bool_iff in E. unfold Qeq in E. cbn in E. lia.
Qed.

Lemma updateData_session_amount st session o :
  amount
    (updateData st
       {| ad_stripePaymentId := payment_intent session;
          ad_amount := Some (session_amount session) |} o)
  = match amount_total session with
    | Some a => if Z.eqb a 0 then amount o else (inject_Z a / 100)%Q
    | None => amount o
    end.
Proof.
  unfold updateData, session_amount. cbn [ad_stripePaymentId ad_amount].
  assert (Hp : forall o0,
    amount match payment_intent session with
           | Some p => if truthy_string p
                       then set_stripePaymentId p (set_status st o0)
                       else set_status st o0
           | None => set_status st o0
           end = amount o0).
  { intros o0. destruct (payment_intent session) as [p|]; [|reflexivity].
    now destruct (truthy_string p). }
  destruct (amount_total session) as [a|].
  - destruct (Z.eqb_spec a 0) as [->|Ha].
    + cbn [truthy_num Qeq_bool]. apply Hp.
    + now rewrite (truthy_num_cents a Ha).
  - apply Hp.
Qed.

(** One delivery of a verified checkout.session.completed event whose
    metadata is complete and names an existing order. *)
Lemma webhook_completed_once env req sig event orderId templateId
    customerEmail formData0 o w :
  stripe_signature req = Some sig ->
  truthy_string sig = true ->
  constructEvent env (raw_body req) sig = Ok event ->
  event_type event = "checkout.session.completed" ->
  truthy_field (data_object event) "orderId" = Some orderId ->
  truthy_field (data_object event) "templateId" = Some templateId ->
  truthy_field (data_object event) "customerEmail" = Some customerEmail ->
  truthy_field (data_object event) "formData" = Some formData0 ->
  orders w !! orderId = Some o ->
  let o1 :=
    updateData paid
      {| ad_stripePaymentId := payment_intent (data_object event);
         ad_amount := Some (session_amount (data_object event)) |} o in
  (exists o',
     orders (snd (webhook env req w)) !! orderId = Some o'
     /\ status o' = paid /\ amount o' = amount o1)
  /\ match JSON_parse env formData0 with
     | Throw _ =>
         render_calls (snd (webhook env req w)) = render_calls w
         /\ mail_calls (snd (webhook env req w)) = mail_calls w
     | Ok parsed =>
         render_calls (snd (webhook env req w))
         = (render_calls w ++ [(templateId, parsed, o1)])%list
         /\ match render_and_upload env templateId parsed o1 with
            | Ok d =>
                mail_calls (snd (webhook env req w))
                = (mail_calls w ++ [(customerEmail, o1, d)])%list
            | Throw _ => mail_calls (snd (webhook env req w)) = mail_calls w
            end
     end.
Proof.
  intros Hsig Hs Hev Hty Ho Ht Hc Hf Hw o1.
  rewrite (webhook_eq env req sig w Hsig Hs), Hev, Hty.
  cbn [String.eqb Ascii.eqb Bool.eqb].
  rewrite handleCheckoutSessionCompleted_eq, Ho, Ht, Hc, Hf, Hw.
  fold o1.
  destruct (JSON_parse env formData0) as [parsed|m].
  - cbn zeta.
    destruct (render_and_upload env templateId parsed o1) as [d|m].
    + destruct (sgMail_send env customerEmail o1 d) as [[]|m];
        cbn [snd log_mail log_render orders with_orders render_calls
             mail_calls];
        (split; [|split; reflexivity]);
        rewrite lookup_insert_eq; eexists; (split; [reflexivity|]);
        rewrite (proj1 (documentsData_frame _ _)),
          (proj2 (proj2 (documentsData_frame _ _)));
        (split; [apply updateData_status | reflexivity]).
    + cbn [snd log_render orders with_orders render_calls mail_calls].
      split; [|split; reflexivity].
      rewrite lookup_insert_eq. eexists. split; [reflexivity|].
      split; [apply updateData_status | reflexivity].
  - cbn [snd orders with_orders render_calls mail_calls].
    split; [|split; reflexivity].
    rewrite lookup_insert_eq. eexists. split; [reflexivity|].
    split; [apply updateData_status | reflexivity].
Qed.

(** ** The sweeper *)

Lemma delete_document_world env id url w :
  snd (delete_document env id url w) = w.
Proof.
  unfold delete_document, lift, ret.
  destruct url as [u|]; [|reflexivity].
  now destruct (truthy_string u).
Qed.

Lemma cleanup_order_orders env order w :
  fst (cleanup_order env order w) = Ok tt
  /\ (orders (snd (cleanup_order env order w)) = orders w
      \/ exists o,
           orders w !! order_id order = Some o
           /\ orders (snd (cleanup_order env order w))
              = <[order_id order := clear_documents o]> (orders w)).
Proof.
  unfold cleanup_order, try_catch, bind.
  pose proof (delete_document_world env (order_id order) (pdfUrl order) w) as H1.
  destruct (delete_document env (order_id order) (pdfUrl order) w)
    as [[[]|m1] w1]; cbn [snd] in H1; subst w1; [|now split; [|left]].
  pose proof (delete_document_world env (order_id order) (docxUrl order) w)
    as H2.
  destruct (delete_document env (order_id order) (docxUrl order) w)
    as [[[]|m2] w2]; cbn [snd] in H2; subst w2; [|now split; [|left]].
  destruct (orders w !! order_id order) as [o|] eqn:Ho.
  - rewrite (order_update_found _ _ _ _ Ho). split; [reflexivity|].
    right. exists o. split; reflexivity.
  - rewrite (order_update_missing _ _ _ Ho). now split; [|left].
Qed.

Lemma swept_refl w : swept w w.
Proof. intros id. destruct (orders w !! id); [now left | reflexivity]. Qed.

Lemma for_of_cleanup_swept env xs : forall w0 w,
  swept w0 w -> swept w0 (snd (for_of (cleanup_order env) xs w)).
Proof.
  induction xs as [|order xs IH]; intros w0 w Hsw; [exact Hsw|].
  cbn [for_of]. unfold bind.
  destruct (cleanup_order_orders env order w) as [Hok Hor].
  destruct (cleanup_order env order w) as [r w1]. cbn [fst snd] in Hok, Hor.
  subst r. apply IH. intros id. specialize (Hsw id).
  destruct Hor as [E|(o & Ho & E)]; rewrite E; [exact Hsw|].
  destruct (decide (order_id order = id)) as [<-|Hne].
  - rewrite lookup_insert_eq.
    destruct (orders w0 !! order_id order) as [o0|]; [|congruence].
    right. destruct Hsw as [Hk|Hk]; rewrite Hk in Ho;
      inversion Ho; subst o; reflexivity.
  - now rewrite lookup_insert_ne.
Qed.

Lemma cleanupExpiredOrders_swept env now w :
  swept w (snd (cleanupExpiredOrders env now w)).
Proof.
  unfold cleanupExpiredOrders, try_catch, bind, order_findMany.
  pose proof (for_of_cleanup_swept env
                (List.filter
                   (fun o => Z.ltb (downloadExpiry o) now
                             && bool_decide (status o = paid))
                   (List.map snd (map_to_list (orders w))))
                w w (swept_refl w)) as H.
  now destruct (for_of (cleanup_order env) _ w) as [[[]|m] w1].
Qed.

(** ** One action, and runs of actions *)

Lemma createPendingOrder_orders data newId now w :
  orders (snd (createPendingOrder data newId now w)) = orders w
  \/ orders w !! newId = None
     /\ exists o,
          createPendingOrder data newId now w
          = (Ok o, with_orders (<[newId := o]> (orders w)) w)
          /\ status o = pending /\ pdfUrl o = None /\ docxUrl o = None
          /\ downloadExpiry o = setDate_plus7 now.
Proof.
  unfold createPendingOrder, try_catch, bind, template_findUnique.
  destruct (templates w !! cpo_templateId data) as [t|]; [|now left].
  unfold order_create.
  destruct (orders w !! newId) as [o|] eqn:Ho; [now left|].
  right. split; [reflexivity|]. eexists. split; [reflexivity|].
  repeat split.
Qed.

(** One action keeps every existing order, with its [downloadExpiry].  The
    row is left as it was, or loses its artifact pointers, or is left in a
    status other than pending -- and then it is paid, or its pointers are
    as before. *)
Lemma step_existing env a w id o :
  orders w !! id = Some o ->
  exists o',
    orders (step env a w) !! id = Some o'
    /\ downloadExpiry o' = downloadExpiry o
    /\ (o' = o
        \/ o' = clear_documents o
        \/ status o' <> pending
           /\ (status o' = paid
               \/ pdfUrl o' = pdfUrl o /\ docxUrl o' = docxUrl o)).
Proof.
  intros Ho.
  destruct a as [data newId now|req|orderId reason adminId now|now];
    cbn [step].
  - destruct (createPendingOrder_orders data newId now w)
      as [E|(Hn & o' & E & _)].
    + rewrite E. exists o. repeat split; auto.
    + rewrite E. cbn [snd orders with_orders].
      assert (newId <> id) by congruence.
      rewrite lookup_insert_ne by assumption.
      exists o. repeat split; auto.
  - destruct (webhook_orders env req w)
      as [E|(id' & o0 & o' & Ho0 & E & Hx & Hp & Ha)].
    + rewrite E. exists o. repeat split; auto.
    + rewrite E. destruct (decide (id' = id)) as [->|Hne].
      * rewrite lookup_insert_eq. exists o'.
        assert (o0 = o) by congruence. subst o0. repeat split; auto.
      * rewrite lookup_insert_ne by assumption.
        exists o. repeat split; auto.
  - destruct (processRefund_orders env orderId reason adminId now w)
      as [E|(o0 & Ho0 & E)].
    + rewrite E. exists o. repeat split; auto.
    + rewrite E. destruct (decide (orderId = id)) as [->|Hne].
      * rewrite lookup_insert_eq. eexists. split; [reflexivity|].
        assert (o0 = o) by congruence. subst o0.
        split; [reflexivity|]. right. right.
        split; [discriminate|]. right. split; reflexivity.
      * rewrite lookup_insert_ne by assumption.
        exists o. repeat split; auto.
  - pose proof (cleanupExpiredOrders_swept env now w id) as H.
    rewrite Ho in H. destruct H as [H|H]; rewrite H; eexists;
      (split; [reflexivity|]); split; auto.
Qed.

(** An order that one action adds is a pending one without artifacts. *)
Lemma step_fresh env a w id o' :
  orders w !! id = None ->
  orders (step env a w) !! id = Some o' ->
  status o' = pending /\ pdfUrl o' = None /\ docxUrl o' = None.
Proof.
  intros Hn.
  destruct a as [data newId now|req|orderId reason adminId now|now];
    cbn [step].
  - destruct (createPendingOrder_orders data newId now w)
      as [E|(_ & o & E & Hs & Hp & Hd & _)].
    + rewrite E. congruence.
    + rewrite E. cbn [snd orders with_orders].
      destruct (decide (newId = id)) as [->|Hne].
      * rewrite lookup_insert_eq. intros [= <-]. auto.
      * rewrite lookup_insert_ne by assumption. congruence.
  - destruct (webhook_orders env req w)
      as [E|(id' & o0 & o1 & Ho0 & E & _)].
    + rewrite E. congruence.
    + rewrite E. destruct (decide (id' = id)) as [->|Hne]; [congruence|].
      rewrite lookup_insert_ne by assumption. congruence.
  - destruct (processRefund_orders env orderId reason adminId now w)
      as [E|(o0 & Ho0 & E)].
    + rewrite E. congruence.
    + rewrite E. destruct (decide (orderId = id)) as [->|Hne]; [congruence|].
      rewrite lookup_insert_ne by assumption. congruence.
  - pose proof (cleanupExpiredOrders_swept env now w id) as H.
    rewrite Hn in H. congruence.
Qed.

Lemma run_existing env acts : forall w id o,
  orders w !! id = Some o ->
  exists o',
    orders (run env acts w) !! id = Some o'
    /\ downloadExpiry o' = downloadExpiry o.
Proof.
  induction acts as [|a acts IH]; intros w id o Ho.
  - exists o. split; [exact Ho | reflexivity].
  - destruct (step_existing env a w id o Ho) as (o1 & Ho1 & Hx & _).
    destruct (IH (step env a w) id o1 Ho1) as (o' & Ho' & Hx').
    exists o'. split; [exact Ho' | congruence].
Qed.

(** The invariant of the order table: a pending order has no artifacts. *)
Lemma run_pending_no_artifacts env acts : forall w,
  (forall id o, orders w !! id = Some o -> status o = pending ->
                pdfUrl o = None /\ docxUrl o = None) ->
  forall id o, orders (run env acts w) !! id = Some o -> status o = pending ->
               pdfUrl o = None /\ docxUrl o = None.
Proof.
  induction acts as [|a acts IH]; intros w Hinv; [exact Hinv|].
  cbn [run fold_left]. apply IH. intros id o' Ho' Hs.
  destruct (orders w !! id) as [o|] eqn:Ho.
  - destruct (step_existing env a w id o Ho)
      as (o1 & Ho1 & _ & [->|[->|[Hp _]]]).
    + assert (o' = o) by congruence. subst o'. now apply (Hinv id).
    + assert (o' = clear_documents o) by congruence. subst o'.
      split; reflexivity.
    + assert (o' = o1) by congruence. subst o'. contradiction.
  - now destruct (step_fresh env a w id o' Ho Ho') as (_ & Hp & Hd).
Qed.

(** ** Webhook deliveries (C1, C2, C3) *)





(** C2, as the code has it: [updateOrderStatus] is an unconditional write.
    For an order that exists it succeeds from every current status and for
    every requested status, stores the requested status, and returns the
    stored row; it fails (with the store unchanged) only when no order has
    the id.  There is no table of allowed transitions and no
    InvalidTransition outcome: a session_expired event for an existing
    order sets it to failed whatever its status was, paid included. *)
Theorem updateOrderStatus_unconditional orderId st ad w :
  match orders w !! orderId with
  | Some o =>
      updateOrderStatus orderId st ad w
      = (Ok (updateData st ad o),
         with_orders (<[orderId := updateData st ad o]> (orders w)) w)
      /\ status (updateData st ad o) = st
      /\ forall session,
           truthy_field session "orderId" = Some orderId ->
           handleCheckoutSessionExpired session w
           = (Ok tt,
              with_orders
                (<[orderId := updateData failed no_additionalData o]>
                   (orders w)) w)
           /\ status (updateData failed no_additionalData o) = failed
  | None =>
      updateOrderStatus orderId st ad w
      = (Throw "Failed to update order status", w)
  end.
Proof.
  destruct (orders w !! orderId) as [o|] eqn:E.
  - split; [now apply updateOrderStatus_found|].
    split; [apply updateData_status|].
    intros session Hs. rewrite handleCheckoutSessionExpired_eq, Hs, E.
    split; [reflexivity | apply updateData_status].
  - now apply updateOrderStatus_missing.
Qed.

(** C2 fails as stated: a session_expired event delivered for the paid
    order ["ord_1"] is acknowledged and turns the order to failed. *)
Lemma session_expired_overwrites_paid :
  status <$> (orders shop_paid !! "ord_1") = Some paid
  /\ fst (webhook (test_env true) (signed "expired") shop_paid)
     = respond 200 Received
  /\ status <$> (orders (snd (webhook (test_env true) (signed "expired")
                                shop_paid)) !! "ord_1")
     = Some failed.
Proof. vm_compute. repeat split; reflexivity. Qed.

(** C3: a request whose signature verifies is answered 400 when the
    handler fails.  The event of body ["bare"] is verified, is a
    checkout.session.completed event and carries no metadata: the route
    answers 400 WEBHOOK_SIGNATURE_INVALID.  So does the verified event
    ["completed"] when the mail cannot be sent, although the order has
    been set to paid and its documents recorded. *)
Theorem webhook_valid_signature_answers_400 :
  (exists event, constructEvent (test_env true) "bare" "t=1,v1=ok" = Ok event)
  /\ webhook (test_env true) (signed "bare") shop_pending
     = (respond 400 (ErrorBody "WEBHOOK_SIGNATURE_INVALID"), shop_pending)
  /\ fst (webhook mail_down_env (signed "completed") shop_pending)
     = respond 400 (ErrorBody "WEBHOOK_SIGNATURE_INVALID")
  /\ status <$> (orders (snd (webhook mail_down_env (signed "completed")
                                shop_pending)) !! "ord_1") = Some paid.
Proof.
  split; [eexists; reflexivity|].
  vm_compute. repeat split; reflexivity.
Qed.

(** ** The order record (C4, C5, C6) *)

(** C4, as the code has it: [downloadExpiry] is written once, by
    [createPendingOrder], which stores creation time plus seven days on the
    order while it is pending; no later checkout, webhook delivery
    (payment confirmation and its re-delivery included), refund or sweep
    changes it. *)
Theorem downloadExpiry_fixed_at_creation env data newId now w o w' acts :
  createPendingOrder data newId now w = (Ok o, w') ->
  status o = pending
  /\ downloadExpiry o = setDate_plus7 now
  /\ orders w' !! newId = Some o
  /\ exists o',
       orders (run env acts w') !! newId = Some o'
       /\ downloadExpiry o' = setDate_plus7 now.
Proof.
  intros H.
  destruct (createPendingOrder_orders data newId now w)
    as [E|(Hn & o0 & E & Hs & _ & _ & Hx)].
  - exfalso. revert H E.
    unfold createPendingOrder, try_catch, bind, template_findUnique.
    destruct (templates w !! cpo_templateId data) as [t|];
      [|discriminate].
    unfold order_create. destruct (orders w !! newId) eqn:Ho;
      [discriminate|].
    intros _. cbn [snd orders with_orders]. intros E.
    assert (X : (<[newId := 
      {| order_id := newId; templateId := cpo_templateId data;
         customerEmail := cpo_customerEmail data;
         formData := cpo_formData data; stripePaymentId := "";
         amount := price t; status := pending; pdfUrl := None;
         docxUrl := None; downloadExpiry := setDate_plus7 now;
         createdAt := now; updatedAt := now |}]> (orders w)) !! newId
       = orders w !! newId) by now rewrite E.
    rewrite lookup_insert_eq, Ho in X. discriminate.
  - rewrite E in H. inversion H; subst o0 w'.
    assert (Ho : orders (with_orders (<[newId := o]> (orders w)) w) !! newId
                 = Some o) by (cbn [orders with_orders]; apply lookup_insert_eq).
    repeat split; try assumption.
    destruct (run_existing env acts _ newId o Ho) as (o' & Ho' & Hx').
    exists o'. split; [exact Ho' | congruence].
Qed.

Lemma downloadExpiry_fixed_at_creation_witness :
  exists o',
    orders
      (run (test_env true)
         [Webhook (signed "completed"); Webhook (signed "completed");
          Sweep 700000000; AdminRefund "ord_1" "asked" "adm_1" 5]
         shop_pending) !! "ord_1" = Some o'
    /\ downloadExpiry o' = setDate_plus7 0.
Proof.
  refine (proj2 (proj2 (proj2
    (downloadExpiry_fixed_at_creation (test_env true) alice_data "ord_1" 0
       shop alice_pending_order shop_pending
       [Webhook (signed "completed"); Webhook (signed "completed");
        Sweep 700000000; AdminRefund "ord_1" "asked" "adm_1" 5] _)))).
  vm_compute. reflexivity.
Defined.

(** C4 fails as stated: the order created at time 0 is still pending and
    already has its [downloadExpiry], seven days after creation; the
    payment confirmation, whenever it is delivered, leaves that value, so
    it is not seven days after a payment made an hour later. *)
Lemma downloadExpiry_present_while_pending :
  status <$> (orders shop_pending !! "ord_1") = Some pending
  /\ downloadExpiry <$> (orders shop_pending !! "ord_1") = Some 604800000
  /\ status <$> (orders shop_paid !! "ord_1") = Some paid
  /\ downloadExpiry <$> (orders shop_paid !! "ord_1") = Some 604800000
  /\ setDate_plus7 3600000 <> 604800000.
Proof. vm_compute. repeat split; try reflexivity. discriminate. Qed.

(** C5, as the code has it: an artifact pointer is written only by the
    checkout-completed handler, on an order it has just set to paid, and no
    change of status clears it.  Starting from an empty order table, an
    order with a recorded artifact is therefore never pending; an action
    that records a pointer the order did not have leaves the order paid;
    and a refund keeps both pointers, so a refunded order may have
    artifacts recorded. *)
Theorem artifacts_only_after_payment env w :
  orders w = ∅ ->
  (forall acts id o,
     orders (run env acts w) !! id = Some o ->
     pdfUrl o <> None \/ docxUrl o <> None ->
     status o <> pending)
  /\ (forall acts a id o o',
        orders (run env acts w) !! id = Some o ->
        orders (step env a (run env acts w)) !! id = Some o' ->
        (pdfUrl o' <> pdfUrl o /\ pdfUrl o' <> None)
        \/ (docxUrl o' <> docxUrl o /\ docxUrl o' <> None) ->
        status o' = paid)
  /\ (forall acts orderId reason adminId now o,
        orders (run env acts w) !! orderId = Some o ->
        exists o',
          orders (step env (AdminRefund orderId reason adminId now)
                    (run env acts w)) !! orderId = Some o'
          /\ pdfUrl o' = pdfUrl o /\ docxUrl o' = docxUrl o).
Proof.
  intros Hw. split; [|split].
  - intros acts id o Ho Ha Hs.
    destruct (run_pending_no_artifacts env acts w) with (id := id) (o := o)
      as [Hp Hd]; try assumption.
    + intros id' o'. rewrite Hw, lookup_empty. discriminate.
    + destruct Ha; contradiction.
  - intros acts a id o o' Ho Ho' Hch.
    destruct (step_existing env a _ id o Ho)
      as (o1 & Ho1 & _ & [->|[->|[_ [Hp|[Hp Hd]]]]]).
    + assert (o' = o) by congruence. subst o'.
      destruct Hch as [[? _]|[? _]]; contradiction.
    + assert (o' = clear_documents o) by congruence. subst o'.
      destruct Hch as [[_ ?]|[_ ?]]; contradiction.
    + congruence.
    + assert (o' = o1) by congruence. subst o'.
      destruct Hch as [[? _]|[? _]]; contradiction.
  - intros acts orderId reason adminId now o Ho. cbn [step].
    destruct (processRefund_orders env orderId reason adminId now
                (run env acts w)) as [E|(o0 & Ho0 & E)].
    + rewrite E. exists o. repeat split; assumption.
    + rewrite E, lookup_insert_eq. eexists. split; [reflexivity|].
      assert (o0 = o) by congruence. subst o0. split; reflexivity.
Qed.

Lemma artifacts_only_after_payment_witness :
  exists o',
    orders (step (test_env true) (AdminRefund "ord_1" "asked" "adm_1" 5)
              (run (test_env true)
                 [Checkout alice_data "ord_1" 0; Webhook (signed "completed")]
                 shop)) !! "ord_1" = Some o'
    /\ pdfUrl o' = pdfUrl alice_paid_order
    /\ docxUrl o' = docxUrl alice_paid_order.
Proof.
  refine (proj2 (proj2 (artifacts_only_after_payment (test_env true) shop _))
            [Checkout alice_data "ord_1" 0; Webhook (signed "completed")]
            "ord_1" "asked" "adm_1" 5 alice_paid_order _).
  - reflexivity.
  - vm_compute. reflexivity.
Defined.

(** C5 fails as stated: after checkout, payment and refund the order
    ["ord_1"] is refunded and still has both artifact pointers. *)
Lemma refunded_order_keeps_artifacts :
  run (test_env true)
    [Checkout alice_data "ord_1" 0; Webhook (signed "completed");
     AdminRefund "ord_1" "asked" "adm_1" 5] shop = shop_refunded
  /\ status <$> (orders shop_refunded !! "ord_1") = Some refunded
  /\ (orders shop_refunded !! "ord_1") ≫= pdfUrl
     = Some "https://r2.example/documents/ord_1/ord_1.pdf?sig=a"
  /\ (orders shop_refunded !! "ord_1") ≫= docxUrl
     = Some "https://r2.example/documents/ord_1/ord_1.docx?sig=b".
Proof. vm_compute. repeat split; reflexivity. Qed.

(** C6, as the code has it: the payment confirmation writes the amount of
    the webhook payload over the stored one.  After a verified
    checkout.session.completed event for an existing order, the order's
    amount is [amount_total / 100] of the payload when [amount_total] is
    present and not zero, and the stored amount otherwise; the two are
    never compared. *)
Theorem webhook_amount_overwrites env req sig event orderId templateId
    customerEmail formData0 o w :
  stripe_signature req = Some sig ->
  truthy_string sig = true ->
  constructEvent env (raw_body req) sig = Ok event ->
  event_type event = "checkout.session.completed" ->
  truthy_field (data_object event) "orderId" = Some orderId ->
  truthy_field (data_object event) "templateId" = Some templateId ->
  truthy_field (data_object event) "customerEmail" = Some customerEmail ->
  truthy_field (data_object event) "formData" = Some formData0 ->
  orders w !! orderId = Some o ->
  exists o',
    orders (snd (webhook env req w)) !! orderId = Some o'
    /\ status o' = paid
    /\ amount o'
       = match amount_total (data_object event) with
         | Some a => if Z.eqb a 0 then amount o else (inject_Z a / 100)%Q
         | None => amount o
         end.
Proof.
  intros Hsig Hs Hev Hty Ho Ht Hc Hf Hw.
  destruct (webhook_completed_once env req sig event orderId templateId
              customerEmail formData0 o w Hsig Hs Hev Hty Ho Ht Hc Hf Hw)
    as [(o1 & Ho1 & Hp1 & Ha1) _].
  exists o1. split; [exact Ho1|]. split; [exact Hp1|].
  rewrite Ha1. apply updateData_session_amount.
Qed.

Lemma webhook_amount_overwrites_witness :
  exists o',
    orders (snd (webhook (test_env true) (signed "completed_500")
                   shop_pending)) !! "ord_1" = Some o'
    /\ status o' = paid
    /\ amount o' = (inject_Z 500 / 100)%Q.
Proof.
  refine (webhook_amount_overwrites (test_env true) (signed "completed_500")
            "t=1,v1=ok"
            {| event_id := "evt_2"; event_type := "checkout.session.completed";
               data_object := completed_session 500 |}
            "ord_1" "tpl_nda" "alice@example.com" "{}" alice_pending_order
            shop_pending _ _ _ _ _ _ _ _ _).
  all: vm_compute; reflexivity.
Defined.

(** C6 fails as stated: the order was created for 9.99; a confirmation
    whose payload reports 500 cents leaves it paid with amount 5. *)
Lemma webhook_amount_replaces_price :
  amount <$> (orders shop_pending !! "ord_1") = Some (999 # 100)%Q
  /\ amount <$> (orders (snd (webhook (test_env true)
                                (signed "completed_500") shop_pending))
                 !! "ord_1") = Some (500 # 100)%Q
  /\ ~ (500 # 100 == 999 # 100)%Q.
Proof.
  vm_compute. repeat split; try reflexivity. discriminate.
Qed.

(** ** Refunds (C7, C8) *)

(** C7: [AdminService.processRefund] always resolves, and
    - it reports success only for an order that was paid, and then the order
      is refunded;
    - when the order is paid and the gateway call fails, the result is a
      failure carrying the gateway's message and the order table is
      unchanged (the order stays paid);
    - when the order is paid and the gateway call succeeds, the result is a
      success with the gateway's refund id and the order becomes refunded. *)
Theorem refund_only_paid_and_atomic env orderId reason adminId now w :
  exists r w',
    AdminService_processRefund env orderId reason adminId now w = (Ok r, w')
    /\ (success r = true ->
        exists o, orders w !! orderId = Some o /\ status o = paid
                  /\ status <$> (orders w' !! orderId) = Some refunded)
    /\ (forall o msg,
          orders w !! orderId = Some o -> status o = paid ->
          refunds_create env (order_refundParams o) = Throw msg ->
          success r = false /\ message r = Some msg
          /\ orders w' = orders w
          /\ status <$> (orders w' !! orderId) = Some paid)
    /\ (forall o refund,
          orders w !! orderId = Some o -> status o = paid ->
          refunds_create env (order_refundParams o) = Ok refund ->
          success r = true /\ refundId r = Some (refund_id refund)
          /\ orders w' !! orderId
             = Some (set_updatedAt now (set_status refunded o))).
Proof.
  destruct (orders w !! orderId) as [o|] eqn:Ho.
  - destruct (decide (status o = paid)) as [Hs|Hs].
    + rewrite (processRefund_paid env orderId reason adminId now w o Ho Hs).
      destruct (refunds_create env (order_refundParams o)) as [refund|m] eqn:Hg.
      * eexists _, _. split; [reflexivity|].
        cbn [success refundId orders with_orders].
        split; [|split].
        -- intros _. exists o. repeat split; try assumption.
           now rewrite lookup_insert_eq.
        -- intros o' msg Ho' _ H. inversion Ho'; subst o'. congruence.
        -- intros o' r' Ho' _ H. inversion Ho'; subst o'.
           rewrite lookup_insert_eq. repeat split; congruence.
      * eexists _, _. split; [reflexivity|].
        cbn [success refund_failure message].
        split; [|split].
        -- discriminate.
        -- intros o' msg Ho' _ H. inversion Ho'; subst o'.
           cbn [log_refund snd orders]. rewrite Ho. cbn [fmap option_fmap option_map].
           repeat split; congruence.
        -- intros o' r' Ho' _ H. inversion Ho'; subst o'. congruence.
    + rewrite (processRefund_not_paid env orderId reason adminId now w o Ho Hs).
      eexists _, _. split; [reflexivity|].
      cbn [success refund_failure]. split; [|split].
      * discriminate.
      * intros o' x Ho' Hs'; inversion Ho'; subst o'; contradiction.
      * intros o' x Ho' Hs'; inversion Ho'; subst o'; contradiction.
  - unfold AdminService_processRefund, try_catch, bind, order_findUnique.
    rewrite Ho. eexists _, _. split; [reflexivity|].
    cbn [success refund_failure]. split; [|split]; discriminate.
Qed.

Lemma refund_only_paid_and_atomic_witness :
  exists r w',
    AdminService_processRefund (test_env false) "ord_1" "asked" "adm_1" 5
      shop_paid = (Ok r, w')
    /\ success r = false /\ message r = Some "Stripe is unreachable"
    /\ orders w' = orders shop_paid
    /\ status <$> (orders w' !! "ord_1") = Some paid.
Proof.
  destruct (refund_only_paid_and_atomic (test_env false) "ord_1" "asked"
              "adm_1" 5 shop_paid) as (r & w' & He & _ & Hfail & _).
  exists r, w'. split; [exact He|].
  apply (Hfail alice_paid_order "Stripe is unreachable").
  - vm_compute. reflexivity.
  - reflexivity.
  - reflexivity.
Defined.

(** C8, as the code has it: a refund of an order that is not paid (pending,
    failed, or already refunded) is rejected: the result reports a failure
    without refund id or amount, nothing is changed and no gateway call is
    made.  So after a refund that succeeded, every repeated refund of the
    same order is rejected in this way: the gateway is not called a second
    time, and the first refund's id and amount are not returned again. *)
Theorem refund_rejected_unless_paid env orderId w :
  (forall o reason adminId now,
     orders w !! orderId = Some o ->
     status o <> paid ->
     exists r,
       AdminService_processRefund env orderId reason adminId now w
       = (Ok r, w)
       /\ success r = false /\ refundId r = None /\ rr_amount r = None)
  /\ (forall reason adminId now r w1,
        AdminService_processRefund env orderId reason adminId now w
        = (Ok r, w1) ->
        success r = true ->
        (exists o, orders w !! orderId = Some o /\ status o = paid)
        /\ forall reason' adminId' now',
             exists r',
               AdminService_processRefund env orderId reason' adminId' now' w1
               = (Ok r', w1)
               /\ success r' = false /\ refundId r' = None
               /\ rr_amount r' = None).
Proof.
  split.
  - intros o reason adminId now Ho Hs.
    rewrite (processRefund_not_paid env orderId reason adminId now w o Ho Hs).
    eexists. split; [reflexivity|]. now repeat split.
  - intros reason adminId now r w1 H Hr.
    destruct (orders w !! orderId) as [o|] eqn:Ho.
    + destruct (decide (status o = paid)) as [Hs|Hs].
      * split; [now exists o|]. intros reason' adminId' now'.
        rewrite (processRefund_paid env orderId reason adminId now w o Ho Hs)
          in H.
        destruct (refunds_create env (order_refundParams o)) as [refund|m].
        -- inversion H; subst r w1.
           rewrite (processRefund_not_paid env orderId reason' adminId' now'
                      _ (set_updatedAt now (set_status refunded o))).
           ++ eexists. split; [reflexivity|]. now repeat split.
           ++ cbn [orders with_orders]. apply lookup_insert_eq.
           ++ discriminate.
        -- inversion H; subst r. discriminate.
      * rewrite (processRefund_not_paid env orderId reason adminId now w o
                   Ho Hs) in H.
        inversion H; subst r. discriminate.
    + unfold AdminService_processRefund, try_catch, bind, order_findUnique in H.
      rewrite Ho in H. inversion H; subst r. discriminate.
Qed.

Lemma refund_rejected_unless_paid_witness :
  exists r',
    AdminService_processRefund (test_env true) "ord_1" "again" "adm_1" 9
      shop_refunded
    = (Ok r', shop_refunded)
    /\ success r' = false /\ refundId r' = None /\ rr_amount r' = None.
Proof.
  refine (proj2 (proj2 (refund_rejected_unless_paid (test_env true) "ord_1"
                          shop_paid)
                   "asked" "adm_1" 5
                   {| success := true; refundId := Some "re_1";
                      rr_amount := Some (999 # 100)%Q; message := None |}
                   shop_refunded _ _) "again" "adm_1" 9).
  - vm_compute. reflexivity.
  - reflexivity.
Defined.

(** C8 fails as stated: the first refund of ["ord_1"] succeeds with refund
    id ["re_1"]; the same refund repeated is answered with a failure that
    carries neither that id nor the amount, not with the first result (and
    the gateway log still holds one call). *)
Lemma repeated_refund_is_rejected :
  fst (AdminService_processRefund (test_env true) "ord_1" "asked" "adm_1" 5
         shop_paid)
  = Ok {| success := true; refundId := Some "re_1";
          rr_amount := Some (999 # 100)%Q; message := None |}
  /\ (exists r,
        fst (AdminService_processRefund (test_env true) "ord_1" "asked"
               "adm_1" 5 shop_refunded) = Ok r
        /\ success r = false /\ refundId r = None /\ rr_amount r = None)
  /\ length (refund_calls
               (snd (AdminService_processRefund (test_env true) "ord_1"
                       "asked" "adm_1" 5 shop_refunded))) = 1%nat.
Proof.
  split; [vm_compute; reflexivity|].
  split; [eexists; vm_compute; now repeat split|].
  vm_compute. reflexivity.
Qed.

(** ** Customer access (C9, C10) *)

(** C9: the download route checks, in this order, that the order is found
    under the id and email (else 404), that it is paid (else 403), that the
    request is not made after [downloadExpiry] (else 410) and that both
    artifacts are recorded (else 503).  In particular a request on a paid
    order made after [downloadExpiry] is answered 410 whether or not the
    artifacts are recorded.  None of these answers changes the world. *)
Theorem download_checks_in_order env req now w email :
  validated env req = Some email ->
  (forall o, orders w !! params_id req = Some o ->
             customerEmail o = email -> status o = paid ->
             downloadExpiry o < now ->
             get_download env req now w
             = (respond 410 (ErrorBody "DOWNLOAD_EXPIRED"), w))
  /\ (orders w !! params_id req = None ->
      get_download env req now w
      = (respond 404 (ErrorBody "ORDER_NOT_FOUND"), w))
  /\ (forall o, orders w !! params_id req = Some o ->
                customerEmail o <> email ->
                get_download env req now w
                = (respond 404 (ErrorBody "ORDER_NOT_FOUND"), w))
  /\ (forall o, orders w !! params_id req = Some o ->
                customerEmail o = email -> status o <> paid ->
                get_download env req now w
                = (respond 403 (ErrorBody "ORDER_NOT_PAID"), w))
  /\ (forall o, orders w !! params_id req = Some o ->
                customerEmail o = email -> status o = paid ->
                now <= downloadExpiry o -> artifacts_ready o = false ->
                get_download env req now w
                = (respond 503 (ErrorBody "DOCUMENTS_NOT_READY"), w)).
Proof.
  intros Hv. unfold get_download. rewrite Hv. unfold run_route, bind.
  repeat split.
  - intros o Ho He Hs Hx.
    rewrite (getOrderByIdAndEmail_found _ _ _ _ Ho), He, String.eqb_refl.
    rewrite bool_decide_eq_true_2 by assumption. cbn [negb].
    apply Z.ltb_lt in Hx. now rewrite Hx.
  - intros Ho. now rewrite (getOrderByIdAndEmail_missing _ _ _ Ho).
  - intros o Ho He.
    rewrite (getOrderByIdAndEmail_found _ _ _ _ Ho).
    apply String.eqb_neq in He. now rewrite He.
  - intros o Ho He Hs.
    rewrite (getOrderByIdAndEmail_found _ _ _ _ Ho), He, String.eqb_refl.
    now rewrite bool_decide_eq_false_2.
  - intros o Ho He Hs Hx Ha.
    rewrite (getOrderByIdAndEmail_found _ _ _ _ Ho), He, String.eqb_refl.
    rewrite bool_decide_eq_true_2 by assumption. cbn [negb].
    assert (Hn : Z.ltb (downloadExpiry o) now = false) by (apply Z.ltb_ge; lia).
    rewrite Hn. unfold artifacts_ready in Ha.
    rewrite <- negb_andb, Ha. reflexivity.
Qed.

Lemma download_checks_in_order_witness :
  get_download (test_env true) alice_request 604800001 shop_paid
  = (respond 410 (ErrorBody "DOWNLOAD_EXPIRED"), shop_paid).
Proof.
  refine (proj1 (download_checks_in_order (test_env true) alice_request
                   604800001 shop_paid "alice@example.com" _)
            alice_paid_order _ _ _ _).
  - reflexivity.
  - vm_compute. reflexivity.
  - reflexivity.
  - reflexivity.
  - vm_compute. reflexivity.
Defined.

(** C10: the lookup compares the email with the stored [customerEmail] by
    exact string equality: it returns the order exactly when the two are
    equal, so an email that differs from the stored one only in letter case
    finds no order, and both the status route and the download route answer
    404 for it. *)
Theorem lookup_is_case_sensitive env req now w email o :
  validated env req = Some email ->
  orders w !! params_id req = Some o ->
  differ_only_in_case email (customerEmail o) ->
  getOrderByIdAndEmail (params_id req) email w = (Ok None, w)
  /\ getOrderByIdAndEmail (params_id req) (customerEmail o) w = (Ok (Some o), w)
  /\ get_order env req w = (respond 404 (ErrorBody "ORDER_NOT_FOUND"), w)
  /\ get_download env req now w
     = (respond 404 (ErrorBody "ORDER_NOT_FOUND"), w).
Proof.
  intros Hv Ho [_ Hne].
  assert (Hneq : String.eqb (customerEmail o) email = false).
  { apply String.eqb_neq. congruence. }
  assert (Hl : getOrderByIdAndEmail (params_id req) email w = (Ok None, w)).
  { rewrite (getOrderByIdAndEmail_found _ _ _ _ Ho). now rewrite Hneq. }
  repeat split.
  - exact Hl.
  - rewrite (getOrderByIdAndEmail_found _ _ _ _ Ho).
    now rewrite String.eqb_refl.
  - unfold get_order. rewrite Hv. unfold run_route, bind. now rewrite Hl.
  - unfold get_download. rewrite Hv. unfold run_route, bind. now rewrite Hl.
Qed.

Lemma lookup_is_case_sensitive_witness :
  get_download (test_env true)
    {| params_id := "ord_1"; query_email := Some "Alice@Example.com" |}
    5 shop_paid
  = (respond 404 (ErrorBody "ORDER_NOT_FOUND"), shop_paid).
Proof.
  refine (proj2 (proj2 (proj2
    (lookup_is_case_sensitive (test_env true)
       {| params_id := "ord_1"; query_email := Some "Alice@Example.com" |}
       5 shop_paid "Alice@Example.com"
       alice_paid_order
       _ _ _)))).
  - reflexivity.
  - vm_compute. reflexivity.
  - split; [reflexivity | discriminate].
Defined.

(** ** More on the webhook route *)

(** X1: A request that is not verified is never processed: without a
    signature header (or with an empty one), and when
    [stripe.webhooks.constructEvent] rejects the body, the route answers 400
    and leaves the order table and the logs of renderer and mailer as they
    were. *)
Theorem webhook_unverified_untouched env req w :
  truthy_opt_string (stripe_signature req) = false
  \/ (exists sig m,
        stripe_signature req = Some sig
        /\ constructEvent env (raw_body req) sig = Throw m) ->
  statusCode (fst (webhook env req w)) = 400
  /\ snd (webhook env req w) = w.
Proof.
  intros [H|(sig & m & Hsig & Hev)].
  - now rewrite webhook_unsigned.
  - destruct (truthy_string sig) eqn:Hs.
    + now rewrite (webhook_eq env req sig w Hsig Hs), Hev.
    + rewrite webhook_unsigned; [now split|].
      unfold truthy_opt_string. now rewrite Hsig.
Qed.

Lemma webhook_unverified_untouched_witness :
  statusCode (fst (webhook (test_env true)
                     {| stripe_signature := Some "t=1,v1=forged";
                        raw_body := "completed" |} shop_pending)) = 400
  /\ snd (webhook (test_env true)
            {| stripe_signature := Some "t=1,v1=forged";
               raw_body := "completed" |} shop_pending) = shop_pending.
Proof.
  apply webhook_unverified_untouched. right.
  exists "t=1,v1=forged",
    "No signatures found matching the expected signature for payload".
  split; reflexivity.
Defined.

(** X2: The webhook neither creates nor deletes orders, never touches the
    templates or the refund log, and changes at most one row: the one whose
    id is the [orderId] of the verified event's metadata. *)
Theorem webhook_touches_only_named_order env req w :
  (forall id, orders (snd (webhook env req w)) !! id = None
              <-> orders w !! id = None)
  /\ templates (snd (webhook env req w)) = templates w
  /\ refund_calls (snd (webhook env req w)) = refund_calls w
  /\ (forall id,
        orders (snd (webhook env req w)) !! id <> orders w !! id ->
        exists sig event,
          stripe_signature req = Some sig
          /\ constructEvent env (raw_body req) sig = Ok event
          /\ truthy_field (data_object event) "orderId" = Some id).
Proof.
  assert (Hsame : forall w', w' = w ->
            (forall id, orders w' !! id = None <-> orders w !! id = None)
            /\ templates w' = templates w
            /\ refund_calls w' = refund_calls w
            /\ (forall id, orders w' !! id <> orders w !! id ->
                  exists sig event,
                    stripe_signature req = Some sig
                    /\ constructEvent env (raw_body req) sig = Ok event
                    /\ truthy_field (data_object event) "orderId" = Some id)).
  { intros w' ->. repeat split; auto. intros id H. now contradiction H. }
  assert (Hone : forall sig event oid o o' w',
            stripe_signature req = Some sig ->
            constructEvent env (raw_body req) sig = Ok event ->
            truthy_field (data_object event) "orderId" = Some oid ->
            orders w !! oid = Some o ->
            orders w' = <[oid := o']> (orders w) ->
            templates w' = templates w ->
            refund_calls w' = refund_calls w ->
            (forall id, orders w' !! id = None <-> orders w !! id = None)
            /\ templates w' = templates w
            /\ refund_calls w' = refund_calls w
            /\ (forall id, orders w' !! id <> orders w !! id ->
                  exists sig event,
                    stripe_signature req = Some sig
                    /\ constructEvent env (raw_body req) sig = Ok event
                    /\ truthy_field (data_object event) "orderId" = Some id)).
  { intros sig event oid o o' w' Hsig Hev Hf Ho E Ht Hr.
    repeat split; auto.
    - rewrite E. destruct (decide (oid = id)) as [->|Hne].
      + rewrite lookup_insert_eq. discriminate.
      + now rewrite lookup_insert_ne.
    - rewrite E. destruct (decide (oid = id)) as [->|Hne].
      + rewrite lookup_insert_eq, Ho. discriminate.
      + now rewrite lookup_insert_ne.
    - intros id. rewrite E. destruct (decide (oid = id)) as [->|Hne].
      + intros _. now exists sig, event.
      + rewrite lookup_insert_ne by assumption. intros H. now contradiction H. }
  destruct (truthy_opt_string (stripe_signature req)) eqn:Hs.
  2:{ apply Hsame. now rewrite webhook_unsigned. }
  unfold truthy_opt_string in Hs.
  destruct (stripe_signature req) as [sig|] eqn:Hsig; [|discriminate].
  rewrite (webhook_eq env req sig w Hsig Hs).
  destruct (constructEvent env (raw_body req) sig) as [event|m] eqn:Hev;
    [|now apply Hsame].
  destruct (String.eqb (event_type event) "checkout.session.completed").
  - rewrite handleCheckoutSessionCompleted_eq.
    destruct (truthy_field (data_object event) "orderId") as [orderId|] eqn:Hf;
      [|now apply Hsame].
    destruct (truthy_field (data_object event) "templateId") as [templateId|];
      [|now apply Hsame].
    destruct (truthy_field (data_object event) "customerEmail")
      as [customerEmail|]; [|now apply Hsame].
    destruct (truthy_field (data_object event) "formData") as [formData0|];
      [|now apply Hsame].
    destruct (orders w !! orderId) as [o|] eqn:Ho; [|now apply Hsame].
    destruct (JSON_parse env formData0) as [parsed|m].
    + cbn zeta.
      destruct (render_and_upload env templateId parsed _) as [d|m].
      * destruct (sgMail_send env customerEmail _ d) as [[]|m];
          eapply (Hone sig event orderId o); eauto; reflexivity.
      * eapply (Hone sig event orderId o); eauto; reflexivity.
    + eapply (Hone sig event orderId o); eauto; reflexivity.
  - destruct (String.eqb (event_type event) "checkout.session.expired");
      [|now apply Hsame].
    rewrite handleCheckoutSessionExpired_eq.
    destruct (truthy_field (data_object event) "orderId") as [orderId|] eqn:Hf;
      [|now apply Hsame].
    destruct (orders w !! orderId) as [o|] eqn:Ho; [|now apply Hsame].
    eapply (Hone sig event orderId o); eauto; reflexivity.
Qed.

(** X3: Verified events of any type other than checkout.session.completed and
    checkout.session.expired -- payment_intent.payment_failed among them --
    are acknowledged with 200 and change nothing: no order becomes failed
    through a payment_failed event. *)
Theorem webhook_other_events_only_acknowledged env req sig event w :
  stripe_signature req = Some sig ->
  truthy_string sig = true ->
  constructEvent env (raw_body req) sig = Ok event ->
  event_type event <> "checkout.session.completed" ->
  event_type event <> "checkout.session.expired" ->
  webhook env req w = (respond 200 Received, w).
Proof.
  intros Hsig Hs Hev Hc He.
  rewrite (webhook_eq env req sig w Hsig Hs), Hev.
  apply String.eqb_neq in Hc. apply String.eqb_neq in He.
  now rewrite Hc, He.
Qed.

Lemma webhook_other_events_only_acknowledged_witness :
  webhook (test_env true) (signed "customer_created") shop_pending
  = (respond 200 Received, shop_pending).
Proof.
  refine (webhook_other_events_only_acknowledged (test_env true)
            (signed "customer_created") "t=1,v1=ok"
            {| event_id := "evt_5"; event_type := "customer.created";
               data_object := bare_session |} shop_pending _ _ _ _ _).
  - reflexivity.
  - reflexivity.
  - reflexivity.
  - discriminate.
  - discriminate.
Defined.

(** X4: A verified checkout.session.expired event is always acknowledged with
    200: the handler swallows its own failures.  When the event carries no
    order id, or the id of no order, nothing changes. *)
Theorem webhook_expired_always_acknowledged env req sig event w :
  stripe_signature req = Some sig ->
  truthy_string sig = true ->
  constructEvent env (raw_body req) sig = Ok event ->
  event_type event = "checkout.session.expired" ->
  fst (webhook env req w) = respond 200 Received
  /\ (match truthy_field (data_object event) "orderId" with
      | Some orderId => orders w !! orderId = None
      | None => True
      end -> snd (webhook env req w) = w).
Proof.
  intros Hsig Hs Hev Hty.
  rewrite (webhook_eq env req sig w Hsig Hs), Hev, Hty.
  cbn [String.eqb Ascii.eqb Bool.eqb fst snd].
  split; [reflexivity|].
  rewrite handleCheckoutSessionExpired_eq.
  destruct (truthy_field (data_object event) "orderId") as [orderId|];
    [|reflexivity].
  intros H. now rewrite H.
Qed.

Lemma webhook_expired_always_acknowledged_witness :
  fst (webhook (test_env true) (signed "expired") shop)
  = respond 200 Received
  /\ (match truthy_field expired_session "orderId" with
      | Some orderId => orders shop !! orderId = None
      | None => True
      end -> snd (webhook (test_env true) (signed "expired") shop) = shop).
Proof.
  refine (webhook_expired_always_acknowledged (test_env true)
            (signed "expired") "t=1,v1=ok"
            {| event_id := "evt_3"; event_type := "checkout.session.expired";
               data_object := expired_session |} shop _ _ _ _);
    reflexivity.
Defined.

(** X5: When document generation fails after a verified payment confirmation,
    the status update is not rolled back: the order is left paid with the
    artifact pointers it had, the renderer has been invoked once, no mail
    is sent, and the route answers 400. *)
Theorem webhook_render_failure_leaves_paid env req sig event orderId
    templateId customerEmail formData0 parsed m o w :
  stripe_signature req = Some sig ->
  truthy_string sig = true ->
  constructEvent env (raw_body req) sig = Ok event ->
  event_type event = "checkout.session.completed" ->
  truthy_field (data_object event) "orderId" = Some orderId ->
  truthy_field (data_object event) "templateId" = Some templateId ->
  truthy_field (data_object event) "customerEmail" = Some customerEmail ->
  truthy_field (data_object event) "formData" = Some formData0 ->
  JSON_parse env formData0 = Ok parsed ->
  orders w !! orderId = Some o ->
  render_and_upload env templateId parsed
    (updateData paid
       {| ad_stripePaymentId := payment_intent (data_object event);
          ad_amount := Some (session_amount (data_object event)) |} o)
  = Throw m ->
  statusCode (fst (webhook env req w)) = 400
  /\ (exists o',
        orders (snd (webhook env req w)) !! orderId = Some o'
        /\ status o' = paid
        /\ pdfUrl o' = pdfUrl o /\ docxUrl o' = docxUrl o)
  /\ length (render_calls (snd (webhook env req w)))
     = S (length (render_calls w))
  /\ mail_calls (snd (webhook env req w)) = mail_calls w.
Proof.
  intros Hsig Hs Hev Hty Ho Ht Hc Hf Hj Hw Hr.
  rewrite (webhook_eq env req sig w Hsig Hs), Hev, Hty.
  cbn [String.eqb Ascii.eqb Bool.eqb].
  rewrite handleCheckoutSessionCompleted_eq, Ho, Ht, Hc, Hf, Hw, Hj.
  cbn zeta. rewrite Hr.
  cbn [fst snd statusCode respond log_render orders with_orders render_calls
       mail_calls].
  split; [reflexivity|]. split.
  - rewrite lookup_insert_eq. eexists. split; [reflexivity|].
    split; [apply updateData_status | apply updateData_artifacts].
  - split; [|reflexivity]. rewrite length_app. cbn. lia.
Qed.

(** X6: A verified payment confirmation whose metadata is incomplete, or
    names no existing order, changes nothing: no row is written, the
    renderer and the mailer are not invoked.  The route answers 400. *)
Theorem webhook_completed_without_order_untouched env req sig event w :
  stripe_signature req = Some sig ->
  truthy_string sig = true ->
  constructEvent env (raw_body req) sig = Ok event ->
  event_type event = "checkout.session.completed" ->
  truthy_field (data_object event) "templateId" = None
  \/ truthy_field (data_object event) "customerEmail" = None
  \/ truthy_field (data_object event) "formData" = None
  \/ match truthy_field (data_object event) "orderId" with
     | Some orderId => orders w !! orderId = None
     | None => True
     end ->
  webhook env req w
  = (respond 400 (ErrorBody "WEBHOOK_SIGNATURE_INVALID"), w).
Proof.
  intros Hsig Hs Hev Hty H.
  rewrite (webhook_eq env req sig w Hsig Hs), Hev, Hty.
  cbn [String.eqb Ascii.eqb Bool.eqb].
  rewrite handleCheckoutSessionCompleted_eq.
  destruct (truthy_field (data_object event) "orderId") as [orderId|];
    [|reflexivity].
  destruct (truthy_field (data_object event) "templateId") as [templateId|];
    [|reflexivity].
  destruct (truthy_field (data_object event) "customerEmail")
    as [customerEmail|]; [|reflexivity].
  destruct (truthy_field (data_object event) "formData") as [formData0|];
    [|reflexivity].
  destruct H as [H|[H|[H|H]]]; try discriminate.
  now rewrite H.
Qed.

Lemma webhook_completed_without_order_untouched_witness :
  webhook (test_env true) (signed "completed") shop
  = (respond 400 (ErrorBody "WEBHOOK_SIGNATURE_INVALID"), shop).
Proof.
  refine (webhook_completed_without_order_untouched (test_env true)
            (signed "completed") "t=1,v1=ok"
            {| event_id := "evt_1"; event_type := "checkout.session.completed";
               data_object := completed_session 999 |} shop _ _ _ _ _);
    try reflexivity.
  right. right. right. vm_compute. reflexivity.
Defined.

Lemma webhook_render_failure_leaves_paid_witness :
  statusCode (fst (webhook render_down_env (signed "completed") shop_pending))
  = 400
  /\ (exists o',
        orders (snd (webhook render_down_env (signed "completed")
                       shop_pending)) !! "ord_1" = Some o'
        /\ status o' = paid
        /\ pdfUrl o' = pdfUrl alice_pending_order
        /\ docxUrl o' = docxUrl alice_pending_order)
  /\ length (render_calls (snd (webhook render_down_env (signed "completed")
                                  shop_pending)))
     = S (length (render_calls shop_pending))
  /\ mail_calls (snd (webhook render_down_env (signed "completed")
                        shop_pending)) = mail_calls shop_pending.
Proof.
  refine (webhook_render_failure_leaves_paid render_down_env
            (signed "completed") "t=1,v1=ok"
            {| event_id := "evt_1"; event_type := "checkout.session.completed";
               data_object := completed_session 999 |}
            "ord_1" "tpl_nda" "alice@example.com" "{}" "{}"
            "Failed to launch the browser" alice_pending_order shop_pending
            _ _ _ _ _ _ _ _ _ _ _).
  all: vm_compute; reflexivity.
Defined.

(** ** Rows along a run *)

Lemma webhook_orders_shape env req w :
  orders (snd (webhook env req w)) = orders w
  \/ exists id o o',
       orders w !! id = Some o
       /\ orders (snd (webhook env req w)) = <[id := o']> (orders w)
       /\ row_change o o'.
Proof.
  destruct (truthy_opt_string (stripe_signature req)) eqn:Hs.
  2:{ left. now rewrite webhook_unsigned. }
  unfold truthy_opt_string in Hs.
  destruct (stripe_signature req) as [sig|] eqn:Hsig; [|discriminate].
  rewrite (webhook_eq env req sig w Hsig Hs).
  destruct (constructEvent env (raw_body req) sig) as [event|m];
    [|now left].
  destruct (String.eqb (event_type event) "checkout.session.completed").
  - rewrite handleCheckoutSessionCompleted_eq.
    destruct (truthy_field (data_object event) "orderId") as [orderId|];
      [|now left].
    destruct (truthy_field (data_object event) "templateId") as [templateId|];
      [|now left].
    destruct (truthy_field (data_object event) "customerEmail")
      as [customerEmail|]; [|now left].
    destruct (truthy_field (data_object event) "formData") as [formData0|];
      [|now left].
    destruct (orders w !! orderId) as [o|] eqn:Ho; [|now left].
    right. exists orderId, o.
    destruct (JSON_parse env formData0) as [parsed|m].
    + cbn zeta.
      destruct (render_and_upload env templateId parsed _) as [d|m].
      * destruct (sgMail_send env customerEmail _ d) as [[]|m];
          eexists; (split; [exact Ho|]); (split; [reflexivity|]);
          apply rc_documents.
      * eexists. split; [exact Ho|]. split; [reflexivity|]. apply rc_status.
    + eexists. split; [exact Ho|]. split; [reflexivity|]. apply rc_status.
  - destruct (String.eqb (event_type event) "checkout.session.expired");
      [|now left].
    rewrite handleCheckoutSessionExpired_eq.
    destruct (truthy_field (data_object event) "orderId") as [orderId|];
      [|now left].
    destruct (orders w !! orderId) as [o|] eqn:Ho; [|now left].
    right. exists orderId, o. eexists. split; [exact Ho|].
    split; [reflexivity|]. apply rc_status.
Qed.

Lemma step_row env a w id o :
  orders w !! id = Some o ->
  exists o', orders (step env a w) !! id = Some o' /\ row_change o o'.
Proof.
  intros Ho.
  destruct a as [data newId now|req|orderId reason adminId now|now];
    cbn [step].
  - destruct (createPendingOrder_orders data newId now w)
      as [E|(Hn & o' & E & _)].
    + rewrite E. exists o. split; [exact Ho | constructor].
    + rewrite E. cbn [snd orders with_orders].
      assert (newId <> id) by congruence.
      rewrite lookup_insert_ne by assumption.
      exists o. split; [exact Ho | constructor].
  - destruct (webhook_orders_shape env req w)
      as [E|(id' & o0 & o' & Ho0 & E & Hc)].
    + rewrite E. exists o. split; [exact Ho | constructor].
    + rewrite E. destruct (decide (id' = id)) as [->|Hne].
      * rewrite lookup_insert_eq. exists o'.
        assert (o0 = o) by congruence. subst o0. now split.
      * rewrite lookup_insert_ne by assumption.
        exists o. split; [exact Ho | constructor].
  - destruct (processRefund_orders env orderId reason adminId now w)
      as [E|(o0 & Ho0 & E)].
    + rewrite E. exists o. split; [exact Ho | constructor].
    + rewrite E. destruct (decide (orderId = id)) as [->|Hne].
      * rewrite lookup_insert_eq. eexists. split; [reflexivity|].
        assert (o0 = o) by congruence. subst o0. apply rc_refund.
      * rewrite lookup_insert_ne by assumption.
        exists o. split; [exact Ho | constructor].
  - pose proof (cleanupExpiredOrders_swept env now w id) as H.
    rewrite Ho in H. destruct H as [H|H]; rewrite H; eexists;
      (split; [reflexivity|]); constructor.
Qed.

Lemma updateData_identity st ad o : same_identity o (updateData st ad o).
Proof.
  unfold updateData, same_identity.
  destruct (ad_stripePaymentId ad) as [p|], (ad_amount ad) as [a|];
    repeat match goal with |- context [if ?b then _ else _] => destruct b end;
    repeat split.
Qed.

Lemma documentsData_identity d o : same_identity o (documentsData d o).
Proof.
  unfold documentsData, same_identity.
  destruct (du_pdfUrl d), (du_docxUrl d); repeat split.
Qed.

Lemma same_identity_trans o1 o2 o3 :
  same_identity o1 o2 -> same_identity o2 o3 -> same_identity o1 o3.
Proof.
  unfold same_identity. intros (?&?&?&?&?&?) (?&?&?&?&?&?).
  repeat split; congruence.
Qed.

Lemma row_change_identity o o' : row_change o o' -> same_identity o o'.
Proof.
  intros [| st ad | d ad | now |].
  - repeat split.
  - apply updateData_identity.
  - eapply same_identity_trans;
      [apply updateData_identity | apply documentsData_identity].
  - repeat split.
  - repeat split.
Qed.

(** X7: Along every run of checkouts, webhook deliveries, refunds and sweeps an
    order stays in the table, and its id, template, customer email, form
    data, creation time and download expiry stay what they were: an order
    is never deleted, handed to another customer or given a longer download
    window. *)
Theorem run_keeps_identity env acts : forall w id o,
  orders w !! id = Some o ->
  exists o',
    orders (run env acts w) !! id = Some o' /\ same_identity o o'.
Proof.
  induction acts as [|a acts IH]; intros w id o Ho.
  - exists o. split; [exact Ho | repeat split].
  - destruct (step_row env a w id o Ho) as (o1 & Ho1 & Hc).
    destruct (IH (step env a w) id o1 Ho1) as (o' & Ho' & Hi).
    exists o'. split; [exact Ho'|].
    eapply same_identity_trans; [apply row_change_identity|]; eassumption.
Qed.

Lemma run_keeps_identity_witness :
  exists o',
    orders (run (test_env true)
              [Webhook (signed "completed_500"); Sweep 700000000;
               AdminRefund "ord_1" "asked" "adm_1" 5;
               Webhook (signed "expired")]
              shop_pending) !! "ord_1" = Some o'
    /\ same_identity alice_pending_order o'.
Proof.
  refine (run_keeps_identity (test_env true)
            [Webhook (signed "completed_500"); Sweep 700000000;
             AdminRefund "ord_1" "asked" "adm_1" 5;
             Webhook (signed "expired")]
            shop_pending "ord_1" alice_pending_order _).
  vm_compute. reflexivity.
Defined.

Lemma step_keyed env a w : keyed_by_id w -> keyed_by_id (step env a w).
Proof.
  intros Hk id o' Ho'.
  destruct (orders w !! id) as [o|] eqn:Ho.
  - destruct (step_row env a w id o Ho) as (o1 & Ho1 & Hc).
    assert (o' = o1) by congruence. subst o1.
    rewrite (proj1 (row_change_identity _ _ Hc)). now apply Hk.
  - destruct a as [data newId now|req|orderId reason adminId now|now];
      cbn [step] in Ho'.
    + destruct (createPendingOrder_orders data newId now w)
        as [E|(_ & o & E & _)].
      * rewrite E in Ho'. congruence.
      * revert E Ho'.
        unfold createPendingOrder, try_catch, bind, template_findUnique.
        destruct (templates w !! cpo_templateId data) as [t|];
          [|cbn; congruence].
        unfold order_create. destruct (orders w !! newId);
          [cbn; congruence|].
        intros _. cbn [snd orders with_orders].
        destruct (decide (newId = id)) as [->|Hne].
        -- rewrite lookup_insert_eq. now intros [= <-].
        -- rewrite lookup_insert_ne by assumption. congruence.
    + destruct (webhook_orders_shape env req w)
        as [E|(id' & o0 & o1 & Ho0 & E & _)].
      * rewrite E in Ho'. congruence.
      * rewrite E in Ho'.
        destruct (decide (id' = id)) as [->|Hne]; [congruence|].
        rewrite lookup_insert_ne in Ho' by assumption. congruence.
    + destruct (processRefund_orders env orderId reason adminId now w)
        as [E|(o0 & Ho0 & E)].
      * rewrite E in Ho'. congruence.
      * rewrite E in Ho'.
        destruct (decide (orderId = id)) as [->|Hne]; [congruence|].
        rewrite lookup_insert_ne in Ho' by assumption. congruence.
    + pose proof (cleanupExpiredOrders_swept env now w id) as H.
      rewrite Ho in H. congruence.
Qed.

Lemma run_keyed env acts : forall w,
  keyed_by_id w -> keyed_by_id (run env acts w).
Proof.
  induction acts as [|a acts IH]; intros w Hk; [exact Hk|].
  cbn [run fold_left]. apply IH. now apply step_keyed.
Qed.

(** ** More on the sweeper *)

Lemma delete_document_ok env id url w :
  fst (delete_document env id url w)
  = if delete_ok env id url then Ok tt
    else match fst (delete_document env id url w) with
         | Ok _ => Ok tt
         | Throw m => Throw m
         end.
Proof.
  unfold delete_document, delete_ok, lift, ret.
  destruct url as [u|]; [|reflexivity].
  destruct (truthy_string u); [|reflexivity].
  cbn [fst]. now destruct (deleteFile env _) as [[]|m].
Qed.

Lemma delete_document_fails env id url w :
  delete_ok env id url = false ->
  exists m, delete_document env id url w = (Throw m, w).
Proof.
  unfold delete_document, delete_ok, lift, ret.
  destruct url as [u|]; [|discriminate].
  destruct (truthy_string u); [|discriminate].
  destruct (deleteFile env _) as [[]|m]; [discriminate|]. now exists m.
Qed.

Lemma delete_document_succeeds env id url w :
  delete_ok env id url = true ->
  delete_document env id url w = (Ok tt, w).
Proof.
  unfold delete_document, delete_ok, lift, ret.
  destruct url as [u|]; [|reflexivity].
  destruct (truthy_string u); [|reflexivity].
  now destruct (deleteFile env _) as [[]|m].
Qed.

Lemma cleanup_order_alter env order w :
  fst (cleanup_order env order w) = Ok tt
  /\ orders (snd (cleanup_order env order w))
     = if deletes_ok env order
       then alter clear_documents (order_id order) (orders w)
       else orders w.
Proof.
  unfold cleanup_order, try_catch, bind, deletes_ok.
  destruct (delete_ok env (order_id order) (pdfUrl order)) eqn:H1.
  - rewrite (delete_document_succeeds _ _ _ w H1).
    destruct (delete_ok env (order_id order) (docxUrl order)) eqn:H2.
    + rewrite (delete_document_succeeds _ _ _ w H2). cbn [andb].
      destruct (orders w !! order_id order) as [o|] eqn:Ho.
      * rewrite (order_update_found _ _ _ _ Ho). split; [reflexivity|].
        cbn [snd ret orders with_orders].
        apply map_eq. intros k. rewrite lookup_alter.
        destruct (decide (order_id order = k)) as [<-|Hne].
        -- now rewrite lookup_insert_eq, Ho.
        -- now rewrite lookup_insert_ne.
      * rewrite (order_update_missing _ _ _ Ho). split; [reflexivity|].
        cbn [snd ret]. apply map_eq. intros k. rewrite lookup_alter.
        destruct (decide (order_id order = k)) as [<-|Hne];
          [now rewrite Ho | reflexivity].
    + destruct (delete_document_fails _ _ _ w H2) as [m ->].
      now split.
  - destruct (delete_document_fails _ _ _ w H1) as [m ->]. now split.
Qed.

Lemma clear_documents_idem o :
  clear_documents (clear_documents o) = clear_documents o.
Proof. reflexivity. Qed.

Lemma for_of_cleanup_lookup env xs : forall w id,
  orders (snd (for_of (cleanup_order env) xs w)) !! id
  = if existsb (fun x => bool_decide (order_id x = id) && deletes_ok env x) xs
    then clear_documents <$> (orders w !! id)
    else orders w !! id.
Proof.
  induction xs as [|x xs IH]; intros w id; [reflexivity|].
  cbn [for_of existsb]. unfold bind.
  destruct (cleanup_order_alter env x w) as [Hok Hor].
  destruct (cleanup_order env x w) as [r w1]. cbn [fst snd] in Hok, Hor.
  subst r. rewrite IH, Hor.
  destruct (deletes_ok env x); rewrite ?andb_false_r; [|reflexivity].
  rewrite andb_true_r, lookup_alter.
  destruct (decide (order_id x = id)) as [<-|E].
  - rewrite bool_decide_eq_true_2 by reflexivity. cbn [orb].
    destruct (orders w !! order_id x) as [o|]; cbn;
      now destruct (existsb _ xs).
  - now rewrite (bool_decide_eq_false_2 _ E).
Qed.

Lemma cleanupExpiredOrders_lookup env now w id :
  orders (snd (cleanupExpiredOrders env now w)) !! id
  = if existsb (fun x => bool_decide (order_id x = id) && deletes_ok env x)
         (List.filter (sweepable now)
            (List.map snd (map_to_list (orders w))))
    then clear_documents <$> (orders w !! id)
    else orders w !! id.
Proof.
  unfold cleanupExpiredOrders, try_catch, bind, order_findMany.
  rewrite <- for_of_cleanup_lookup.
  now destruct (for_of (cleanup_order env) _ w) as [[[]|m] w1].
Qed.

Lemma sweep_row env now w id o :
  keyed_by_id w ->
  orders w !! id = Some o ->
  orders (snd (cleanupExpiredOrders env now w)) !! id
  = Some (if sweepable now o && deletes_ok env o
          then clear_documents o else o).
Proof.
  intros Hk Ho. rewrite cleanupExpiredOrders_lookup, Ho.
  destruct (existsb _ _) eqn:E.
  - apply existsb_exists in E. destruct E as (x & Hin & Hx).
    apply andb_prop in Hx. destruct Hx as [Hid Hd].
    apply bool_decide_eq_true_1 in Hid.
    apply filter_In in Hin. destruct Hin as [Hin Hs].
    apply in_map_iff in Hin. destruct Hin as ([k x'] & Hx' & Hin).
    cbn [snd] in Hx'. subst x'.
    apply list_elem_of_In, elem_of_map_to_list in Hin.
    assert (k = id) by (rewrite <- (Hk k x Hin); exact Hid). subst k.
    assert (x = o) by congruence. subst x.
    now rewrite Hs, Hd.
  - destruct (sweepable now o && deletes_ok env o) eqn:F; [|reflexivity].
    exfalso. apply andb_prop in F. destruct F as [Hs Hd].
    assert (X : existsb
                  (fun x => bool_decide (order_id x = id) && deletes_ok env x)
                  (List.filter (sweepable now)
                     (List.map snd (map_to_list (orders w)))) = true).
    { apply existsb_exists. exists o. split.
      - apply filter_In. split; [|exact Hs].
        apply in_map_iff. exists (id, o). split; [reflexivity|].
        now apply list_elem_of_In, elem_of_map_to_list.
      - rewrite Hd, andb_true_r. apply bool_decide_eq_true_2.
        now apply Hk. }
    congruence.
Qed.

(** X8: What a sweep does, row by row, in a table keyed by id.  A paid order
    whose download window ended before [now], and whose files the object
    store deletes without error, loses both artifact pointers and keeps its
    status, amount, payment id, id, template, customer email, form data,
    creation time and download expiry.  Every other row is left exactly as
    it was -- also the row of an order whose file could not be deleted, so
    that the next sweep tries again. *)
Theorem sweep_clears_exactly env now w id o :
  keyed_by_id w ->
  orders w !! id = Some o ->
  exists o',
    orders (snd (cleanupExpiredOrders env now w)) !! id = Some o'
    /\ (status o = paid -> downloadExpiry o < now ->
        deletes_ok env o = true ->
        pdfUrl o' = None /\ docxUrl o' = None
        /\ status o' = paid
        /\ amount o' = amount o
        /\ stripePaymentId o' = stripePaymentId o
        /\ same_identity o o')
    /\ (status o <> paid \/ now <= downloadExpiry o
        \/ deletes_ok env o = false ->
        o' = o).
Proof.
  intros Hk Ho. rewrite (sweep_row env now w id o Hk Ho).
  eexists. split; [reflexivity|]. unfold sweepable. split.
  - intros Hs Hn Hd. rewrite Hd, Hs.
    rewrite bool_decide_eq_true_2 by reflexivity.
    rewrite (proj2 (Z.ltb_lt _ _) Hn). cbn [andb].
    unfold same_identity. now repeat split.
  - intros [Hs|[Hn|Hd]].
    + rewrite (bool_decide_eq_false_2 _ Hs). now rewrite andb_false_r.
    + rewrite (proj2 (Z.ltb_ge _ _) Hn). reflexivity.
    + rewrite Hd. now rewrite andb_false_r.
Qed.

Lemma sweep_clears_exactly_witness :
  exists o',
    orders (snd (cleanupExpiredOrders (test_env true) 604800001 shop_paid))
      !! "ord_1" = Some o'
    /\ pdfUrl o' = None /\ docxUrl o' = None /\ status o' = paid
    /\ amount o' = amount alice_paid_order.
Proof.
  destruct (sweep_clears_exactly (test_env true) 604800001 shop_paid "ord_1"
              alice_paid_order) as (o' & L & C & _).
  - refine (run_keyed (test_env true)
              [Checkout alice_data "ord_1" 0; Webhook (signed "completed")]
              shop _).
    intros id o. vm_compute. discriminate.
  - vm_compute. reflexivity.
  - exists o'. split; [exact L|].
    destruct C as (P1 & P2 & P3 & P4 & _);
      [reflexivity | vm_compute; reflexivity | vm_compute; reflexivity |].
    now repeat split.
Defined.

(** A sweep creates and deletes no order. *)
Lemma sweep_keeps_missing env now w id :
  orders w !! id = None ->
  orders (snd (cleanupExpiredOrders env now w)) !! id = None.
Proof.
  intros Ho. rewrite cleanupExpiredOrders_lookup, Ho.
  now destruct (existsb _ _).
Qed.

(** X9: Sweeping twice at the same time, with the object store answering as
    before, leaves the order table as sweeping once does. *)
Theorem sweep_idempotent env now w :
  keyed_by_id w ->
  orders (snd (cleanupExpiredOrders env now
                 (snd (cleanupExpiredOrders env now w))))
  = orders (snd (cleanupExpiredOrders env now w)).
Proof.
  intros Hk. apply map_eq. intros id.
  destruct (orders w !! id) as [o|] eqn:Ho.
  - assert (Hk' : keyed_by_id (snd (cleanupExpiredOrders env now w))).
    { exact (step_keyed env (Sweep now) w Hk). }
    pose proof (sweep_row env now w id o Hk Ho) as H1.
    rewrite (sweep_row env now _ id _ Hk' H1).
    rewrite H1. f_equal.
    destruct (sweepable now o && deletes_ok env o) eqn:F.
    + now destruct (sweepable now (clear_documents o) && _).
    + now rewrite F.
  - rewrite (sweep_keeps_missing env now w id Ho).
    apply sweep_keeps_missing. now apply sweep_keeps_missing.
Qed.

Lemma sweep_idempotent_witness :
  orders (snd (cleanupExpiredOrders (test_env true) 604800001
                 (snd (cleanupExpiredOrders (test_env true) 604800001
                         shop_paid))))
  = orders (snd (cleanupExpiredOrders (test_env true) 604800001 shop_paid)).
Proof.
  refine (sweep_idempotent (test_env true) 604800001 shop_paid _).
  refine (run_keyed (test_env true)
            [Checkout alice_data "ord_1" 0; Webhook (signed "completed")]
            shop _).
  intros id o. vm_compute. discriminate.
Defined.

(** X10: The sweeper and the download route agree on expiry: a sweep at time
    [now] leaves untouched every order for which the download route, asked
    at the same time, does not answer 410.  So a customer who can still
    download never loses the files to the sweeper. *)
Theorem sweep_spares_downloadable env req now w email o :
  keyed_by_id w ->
  validated env req = Some email ->
  orders w !! params_id req = Some o ->
  customerEmail o = email ->
  statusCode (fst (get_download env req now w)) <> 410 ->
  orders (snd (cleanupExpiredOrders env now w)) !! params_id req = Some o.
Proof.
  intros Hk Hv Ho He Hc.
  rewrite (sweep_row env now w _ o Hk Ho).
  destruct (sweepable now o) eqn:Hs; [|reflexivity].
  exfalso. apply Hc. unfold sweepable in Hs.
  apply andb_prop in Hs. destruct Hs as [Hx Hp].
  apply bool_decide_eq_true_1 in Hp.
  unfold get_download. rewrite Hv. unfold run_route, bind.
  rewrite (getOrderByIdAndEmail_found _ _ _ _ Ho), He, String.eqb_refl.
  rewrite bool_decide_eq_true_2 by assumption. cbn [negb].
  now rewrite Hx.
Qed.

Lemma sweep_spares_downloadable_witness :
  orders (snd (cleanupExpiredOrders (test_env true) 5 shop_paid)) !! "ord_1"
  = Some alice_paid_order.
Proof.
  refine (sweep_spares_downloadable (test_env true) alice_request 5 shop_paid
            "alice@example.com" alice_paid_order _ _ _ _ _).
  - refine (run_keyed (test_env true)
              [Checkout alice_data "ord_1" 0; Webhook (signed "completed")]
              shop _).
    intros id o. vm_compute. discriminate.
  - reflexivity.
  - vm_compute. reflexivity.
  - reflexivity.
  - vm_compute. discriminate.
Defined.

(** ** More on customer access *)

Lemma append_cons_end acc c k :
  ((acc ++ String c "") ++ k = acc ++ String c k)%string.
Proof.
  induction acc as [|a acc IH]; [reflexivity|].
  change (String a ((acc ++ String c "") ++ k)
          = String a (acc ++ String c k))%string.
  now f_equal.
Qed.

Lemma append_empty_end acc : (acc ++ "" = acc)%string.
Proof.
  induction acc as [|a acc IH]; [reflexivity|].
  change (String a (acc ++ "") = String a acc)%string. now f_equal.
Qed.

Lemma split_pop_from_plain : forall k acc,
  slash_free k = true -> split_pop_from acc k = (acc ++ k)%string.
Proof.
  induction k as [|c k IH]; intros acc H.
  - cbn. now rewrite append_empty_end.
  - cbn in H. apply andb_prop in H. destruct H as [Hc H].
    cbn [split_pop_from].
    destruct (Ascii.eqb c "/"%char); [discriminate|].
    rewrite IH by assumption. apply append_cons_end.
Qed.

Lemma split_pop_from_app acc s k :
  slash_free k = true ->
  split_pop_from acc (s ++ String "/"%char k) = k.
Proof.
  intros Hk. revert acc.
  induction s as [|c s IH]; intros acc.
  - change (split_pop_from acc (String "/"%char k) = k).
    cbn [split_pop_from]. rewrite Ascii.eqb_refl.
    now rewrite split_pop_from_plain.
  - change (split_pop_from acc (String c (s ++ String "/"%char k)) = k).
    cbn [split_pop_from].
    destruct (Ascii.eqb c "/"%char); apply IH.
Qed.

Lemma slash_free_snoc acc c :
  slash_free acc = true -> Ascii.eqb c "/"%char = false ->
  slash_free (acc ++ String c "") = true.
Proof.
  intros Ha E. induction acc as [|a acc IHa].
  - change (slash_free (String c "") = true). cbn [slash_free].
    now rewrite E.
  - cbn in Ha. apply andb_prop in Ha. destruct Ha as [H1 H2].
    change (slash_free (String a (acc ++ String c "")) = true).
    cbn [slash_free]. now rewrite H1, IHa.
Qed.

Lemma split_pop_from_slash_free : forall s acc,
  slash_free acc = true -> slash_free (split_pop_from acc s) = true.
Proof.
  induction s as [|c s IH]; intros acc Ha; cbn [split_pop_from]; [exact Ha|].
  destruct (Ascii.eqb c "/"%char) eqn:E; apply IH; [reflexivity|].
  now apply slash_free_snoc.
Qed.

(** X11: The storage key is taken from a stored URL as the text after its last
    slash: the result never contains a slash, and for every prefix and every
    slash-free file name (with whatever follows it, a query string
    included) the URL [prefix/name] gives back [name]. *)
Theorem split_pop_last_segment :
  (forall s, slash_free (split_pop s) = true)
  /\ (forall prefix name,
        slash_free name = true ->
        split_pop (prefix ++ "/" ++ name) = name).
Proof.
  split.
  - intros s. now apply split_pop_from_slash_free.
  - intros prefix name H. unfold split_pop.
    change (prefix ++ "/" ++ name)%string
      with (prefix ++ String "/"%char name)%string.
    now apply split_pop_from_app.
Qed.

Lemma getDownloadLinks_world env id w : snd (getDownloadLinks env id w) = w.
Proof.
  unfold getDownloadLinks, try_catch, bind, order_findUnique, lift, throw, ret.
  destruct (orders w !! id) as [o|]; [|reflexivity].
  destruct (pdfUrl o) as [pdf|], (docxUrl o) as [docx|]; try reflexivity.
  destruct (truthy_string pdf && truthy_string docx); [|reflexivity].
  destruct (getSignedUrl env _) as [u1|m]; [|reflexivity].
  now destruct (getSignedUrl env _) as [u2|m'].
Qed.

Lemma getDownloadLinks_signed env id w o pdf docx u1 u2 :
  orders w !! id = Some o ->
  pdfUrl o = Some pdf -> docxUrl o = Some docx ->
  truthy_string pdf = true -> truthy_string docx = true ->
  getSignedUrl env ("documents/" ++ id ++ "/" ++ split_pop pdf) = Ok u1 ->
  getSignedUrl env ("documents/" ++ id ++ "/" ++ split_pop docx) = Ok u2 ->
  getDownloadLinks env id w
  = (Ok {| doc_pdfUrl := u1; doc_docxUrl := u2 |}, w).
Proof.
  intros Ho Hp Hd Tp Td S1 S2.
  unfold getDownloadLinks, try_catch, bind, order_findUnique, lift, ret.
  now rewrite Ho, Hp, Hd, Tp, Td, S1, S2.
Qed.

Lemma get_download_expired env req now w email o :
  validated env req = Some email ->
  orders w !! params_id req = Some o ->
  customerEmail o = email -> status o = paid ->
  downloadExpiry o < now ->
  get_download env req now w
  = (respond 410 (ErrorBody "DOWNLOAD_EXPIRED"), w).
Proof.
  intros Hv Ho He Hs Hx. unfold get_download. rewrite Hv.
  unfold run_route, bind.
  rewrite (getOrderByIdAndEmail_found _ _ _ _ Ho), He, String.eqb_refl.
  rewrite bool_decide_eq_true_2 by assumption. cbn [negb].
  apply Z.ltb_lt in Hx. now rewrite Hx.
Qed.

(** X12: The successful download: for a paid order found under id and email,
    asked not later than [downloadExpiry] (the instant of expiry included),
    with both artifacts recorded, the route asks the object store to sign
    the keys [documents/<id>/<last segment of the stored URL>] and answers
    200 with the two fresh URLs, the expiry and the remaining time
    [downloadExpiry - now]; nothing is written. *)
Theorem download_serves_until_expiry env req now w email o pdf docx u1 u2 :
  validated env req = Some email ->
  orders w !! params_id req = Some o ->
  customerEmail o = email ->
  status o = paid ->
  now <= downloadExpiry o ->
  pdfUrl o = Some pdf -> docxUrl o = Some docx ->
  truthy_string pdf = true -> truthy_string docx = true ->
  getSignedUrl env ("documents/" ++ params_id req ++ "/" ++ split_pop pdf)
  = Ok u1 ->
  getSignedUrl env ("documents/" ++ params_id req ++ "/" ++ split_pop docx)
  = Ok u2 ->
  get_download env req now w
  = (respond 200
       (DownloadBody u1 u2 (downloadExpiry o) (downloadExpiry o - now)), w).
Proof.
  intros Hv Ho He Hs Hx Hp Hd Tp Td S1 S2.
  unfold get_download. rewrite Hv. unfold run_route, bind.
  rewrite (getOrderByIdAndEmail_found _ _ _ _ Ho), He, String.eqb_refl.
  rewrite bool_decide_eq_true_2 by assumption. cbn [negb].
  assert (Hn : Z.ltb (downloadExpiry o) now = false) by (apply Z.ltb_ge; lia).
  rewrite Hn, Hp, Hd. cbn [truthy_opt_string]. rewrite Tp, Td.
  cbn [negb orb].
  rewrite (getDownloadLinks_signed env _ w o pdf docx u1 u2 Ho Hp Hd Tp Td
             S1 S2).
  cbn [ret doc_pdfUrl doc_docxUrl]. rewrite Z.max_r by lia. reflexivity.
Qed.

Lemma download_serves_until_expiry_witness :
  get_download (test_env true) alice_request 604800000 shop_paid
  = (respond 200
       (DownloadBody
          "https://r2.example/documents/ord_1/ord_1.pdf?sig=a?fresh"
          "https://r2.example/documents/ord_1/ord_1.docx?sig=b?fresh"
          (downloadExpiry alice_paid_order)
          (downloadExpiry alice_paid_order - 604800000)), shop_paid).
Proof.
  refine (download_serves_until_expiry (test_env true) alice_request
            604800000 shop_paid "alice@example.com" alice_paid_order
            (doc_pdfUrl the_documents) (doc_docxUrl the_documents)
            _ _ _ _ _ _ _ _ _ _ _ _ _).
  all: first [reflexivity | vm_compute; reflexivity
              | vm_compute; discriminate].
Defined.

(** A failure of the object store to sign a key is not answered as an
    expired or missing download: the route hands the error to the error
    handler, which answers 500, and nothing is written. *)
Lemma download_signing_failure_is_500 env req now w email o pdf docx m :
  validated env req = Some email ->
  orders w !! params_id req = Some o ->
  customerEmail o = email ->
  status o = paid ->
  now <= downloadExpiry o ->
  pdfUrl o = Some pdf -> docxUrl o = Some docx ->
  truthy_string pdf = true -> truthy_string docx = true ->
  getSignedUrl env ("documents/" ++ params_id req ++ "/" ++ split_pop pdf)
  = Throw m ->
  get_download env req now w
  = (respond 500 (ErrorBody "INTERNAL_ERROR"), w).
Proof.
  intros Hv Ho He Hs Hx Hp Hd Tp Td S1.
  unfold get_download. rewrite Hv. unfold run_route, bind.
  rewrite (getOrderByIdAndEmail_found _ _ _ _ Ho), He, String.eqb_refl.
  rewrite bool_decide_eq_true_2 by assumption. cbn [negb].
  assert (Hn : Z.ltb (downloadExpiry o) now = false) by (apply Z.ltb_ge; lia).
  rewrite Hn, Hp, Hd. cbn [truthy_opt_string]. rewrite Tp, Td.
  cbn [negb orb].
  unfold getDownloadLinks, try_catch, bind, order_findUnique, lift, throw.
  now rewrite Ho, Hp, Hd, Tp, Td, S1.
Qed.

Lemma download_signing_failure_is_500_witness :
  get_download storage_down_env alice_request 5 shop_paid
  = (respond 500 (ErrorBody "INTERNAL_ERROR"), shop_paid).
Proof.
  refine (download_signing_failure_is_500 storage_down_env alice_request 5
            shop_paid "alice@example.com" alice_paid_order
            (doc_pdfUrl the_documents) (doc_docxUrl the_documents)
            "AccessDenied" _ _ _ _ _ _ _ _ _ _).
  all: first [reflexivity | vm_compute; reflexivity
              | vm_compute; discriminate].
Defined.

(** ** The resend-email route *)

Lemma resendConfirmationEmail_sent env o pdf docx u1 u2 w :
  orders w !! order_id o = Some o ->
  pdfUrl o = Some pdf -> docxUrl o = Some docx ->
  truthy_string pdf = true -> truthy_string docx = true ->
  getSignedUrl env ("documents/" ++ order_id o ++ "/" ++ split_pop pdf)
  = Ok u1 ->
  getSignedUrl env ("documents/" ++ order_id o ++ "/" ++ split_pop docx)
  = Ok u2 ->
  sgMail_send env (customerEmail o) o {| doc_pdfUrl := u1; doc_docxUrl := u2 |}
  = Ok tt ->
  resendConfirmationEmail env o w
  = (Ok tt,
     snd (log_mail (customerEmail o, o,
                    {| doc_pdfUrl := u1; doc_docxUrl := u2 |}) w)).
Proof.
  intros Ho Hp Hd Tp Td S1 S2 Hm.
  unfold resendConfirmationEmail, try_catch at 1. rewrite Hp, Hd.
  cbn [truthy_opt_string]. rewrite Tp, Td. cbn [negb orb].
  unfold bind at 1.
  rewrite (getDownloadLinks_signed env _ w o pdf docx u1 u2 Ho Hp Hd Tp Td
             S1 S2).
  unfold sendOrderConfirmation, bind, try_catch, lift, ret.
  cbn [log_mail fst snd]. now rewrite Hm.
Qed.

(** X13: The resend-email route does not look at [downloadExpiry].  For a paid
    order with both artifacts whose download window has ended, the download
    route answers 410, while the resend-email route, given the same id and
    email, has fresh signed links mailed to the customer and answers
    200. *)
Theorem resend_ignores_expiry env prisma_filter id email now o pdf docx u1 u2
    w :
  truthy_string id = true ->
  truthy_string email = true ->
  isEmail env email = true ->
  orders w !! id = Some o ->
  order_id o = id ->
  customerEmail o = email ->
  status o = paid ->
  downloadExpiry o < now ->
  pdfUrl o = Some pdf -> docxUrl o = Some docx ->
  truthy_string pdf = true -> truthy_string docx = true ->
  getSignedUrl env ("documents/" ++ id ++ "/" ++ split_pop pdf) = Ok u1 ->
  getSignedUrl env ("documents/" ++ id ++ "/" ++ split_pop docx) = Ok u2 ->
  sgMail_send env email o {| doc_pdfUrl := u1; doc_docxUrl := u2 |} = Ok tt ->
  get_download env {| params_id := id; query_email := Some email |} now w
  = (respond 410 (ErrorBody "DOWNLOAD_EXPIRED"), w)
  /\ post_resend_email env prisma_filter
       {| rs_id := id; body_email := Some (BString email) |} w
     = (reply 200 (PSent (BString email)),
        snd (log_mail (email, o, {| doc_pdfUrl := u1; doc_docxUrl := u2 |})
               w)).
Proof.
  intros Ti Te Hi Ho Hid He Hs Hx Hp Hd Tp Td S1 S2 Hm. split.
  - apply get_download_expired with email o; try assumption.
    unfold validated. cbn [query_email params_id]. now rewrite Ti, Hi.
  - unfold post_resend_email. cbn [rs_id body_email truthy_body].
    rewrite Ti, Te.
    cbn [negb]. unfold run_reply, bind.
    rewrite (getOrderByIdAndEmail_found _ _ _ _ Ho), He, String.eqb_refl.
    rewrite bool_decide_eq_true_2 by assumption. cbn [negb].
    subst id email.
    now rewrite (resendConfirmationEmail_sent env o pdf docx u1 u2 w Ho Hp Hd
                   Tp Td S1 S2 Hm).
Qed.

Lemma resend_ignores_expiry_witness :
  get_download (test_env true) alice_request 700000000 shop_paid
  = (respond 410 (ErrorBody "DOWNLOAD_EXPIRED"), shop_paid)
  /\ post_resend_email (test_env true) test_filter
       {| rs_id := "ord_1";
          body_email := Some (BString "alice@example.com") |}
       shop_paid
     = (reply 200 (PSent (BString "alice@example.com")),
        snd (log_mail
               ("alice@example.com", alice_paid_order,
                {| doc_pdfUrl :=
                     "https://r2.example/documents/ord_1/ord_1.pdf?sig=a?fresh";
                   doc_docxUrl :=
                     "https://r2.example/documents/ord_1/ord_1.docx?sig=b?fresh"
                |}) shop_paid)).
Proof.
  refine (resend_ignores_expiry (test_env true) test_filter "ord_1"
            "alice@example.com"
            700000000 alice_paid_order
            (doc_pdfUrl the_documents) (doc_docxUrl the_documents)
            _ _ shop_paid _ _ _ _ _ _ _ _ _ _ _ _ _ _ _).
  all: first [reflexivity | vm_compute; reflexivity
              | vm_compute; discriminate].
Defined.

(** How the route finds the order: by id and equal email for a string, by
    id and Prisma's reading of the value otherwise. *)
Lemma resend_lookup prisma_filter id (email : BodyValue) w :
  exists r,
    match email with
    | BString s => getOrderByIdAndEmail id s
    | BOther _ json => getOrderByIdAndFilter prisma_filter id json
    end w = (r, w)
    /\ forall o, r = Ok (Some o) ->
         orders w !! id = Some o
         /\ match email with
            | BString s => customerEmail o = s
            | BOther _ json =>
                exists matches,
                  prisma_filter json = Ok matches
                  /\ matches (customerEmail o) = true
            end.
Proof.
  destruct email as [s|t json].
  - destruct (orders w !! id) as [o|] eqn:Ho.
    + rewrite (getOrderByIdAndEmail_found _ _ _ _ Ho).
      eexists. split; [reflexivity|]. intros o' E.
      destruct (String.eqb_spec (customerEmail o) s) as [He|He];
        [|discriminate].
      injection E as <-. now split.
    + rewrite (getOrderByIdAndEmail_missing _ _ _ Ho).
      eexists. split; [reflexivity|]. discriminate.
  - unfold getOrderByIdAndFilter, try_catch, order_findFirst_filter, throw.
    destruct (prisma_filter json) as [matches|m] eqn:Hf.
    + destruct (orders w !! id) as [o|] eqn:Ho.
      * destruct (matches (customerEmail o)) eqn:Hm.
        -- eexists. split; [reflexivity|]. intros o' E. injection E as <-.
           split; [reflexivity|]. now exists matches.
        -- eexists. split; [reflexivity|]. discriminate.
      * eexists. split; [reflexivity|]. discriminate.
    + eexists. split; [reflexivity|]. discriminate.
Qed.

Lemma post_resend_email_world env prisma_filter req w :
  snd (post_resend_email env prisma_filter req w) = w
  \/ exists email o d,
       body_email req = Some email
       /\ orders w !! rs_id req = Some o
       /\ match email with
          | BString s => customerEmail o = s
          | BOther _ json =>
              exists matches,
                prisma_filter json = Ok matches
                /\ matches (customerEmail o) = true
          end
       /\ status o = paid
       /\ artifacts_ready o = true
       /\ snd (post_resend_email env prisma_filter req w)
          = snd (log_mail (customerEmail o, o, d) w).
Proof.
  unfold post_resend_email.
  destruct (truthy_string (rs_id req)); cbn [negb]; [|now left].
  unfold run_reply.
  destruct (body_email req) as [email|]; [|now left].
  destruct (truthy_body email); cbn [negb]; [|now left].
  unfold bind.
  destruct (resend_lookup prisma_filter (rs_id req) email w)
    as (r & -> & Hr).
  destruct r as [[o|]|m]; [|now left|now left].
  destruct (Hr o eq_refl) as [Ho He].
  destruct (decide (status o = paid)) as [Hs|Hs].
  2:{ rewrite bool_decide_eq_false_2 by assumption. now left. }
  rewrite bool_decide_eq_true_2 by assumption. cbn [negb].
  unfold resendConfirmationEmail, try_catch.
  destruct (negb (truthy_opt_string (pdfUrl o))
            || negb (truthy_opt_string (docxUrl o))) eqn:Ha; [now left|].
  unfold bind.
  pose proof (getDownloadLinks_world env (order_id o) w) as Hw.
  destruct (getDownloadLinks env (order_id o) w) as [[d|m] w1];
    cbn [snd] in Hw; subst w1; [|now left].
  right. exists email, o, d.
  assert (Ha' : artifacts_ready o = true).
  { unfold artifacts_ready. rewrite <- negb_andb in Ha.
    now apply negb_false_iff in Ha. }
  unfold sendOrderConfirmation, bind, try_catch, lift, throw, ret.
  cbn [log_mail fst snd].
  destruct (sgMail_send env (customerEmail o) o d) as [[]|m];
    cbn [snd]; (split; [reflexivity|]); (split; [exact Ho|]);
    (split; [exact He|]); (split; [exact Hs|]); (split; [exact Ha'|]);
    reflexivity.
Qed.

(** X14: The resend-email route writes nothing to the order table and invokes
    the mailer at most once, and then for the stored [customerEmail] of
    the order with the requested id, which is paid and has both artifacts.
    When the email of the body is a string, the mailer is invoked only if
    that string is the stored address.  An email of the body that is not a
    string is not refused: it reaches the query as it is, and the mailer is
    then invoked only when Prisma takes it for a filter that the stored
    address satisfies. *)
Theorem resend_mails_only_paid_owner env prisma_filter req w :
  orders (snd (post_resend_email env prisma_filter req w)) = orders w
  /\ render_calls (snd (post_resend_email env prisma_filter req w))
     = render_calls w
  /\ refund_calls (snd (post_resend_email env prisma_filter req w))
     = refund_calls w
  /\ (mail_calls (snd (post_resend_email env prisma_filter req w))
      = mail_calls w
      \/ exists email o d,
           body_email req = Some email
           /\ orders w !! rs_id req = Some o
           /\ match email with
              | BString s => customerEmail o = s
              | BOther _ json =>
                  exists matches,
                    prisma_filter json = Ok matches
                    /\ matches (customerEmail o) = true
              end
           /\ status o = paid
           /\ artifacts_ready o = true
           /\ mail_calls (snd (post_resend_email env prisma_filter req w))
              = (mail_calls w ++ [(customerEmail o, o, d)])%list).
Proof.
  destruct (post_resend_email_world env prisma_filter req w)
    as [E|(email & o & d & Hb & Ho & He & Hs & Ha & E)]; rewrite E.
  - repeat split. now left.
  - repeat split. right. exists email, o, d. repeat split; assumption.
Qed.

(** The two cases of the theorem above at work: a wrong string is answered
    404 and no mail goes out; the filter [not_empty_json] in the place of
    the email is answered 200 and the owner is mailed. *)
Lemma resend_with_filter_mails_owner :
  post_resend_email (test_env true) test_filter
    {| rs_id := "ord_1"; body_email := Some (BString "eve@example.com") |}
    shop_paid
  = (reply 404 (PError "ORDER_NOT_FOUND"), shop_paid)
  /\ fst (post_resend_email (test_env true) test_filter
            {| rs_id := "ord_1";
               body_email := Some (BOther true not_empty_json) |}
            shop_paid)
     = reply 200 (PSent (BOther true not_empty_json))
  /\ fst <$> last (mail_calls
                     (snd (post_resend_email (test_env true) test_filter
                             {| rs_id := "ord_1";
                                body_email :=
                                  Some (BOther true not_empty_json) |}
                             shop_paid)))
     = Some ("alice@example.com", alice_paid_order).
Proof. vm_compute. repeat split; reflexivity. Qed.

(** ** Checkout, then lookup *)

(** X15: A created order can be looked up at once: after [createPendingOrder]
    succeeds, the status route, given the new id, answers 200 with the
    pending order (amount = the template's price at that moment,
    downloadExpiry = creation + 7 days) when the email is the one the order
    was created with, and 404 for every other email. *)
Theorem created_order_is_found env data newId now w o w' req email :
  createPendingOrder data newId now w = (Ok o, w') ->
  params_id req = newId ->
  validated env req = Some email ->
  (exists t, templates w !! cpo_templateId data = Some t
             /\ amount o = price t)
  /\ get_order env req w'
     = if String.eqb (cpo_customerEmail data) email
       then (respond 200
               (OrderBody newId (cpo_templateId data) pending (amount o)
                  now now (setDate_plus7 now)), w')
       else (respond 404 (ErrorBody "ORDER_NOT_FOUND"), w').
Proof.
  intros H Hid Hv.
  revert H. unfold createPendingOrder, try_catch, bind, template_findUnique.
  destruct (templates w !! cpo_templateId data) as [t|] eqn:Ht;
    [|discriminate].
  unfold order_create. destruct (orders w !! newId) eqn:Hn; [discriminate|].
  intros [= <- <-]. split; [now exists t|].
  unfold get_order. rewrite Hv, Hid. unfold run_route, bind.
  erewrite getOrderByIdAndEmail_found
    by (cbn [orders with_orders]; apply lookup_insert_eq).
  cbn [customerEmail].
  now destruct (String.eqb (cpo_customerEmail data) email).
Qed.

Lemma created_order_is_found_witness :
  (exists t, templates shop !! cpo_templateId alice_data = Some t
             /\ amount alice_pending_order = price t)
  /\ get_order (test_env true) alice_request shop_pending
     = if String.eqb (cpo_customerEmail alice_data) "alice@example.com"
       then (respond 200
               (OrderBody "ord_1" (cpo_templateId alice_data) pending
                  (amount alice_pending_order) 0 0 (setDate_plus7 0)),
             shop_pending)
       else (respond 404 (ErrorBody "ORDER_NOT_FOUND"), shop_pending).
Proof.
  refine (created_order_is_found (test_env true) alice_data "ord_1" 0 shop
            alice_pending_order shop_pending alice_request
            "alice@example.com" _ _ _).
  - vm_compute. reflexivity.
  - reflexivity.
  - reflexivity.
Defined.

(** Creation fails cleanly: for an unknown template, or an id already in
    use, [createPendingOrder] throws "Failed to create order" and writes
    nothing. *)
Lemma createPendingOrder_failure_writes_nothing data newId now w :
  templates w !! cpo_templateId data = None
  \/ orders w !! newId <> None ->
  createPendingOrder data newId now w = (Throw "Failed to create order", w).
Proof.
  intros H. unfold createPendingOrder, try_catch, bind, template_findUnique.
  destruct (templates w !! cpo_templateId data) as [t|] eqn:Ht;
    [|reflexivity].
  destruct H as [H|H]; [discriminate|].
  unfold order_create. now destruct (orders w !! newId).
Qed.

Lemma createPendingOrder_failure_writes_nothing_witness :
  createPendingOrder alice_data "ord_1" 9 shop_pending
  = (Throw "Failed to create order", shop_pending).
Proof.
  apply createPendingOrder_failure_writes_nothing.
  right. vm_compute. discriminate.
Defined.

(** ** Amounts in cents *)

Lemma Math_round_cents c : Math_round (inject_Z c / 100 * 100) = c.
Proof.
  unfold Math_round.
  assert (E : (inject_Z c / 100 * 100 + (1 # 2) == inject_Z c + (1 # 2))%Q).
  { field. }
  rewrite (Qfloor_comp _ _ E).
  assert (L : (inject_Z c <= inject_Z c + (1 # 2))%Q).
  { rewrite <- (Qplus_0_r (inject_Z c)) at 1.
    apply Qplus_le_r. discriminate. }
  assert (U : (inject_Z c + (1 # 2) < inject_Z (c + 1))%Q).
  { rewrite inject_Z_plus. apply Qplus_lt_r. reflexivity. }
  pose proof (Qfloor_le (inject_Z c + (1 # 2))) as F1.
  pose proof (Qlt_floor (inject_Z c + (1 # 2))) as F2.
  assert (A : (inject_Z (Qfloor (inject_Z c + (1 # 2))) < inject_Z (c + 1))%Q)
    by (eapply Qle_lt_trans; eassumption).
  assert (B : (inject_Z c < inject_Z (Qfloor (inject_Z c + (1 # 2)) + 1))%Q)
    by (eapply Qle_lt_trans; eassumption).
  rewrite <- Zlt_Qlt in A, B. lia.
Qed.

(** X16: The request a refund sends to the payment gateway.  For a paid order
    the gateway is called once, with the order's [stripePaymentId] and with
    the reason ["requested_by_customer"] whatever reason the admin gave.
    For an amount of a whole number of cents [c / 100], [c] not zero and
    below [2 ^ 50], the request names exactly [c] cents; for an amount of
    zero it names no amount at all. *)
Theorem refund_amount_in_cents env orderId reason adminId now w o :
  orders w !! orderId = Some o ->
  status o = paid ->
  exists p,
    refund_calls (snd (AdminService_processRefund env orderId reason adminId
                         now w))
    = (refund_calls w ++ [p])%list
    /\ rp_payment_intent p = stripePaymentId o
    /\ rp_reason p = Some "requested_by_customer"
    /\ (forall c, c <> 0 -> Z.abs c < 2 ^ 50 ->
                  (amount o == inject_Z c / 100)%Q ->
                  rp_amount p = Some c)
    /\ ((amount o == 0)%Q -> rp_amount p = None).
Proof.
  intros Ho Hs. exists (order_refundParams o). split.
  - rewrite (processRefund_paid env orderId reason adminId now w o Ho Hs).
    now destruct (refunds_create env (order_refundParams o)).
  - unfold order_refundParams, refundParams.
    cbn [rp_amount rp_payment_intent rp_reason].
    split; [reflexivity|]. split; [reflexivity|]. split.
    + intros c Hc _ E.
      assert (T : truthy_num (amount o) = true).
      { unfold truthy_num.
        destruct (Qeq_bool (amount o) 0) eqn:Q; [|reflexivity].
        exfalso. apply Qeq_bool_iff in Q. rewrite E in Q.
        unfold Qeq in Q. cbn in Q. lia. }
      rewrite T. f_equal. unfold Math_round.
      assert (E2 : (amount o * 100 + (1 # 2)
                    == inject_Z c / 100 * 100 + (1 # 2))%Q) by now rewrite E.
      rewrite (Qfloor_comp _ _ E2). apply Math_round_cents.
    + intros E. unfold truthy_num.
      apply Qeq_bool_iff in E. now rewrite E.
Qed.

Lemma refund_amount_in_cents_witness :
  exists p,
    refund_calls shop_refunded = (refund_calls shop_paid ++ [p])%list
    /\ rp_payment_intent p = "pi_1"
    /\ rp_reason p = Some "requested_by_customer"
    /\ rp_amount p = Some 999.
Proof.
  destruct (refund_amount_in_cents (test_env true) "ord_1" "asked" "adm_1" 5
              shop_paid alice_paid_order)
    as (p & L & P1 & P2 & P3 & _).
  - vm_compute. reflexivity.
  - reflexivity.
  - exists p. split; [exact L|]. split; [exact P1|]. split; [exact P2|].
    apply P3; [discriminate | reflexivity | reflexivity].
Defined.

(** X17: What a payment confirmation records is what a later refund asks for:
    after a verified checkout.session.completed event with a truthy payment
    intent [pi] and [amount_total] of [c <> 0] cents, the order is paid and
    the refund request built for it names [pi] and exactly [c] cents --
    whatever amount the order had before. *)
Theorem refund_asks_for_confirmed_amount env req sig event orderId templateId
    customerEmail formData0 pi c o w :
  stripe_signature req = Some sig ->
  truthy_string sig = true ->
  constructEvent env (raw_body req) sig = Ok event ->
  event_type event = "checkout.session.completed" ->
  truthy_field (data_object event) "orderId" = Some orderId ->
  truthy_field (data_object event) "templateId" = Some templateId ->
  truthy_field (data_object event) "customerEmail" = Some customerEmail ->
  truthy_field (data_object event) "formData" = Some formData0 ->
  payment_intent (data_object event) = Some pi ->
  truthy_string pi = true ->
  amount_total (data_object event) = Some c ->
  c <> 0 ->
  orders w !! orderId = Some o ->
  exists o',
    orders (snd (webhook env req w)) !! orderId = Some o'
    /\ status o' = paid
    /\ order_refundParams o'
       = {| rp_payment_intent := pi; rp_amount := Some c;
            rp_reason := Some "requested_by_customer" |}.
Proof.
  intros Hsig Hs Hev Hty Ho Ht Hc Hf Hpi Tpi Ha Hc0 Hw.
  rewrite (webhook_eq env req sig w Hsig Hs), Hev, Hty.
  cbn [String.eqb Ascii.eqb Bool.eqb].
  rewrite handleCheckoutSessionCompleted_eq, Ho, Ht, Hc, Hf, Hw.
  assert (Hu : forall o1,
            order_refundParams
              (updateData paid
                 {| ad_stripePaymentId := payment_intent (data_object event);
                    ad_amount := Some (session_amount (data_object event)) |}
                 o1)
            = {| rp_payment_intent := pi; rp_amount := Some c;
                 rp_reason := Some "requested_by_customer" |}).
  { intros o1. unfold updateData, session_amount.
    cbn [ad_stripePaymentId ad_amount]. rewrite Hpi, Tpi, Ha.
    destruct (Z.eqb_spec c 0) as [|_]; [contradiction|].
    rewrite (truthy_num_cents c Hc0).
    unfold order_refundParams, refundParams.
    cbn [stripePaymentId amount set_amount set_stripePaymentId set_status].
    rewrite (truthy_num_cents c Hc0), Math_round_cents. reflexivity. }
  assert (Hd : forall d o1,
            order_refundParams (documentsData d o1) = order_refundParams o1).
  { intros d o1. unfold documentsData.
    now destruct (du_pdfUrl d), (du_docxUrl d). }
  destruct (JSON_parse env formData0) as [parsed|m].
  - cbn zeta.
    destruct (render_and_upload env templateId parsed _) as [d|m].
    + destruct (sgMail_send env customerEmail _ d) as [[]|m];
        cbn [snd log_mail log_render orders with_orders];
        rewrite lookup_insert_eq; eexists; (split; [reflexivity|]);
        rewrite (proj1 (documentsData_frame _ _)), Hd, Hu;
        (split; [apply updateData_status | reflexivity]).
    + cbn [snd log_render orders with_orders].
      rewrite lookup_insert_eq. eexists. split; [reflexivity|].
      split; [apply updateData_status | apply Hu].
  - cbn [snd orders with_orders].
    rewrite lookup_insert_eq. eexists. split; [reflexivity|].
    split; [apply updateData_status | apply Hu].
Qed.

Lemma refund_asks_for_confirmed_amount_witness :
  exists o',
    orders (snd (webhook (test_env true) (signed "completed_500")
                   shop_pending)) !! "ord_1" = Some o'
    /\ status o' = paid
    /\ order_refundParams o'
       = {| rp_payment_intent := "pi_1"; rp_amount := Some 500;
            rp_reason := Some "requested_by_customer" |}.
Proof.
  refine (refund_asks_for_confirmed_amount (test_env true)
            (signed "completed_500") "t=1,v1=ok"
            {| event_id := "evt_2"; event_type := "checkout.session.completed";
               data_object := completed_session 500 |}
            "ord_1" "tpl_nda" "alice@example.com" "{}" "pi_1" 500
            alice_pending_order shop_pending _ _ _ _ _ _ _ _ _ _ _ _ _).
  all: first [reflexivity | vm_compute; reflexivity | discriminate].
Defined.

(** ** Admin authentication *)

Lemma until_space_plain t rest :
  space_free t = true ->
  until_space (t ++ String " "%char rest) = t
  /\ until_space t = t.
Proof.
  induction t as [|c t IH]; intros H.
  - split; reflexivity.
  - cbn in H. apply andb_prop in H. destruct H as [Hc H].
    apply negb_true_iff in Hc.
    change (until_space (String c (t ++ String " "%char rest)) = String c t
            /\ until_space (String c t) = String c t).
    cbn [until_space]. rewrite Hc.
    destruct (IH H) as [-> ->]. now split.
Qed.

Lemma after_space_plain scheme rest :
  space_free scheme = true ->
  after_space (scheme ++ String " "%char rest) = Some rest
  /\ after_space scheme = None.
Proof.
  induction scheme as [|c s IH]; intros H.
  - split; reflexivity.
  - cbn in H. apply andb_prop in H. destruct H as [Hc H].
    apply negb_true_iff in Hc.
    change (after_space (String c (s ++ String " "%char rest)) = Some rest
            /\ after_space (String c s) = None).
    cbn [after_space]. rewrite Hc. now apply IH.
Qed.

(** X18: The token is the second space-separated word of the Authorization
    header, whatever the first word is: [Bearer <t>], and any other scheme
    followed by the same token, yield [t]; what follows a further space is
    ignored.  A header without a space, a header whose first space is
    followed by another space or by nothing, and a missing header yield no
    token. *)
Theorem bearer_token_is_second_word :
  (forall scheme t,
     space_free scheme = true -> space_free t = true ->
     truthy_string t = true ->
     bearer_token (Some (scheme ++ " " ++ t)) = Some t
     /\ forall rest, bearer_token (Some (scheme ++ " " ++ t ++ " " ++ rest))
                     = Some t)
  /\ (forall h, space_free h = true -> bearer_token (Some h) = None)
  /\ (forall scheme rest,
        space_free scheme = true ->
        bearer_token (Some (scheme ++ " " ++ " " ++ rest)) = None
        /\ bearer_token (Some (scheme ++ " ")) = None)
  /\ bearer_token None = None.
Proof.
  split; [|split; [|split]].
  - intros scheme t Hs Ht Tt. unfold bearer_token, split_space_1. split.
    + change (scheme ++ " " ++ t)%string
        with (scheme ++ String " "%char t)%string.
      rewrite (proj1 (after_space_plain scheme t Hs)).
      rewrite (proj2 (until_space_plain t "" Ht)). now rewrite Tt.
    + intros rest.
      change (scheme ++ " " ++ t ++ " " ++ rest)%string
        with (scheme ++ String " "%char (t ++ String " "%char rest))%string.
      rewrite (proj1 (after_space_plain scheme _ Hs)).
      rewrite (proj1 (until_space_plain t rest Ht)). now rewrite Tt.
  - intros h Hh. unfold bearer_token, split_space_1.
    now rewrite (proj2 (after_space_plain h "" Hh)).
  - intros scheme rest Hs. unfold bearer_token, split_space_1. split.
    + change (scheme ++ " " ++ " " ++ rest)%string
        with (scheme ++ String " "%char (String " "%char rest))%string.
      now rewrite (proj1 (after_space_plain scheme _ Hs)).
    + change (scheme ++ " ")%string
        with (scheme ++ String " "%char "")%string.
      now rewrite (proj1 (after_space_plain scheme _ Hs)).
  - reflexivity.
Qed.

(** ** The admin refund route *)

(** X19: Without a token that verifies, the refund route does nothing: it
    answers 401 AUTH_TOKEN_MISSING when the header yields no token and 403
    AUTH_TOKEN_INVALID when the token is rejected, and in both cases the
    orders and the log of gateway calls are as before. *)
Theorem refund_route_requires_token env jwt_verify req now w :
  (bearer_token (authorization req) = None ->
   post_refund env jwt_verify req now w
   = (reply 401 (PError "AUTH_TOKEN_MISSING"), w))
  /\ (forall token m,
        bearer_token (authorization req) = Some token ->
        jwt_verify token = Throw m ->
        post_refund env jwt_verify req now w
        = (reply 403 (PError "AUTH_TOKEN_INVALID"), w)).
Proof.
  split.
  - intros H. unfold post_refund, authenticate. now rewrite H.
  - intros token m H Hv. unfold post_refund, authenticate.
    now rewrite H, Hv.
Qed.

Lemma refund_route_requires_token_witness :
  post_refund (test_env true) test_verify
    {| authorization := None; rf_id := "ord_1"; rf_reason := "asked" |}
    5 shop_paid
  = (reply 401 (PError "AUTH_TOKEN_MISSING"), shop_paid)
  /\ post_refund (test_env true) test_verify
       {| authorization := Some "Bearer tok_forged"; rf_id := "ord_1";
          rf_reason := "asked" |} 5 shop_paid
     = (reply 403 (PError "AUTH_TOKEN_INVALID"), shop_paid).
Proof.
  split.
  - now apply (proj1 (refund_route_requires_token (test_env true) test_verify
                        {| authorization := None; rf_id := "ord_1";
                           rf_reason := "asked" |} 5 shop_paid)).
  - now apply (proj2 (refund_route_requires_token (test_env true) test_verify
                        {| authorization := Some "Bearer tok_forged";
                           rf_id := "ord_1"; rf_reason := "asked" |}
                        5 shop_paid)
                 "tok_forged" "invalid signature").
Defined.

(** X20: With a token that verifies, the refund route answers 200 exactly when
    the order exists, is paid and the gateway accepts the refund, and 400
    REFUND_FAILED in every other case -- also for an unknown order and for
    an order that is not paid; it never answers 404, 409 or 500. *)
Theorem refund_route_answers env jwt_verify req now w token admin :
  bearer_token (authorization req) = Some token ->
  jwt_verify token = Ok admin ->
  (reply_status (fst (post_refund env jwt_verify req now w)) = 200
   \/ exists m,
        fst (post_refund env jwt_verify req now w)
        = reply 400 (PErrorMessage "REFUND_FAILED" m))
  /\ (reply_status (fst (post_refund env jwt_verify req now w)) = 200
      <-> exists o refund,
            orders w !! rf_id req = Some o
            /\ status o = paid
            /\ refunds_create env (order_refundParams o) = Ok refund).
Proof.
  intros Hb Hv. unfold post_refund, authenticate. rewrite Hb, Hv.
  unfold run_reply, bind.
  destruct (orders w !! rf_id req) as [o|] eqn:Ho.
  - destruct (decide (status o = paid)) as [Hs|Hs].
    + rewrite (processRefund_paid env _ _ _ now w o Ho Hs).
      destruct (refunds_create env (order_refundParams o)) as [refund|m]
        eqn:Hg; cbn [success refund_failure negb message ret fst
                     reply_status reply].
      * split; [now left|]. split; [|reflexivity].
        intros _. now exists o, refund.
      * split; [right; eexists; reflexivity|]. split; [discriminate|].
        intros (o' & r' & Ho' & _ & Hg'). congruence.
    + rewrite (processRefund_not_paid env _ _ _ now w o Ho Hs).
      cbn [success refund_failure negb message ret fst reply_status reply].
      split; [right; eexists; reflexivity|]. split; [discriminate|].
      intros (o' & r' & Ho' & Hs' & _). congruence.
  - unfold AdminService_processRefund, try_catch, bind, order_findUnique.
    rewrite Ho.
    cbn [success refund_failure negb message ret fst reply_status reply].
    split; [right; eexists; reflexivity|]. split; [discriminate|].
    intros (o' & r' & Ho' & _). congruence.
Qed.

Lemma refund_route_answers_witness :
  (reply_status
     (fst (post_refund (test_env true) test_verify
             {| authorization := Some "Bearer tok_admin"; rf_id := "ord_9";
                rf_reason := "asked" |} 5 shop_paid)) = 200
   \/ exists m,
        fst (post_refund (test_env true) test_verify
               {| authorization := Some "Bearer tok_admin"; rf_id := "ord_9";
                  rf_reason := "asked" |} 5 shop_paid)
        = reply 400 (PErrorMessage "REFUND_FAILED" m)).
Proof.
  refine (proj1 (refund_route_answers (test_env true) test_verify
                   {| authorization := Some "Bearer tok_admin";
                      rf_id := "ord_9"; rf_reason := "asked" |} 5 shop_paid
                   "tok_admin"
                   {| adminId := "adm_1"; jwt_email := "admin@example.com" |}
                   _ _)); reflexivity.
Defined.

(** ** The template cache *)

(** X21: A template read through [getTemplateById] is served from the cache for
    the next fifteen minutes whatever happens to the template table: at
    every time before [now + CACHE_DURATION] the answer is the template as
    it was read, also when the row has since been changed or removed; from
    [now + CACHE_DURATION] on the table is read again. *)
Theorem cached_template_served_for_15_minutes id now tc w t :
  isCacheValid tc (template_key id) now = false ->
  templates w !! id = Some t ->
  fst (getTemplateById id now tc w) = Some t
  /\ (forall later w',
        later < now + CACHE_DURATION ->
        getTemplateById id later (snd (getTemplateById id now tc w)) w'
        = (Some t, snd (getTemplateById id now tc w)))
  /\ (forall later w',
        now + CACHE_DURATION <= later ->
        fst (getTemplateById id later (snd (getTemplateById id now tc w)) w')
        = templates w' !! id).
Proof.
  intros Hc Ht.
  assert (E : getTemplateById id now tc w
              = (Some t,
                 {| cache := <[template_key id := t]> (cache tc);
                    cacheExpiry :=
                      <[template_key id := now + CACHE_DURATION]>
                        (cacheExpiry tc) |})).
  { unfold getTemplateById. now rewrite Hc, Ht. }
  rewrite E. cbn [fst snd]. split; [reflexivity|]. split.
  - intros later w' Hl. unfold getTemplateById, isCacheValid.
    cbn [cache cacheExpiry]. rewrite !lookup_insert_eq.
    apply Z.ltb_lt in Hl. now rewrite Hl.
  - intros later w' Hl. unfold getTemplateById, isCacheValid.
    cbn [cache cacheExpiry]. rewrite !lookup_insert_eq.
    assert (E' : Z.ltb later (now + CACHE_DURATION) = false)
      by (apply Z.ltb_ge; lia).
    rewrite E'. now destruct (templates w' !! id).
Qed.

Lemma cached_template_served_for_15_minutes_witness :
  fst (getTemplateById "tpl_nda" 0 empty_cache shop) = Some nda
  /\ (forall later w',
        later < 0 + CACHE_DURATION ->
        getTemplateById "tpl_nda" later
          (snd (getTemplateById "tpl_nda" 0 empty_cache shop)) w'
        = (Some nda, snd (getTemplateById "tpl_nda" 0 empty_cache shop)))
  /\ (forall later w',
        0 + CACHE_DURATION <= later ->
        fst (getTemplateById "tpl_nda" later
               (snd (getTemplateById "tpl_nda" 0 empty_cache shop)) w')
        = templates w' !! "tpl_nda").
Proof.
  apply cached_template_served_for_15_minutes; reflexivity.
Defined.

(** A template that is not found is not cached: the cache is left as it
    was, so the next call reads the table again and finds a template added
    in between. *)
Lemma missing_template_not_cached id now tc w :
  isCacheValid tc (template_key id) now = false ->
  templates w !! id = None ->
  getTemplateById id now tc w = (None, tc)
  /\ forall later w',
       isCacheValid tc (template_key id) later = false ->
       fst (getTemplateById id later (snd (getTemplateById id now tc w)) w')
       = templates w' !! id.
Proof.
  intros Hc Ht.
  assert (E : getTemplateById id now tc w = (None, tc)).
  { unfold getTemplateById. now rewrite Hc, Ht. }
  rewrite E. split; [reflexivity|]. intros later w' Hl. cbn [snd].
  unfold getTemplateById. rewrite Hl. now destruct (templates w' !! id).
Qed.

Lemma missing_template_not_cached_witness :
  getTemplateById "tpl_lease" 0 empty_cache shop = (None, empty_cache)
  /\ forall later w',
       isCacheValid empty_cache (template_key "tpl_lease") later = false ->
       fst (getTemplateById "tpl_lease" later
              (snd (getTemplateById "tpl_lease" 0 empty_cache shop)) w')
       = templates w' !! "tpl_lease".
Proof.
  apply missing_template_not_cached; reflexivity.
Defined.

(** ** The checkout route *)

Lemma createPendingOrder_created data newId now w t :
  templates w !! cpo_templateId data = Some t ->
  orders w !! newId = None ->
  exists o,
    createPendingOrder data newId now w
    = (Ok o, with_orders (<[newId := o]> (orders w)) w)
    /\ order_id o = newId /\ status o = pending /\ amount o = price t
    /\ customerEmail o = cpo_customerEmail data.
Proof.
  intros Ht Hn.
  unfold createPendingOrder, try_catch, bind, template_findUnique, order_create.
  rewrite Ht, Hn. eexists. split; [reflexivity|]. repeat split.
Qed.

(** X22: A checkout that fails after the order is created leaves the order
    behind: when the template exists and the id is free but Stripe does not
    create the session, the route answers 500 and the new pending order
    stays in the table. *)
Theorem failed_checkout_leaves_pending_order env sessions_create data newId
    now tc w t :
  truthy_string (cpo_templateId data) = true ->
  isEmail env (cpo_customerEmail data) = true ->
  templates w !! cpo_templateId data = Some t ->
  orders w !! newId = None ->
  (forall p, exists m, sessions_create p = Throw m) ->
  fst (post_create_checkout_session env sessions_create data newId now tc w)
  = reply 500 (PError "INTERNAL_ERROR")
  /\ exists o,
       orders (snd (snd (post_create_checkout_session env sessions_create
                           data newId now tc w))) !! newId = Some o
       /\ status o = pending
       /\ customerEmail o = cpo_customerEmail data.
Proof.
  intros Tt Te Ht Hn Hs. unfold post_create_checkout_session.
  rewrite Tt, Te. cbn [andb negb].
  destruct (createPendingOrder_created data newId now w t Ht Hn)
    as (o & E & Hid & Hp & _ & Hc).
  rewrite E, Hid. unfold createCheckoutSession.
  destruct (getTemplateById (cpo_templateId data) now tc _) as [[t'|] tc'].
  - destruct (Hs (checkoutParams t' data newId now)) as [m ->].
    cbn [fst snd orders with_orders]. split; [reflexivity|].
    exists o. rewrite lookup_insert_eq. now repeat split.
  - cbn [fst snd orders with_orders]. split; [reflexivity|].
    exists o. rewrite lookup_insert_eq. now repeat split.
Qed.

Lemma failed_checkout_leaves_pending_order_witness :
  fst (post_create_checkout_session (test_env true)
         (fun _ => Throw "Stripe is unreachable") alice_data "ord_1" 0
         empty_cache shop)
  = reply 500 (PError "INTERNAL_ERROR")
  /\ exists o,
       orders (snd (snd (post_create_checkout_session (test_env true)
                           (fun _ => Throw "Stripe is unreachable")
                           alice_data "ord_1" 0 empty_cache shop)))
         !! "ord_1" = Some o
       /\ status o = pending
       /\ customerEmail o = cpo_customerEmail alice_data.
Proof.
  refine (failed_checkout_leaves_pending_order (test_env true)
            (fun _ => Throw "Stripe is unreachable") alice_data "ord_1" 0
            empty_cache shop nda _ _ _ _ _).
  - reflexivity.
  - reflexivity.
  - reflexivity.
  - reflexivity.
  - intros p. now exists "Stripe is unreachable".
Defined.

(** X23: The order records the price of the template table, the Stripe session
    charges the price of the cache.  On a successful checkout the new
    order's amount is the price in the table; the unit amount sent to
    Stripe is the rounded price (in cents) of the template
    [getTemplateById] answers -- the table's when the cache holds no valid
    entry, the cached one otherwise, so the two differ while a changed
    price is still cached. *)
Theorem checkout_charges_cached_price env sessions_create data newId now tc w
    t r tc' w' :
  truthy_string (cpo_templateId data) = true ->
  isEmail env (cpo_customerEmail data) = true ->
  templates w !! cpo_templateId data = Some t ->
  orders w !! newId = None ->
  post_create_checkout_session env sessions_create data newId now tc w
  = (r, (tc', w')) ->
  reply_status r = 200 ->
  exists o t' session,
    orders w' !! newId = Some o
    /\ amount o = price t
    /\ r = reply 200 (PCheckout session newId)
    /\ sessions_create (checkoutParams t' data newId now) = Ok session
    /\ cp_unit_amount (checkoutParams t' data newId now)
       = Math_round (price t' * 100)
    /\ (if isCacheValid tc (template_key (cpo_templateId data)) now
        then cache tc !! template_key (cpo_templateId data) = Some t'
        else t' = t).
Proof.
  intros Tt Te Ht Hn H Hr. revert H. unfold post_create_checkout_session.
  rewrite Tt, Te. cbn [andb negb].
  destruct (createPendingOrder_created data newId now w t Ht Hn)
    as (o & E & Hid & Hp & Ha & Hc).
  rewrite E, Hid. unfold createCheckoutSession, getTemplateById.
  cbn [templates with_orders]. rewrite Ht.
  destruct (isCacheValid tc (template_key (cpo_templateId data)) now) eqn:V.
  - destruct (cache tc !! template_key (cpo_templateId data)) as [t'|] eqn:C.
    + destruct (sessions_create (checkoutParams t' data newId now))
        as [session|m] eqn:S; intros [= <- <- <-]; [|discriminate].
      exists o, t', session. cbn [orders with_orders].
      rewrite lookup_insert_eq. now repeat split.
    + intros [= <- <- <-]. discriminate.
  - destruct (sessions_create (checkoutParams t data newId now))
      as [session|m] eqn:S; intros [= <- <- <-]; [|discriminate].
    exists o, t, session. cbn [orders with_orders].
    rewrite lookup_insert_eq. now repeat split.
Qed.

Lemma checkout_charges_cached_price_witness :
  exists o t',
    orders shop_repriced_pending !! "ord_1" = Some o
    /\ amount o = (1999 # 100)%Q
    /\ t' = nda
    /\ cp_unit_amount (checkoutParams t' alice_data "ord_1" 60000) = 999.
Proof.
  destruct (checkout_charges_cached_price (test_env true)
              (fun _ => Ok "cs_test_1") alice_data "ord_1" 60000
              (snd (getTemplateById "tpl_nda" 0 empty_cache shop))
              shop_repriced repriced_nda
              (reply 200 (PCheckout "cs_test_1" "ord_1"))
              (snd (getTemplateById "tpl_nda" 0 empty_cache shop))
              shop_repriced_pending
              eq_refl eq_refl eq_refl eq_refl eq_refl eq_refl)
    as (o & t' & session & Ho & Ha & _ & _ & Hu & Hc).
  vm_compute in Hc. injection Hc as Hc.
  exists o, t'. split; [exact Ho|]. split; [exact Ha|].
  split; [now rewrite <- Hc|]. rewrite Hu, <- Hc. reflexivity.
Defined.

(** X24: From checkout to webhook: the metadata that [createCheckoutSession]
    attaches to the session is what the payment-confirmation handler reads.
    A session carrying it names the created order and passes the handler's
    metadata check (order id, template id, email and form data not empty);
    and for a template priced at a whole number of cents [c / 100],
    [c <> 0], the amount the handler derives from [amount_total = unit
    amount] is the template's price again. *)
Theorem checkout_metadata_reaches_webhook template data orderId now pi :
  truthy_string orderId = true ->
  truthy_string (cpo_templateId data) = true ->
  truthy_string (cpo_customerEmail data) = true ->
  truthy_string (cpo_formData data) = true ->
  let session := session_of (checkoutParams template data orderId now) pi in
  truthy_field session "orderId" = Some orderId
  /\ truthy_field session "templateId" = Some (cpo_templateId data)
  /\ truthy_field session "customerEmail" = Some (cpo_customerEmail data)
  /\ truthy_field session "formData" = Some (cpo_formData data)
  /\ forall c, c <> 0 -> (price template == inject_Z c / 100)%Q ->
       amount_total session = Some c
       /\ (session_amount session == price template)%Q.
Proof.
  intros To Tt Te Tf session.
  unfold truthy_field, metadata_get, session, session_of, checkoutParams.
  cbn [metadata cp_metadata amount_total cp_unit_amount].
  repeat split.
  - rewrite lookup_insert_eq. now rewrite To.
  - rewrite lookup_insert_ne by discriminate.
    rewrite lookup_insert_eq. now rewrite Tt.
  - rewrite !lookup_insert_ne by discriminate.
    rewrite lookup_insert_eq. now rewrite Te.
  - rewrite !lookup_insert_ne by discriminate.
    rewrite lookup_singleton_eq. now rewrite Tf.
  - f_equal. unfold Math_round.
    assert (E : (price template * 100 + (1 # 2)
                 == inject_Z c / 100 * 100 + (1 # 2))%Q) by now rewrite H0.
    rewrite (Qfloor_comp _ _ E). apply Math_round_cents.
  - unfold session_amount. cbn [amount_total].
    assert (R : Math_round (price template * 100) = c).
    { unfold Math_round.
      assert (E : (price template * 100 + (1 # 2)
                   == inject_Z c / 100 * 100 + (1 # 2))%Q) by now rewrite H0.
      rewrite (Qfloor_comp _ _ E). apply Math_round_cents. }
    rewrite R. destruct (Z.eqb_spec c 0); [contradiction|].
    now rewrite H0.
Qed.

Lemma checkout_metadata_reaches_webhook_witness :
  truthy_field (session_of (checkoutParams nda alice_data "ord_1" 0) "pi_1")
    "orderId" = Some "ord_1"
  /\ truthy_field (session_of (checkoutParams nda alice_data "ord_1" 0) "pi_1")
       "templateId" = Some (cpo_templateId alice_data)
  /\ truthy_field (session_of (checkoutParams nda alice_data "ord_1" 0) "pi_1")
       "customerEmail" = Some (cpo_customerEmail alice_data)
  /\ truthy_field (session_of (checkoutParams nda alice_data "ord_1" 0) "pi_1")
       "formData" = Some (cpo_formData alice_data)
  /\ forall c, c <> 0 -> (price nda == inject_Z c / 100)%Q ->
       amount_total (session_of (checkoutParams nda alice_data "ord_1" 0)
                       "pi_1") = Some c
       /\ (session_amount (session_of (checkoutParams nda alice_data "ord_1" 0)
                             "pi_1") == price nda)%Q.
Proof.
  apply (checkout_metadata_reaches_webhook nda alice_data "ord_1" 0 "pi_1");
    reflexivity.
Defined.

(** ** Revenue analytics *)

Lemma filter_perm {A} (f : A -> bool) (l l' : list A) :
  Permutation l l' -> Permutation (List.filter f l) (List.filter f l').
Proof.
  intros P. induction P; cbn [List.filter].
  - constructor.
  - destruct (f x); [now constructor | assumption].
  - destruct (f x), (f y); try reflexivity. constructor.
  - etransitivity; eassumption.
Qed.

Lemma orders_since_insert start w w' id o o' :
  orders w !! id = Some o ->
  orders w' = <[id := o']> (orders w) ->
  exists rest,
    Permutation (orders_since start w)
      (List.filter (fun x => Z.leb start (createdAt x)) (o :: rest))
    /\ Permutation (orders_since start w')
         (List.filter (fun x => Z.leb start (createdAt x)) (o' :: rest)).
Proof.
  intros Ho E.
  exists (List.map snd (map_to_list (delete id (orders w)))).
  unfold orders_since. split; apply filter_perm.
  - change (o :: List.map snd (map_to_list (delete id (orders w))))
      with (List.map snd ((id, o) :: map_to_list (delete id (orders w)))).
    apply Permutation_map. symmetry. now apply map_to_list_delete.
  - change (o' :: List.map snd (map_to_list (delete id (orders w))))
      with (List.map snd ((id, o') :: map_to_list (delete id (orders w)))).
    apply Permutation_map. rewrite E, <- insert_delete_eq.
    apply map_to_list_insert, lookup_delete_eq.
Qed.

Lemma getAnalytics_returns period now w a :
  getAnalytics period now w = Ok a ->
  let os := orders_since (now - analytics_days period * 86400000) w in
  totalOrders a = length (paid_orders os)
  /\ totalRevenue a = sum_amounts (paid_orders os)
  /\ averageOrderValue a
     = (if (0 <? length (paid_orders os))%nat
        then js_div (sum_amounts (paid_orders os))
               (inject_Z (Z.of_nat (length (paid_orders os))))
        else 0%Q)
  /\ ordersByStatus a = fold_left count_status os ∅
  /\ topTemplates a
     = take 10
         (stable_sort (fun a b => Qle_bool (tr_revenue b) (tr_revenue a))
            (object_values
               (fold_left
                  (fun acc order =>
                     count_template (templates w !! templateId order) order
                       acc)
                  (paid_orders os) [])))
  /\ recentOrders a
     = take 10
         (stable_sort (fun a b => Z.leb (createdAt b) (createdAt a)) os).
Proof.
  unfold getAnalytics.
  destruct (Z.ltb MAX_TIME _); [discriminate|].
  intros H. injection H as <-. now repeat split.
Qed.

Lemma getAnalytics_valid period now w :
  Z.abs (now - analytics_days period * 86400000) <= MAX_TIME ->
  exists a, getAnalytics period now w = Ok a.
Proof.
  intros H. unfold getAnalytics.
  rewrite (proj2 (Z.ltb_ge _ _) H). now eexists.
Qed.

Lemma status_name_inj st st' : status_name st = status_name st' -> st = st'.
Proof. destruct st, st'; cbn; congruence. Qed.

Lemma count_status_fold (os : list Order) : forall acc st,
  default 0%nat (fold_left count_status os acc !! status_name st)
  = (default 0 (acc !! status_name st)
     + length (List.filter (fun o => bool_decide (status o = st)) os))%nat.
Proof.
  induction os as [|o os IH]; intros acc st; cbn [fold_left List.filter].
  - cbn. lia.
  - rewrite IH. unfold count_status.
    destruct (decide (status o = st)) as [E|E].
    + rewrite (bool_decide_eq_true_2 _ E), E, lookup_insert_eq. cbn. lia.
    + rewrite (bool_decide_eq_false_2 _ E).
      rewrite lookup_insert_ne; [reflexivity|].
      intros H. now apply status_name_inj in H.
Qed.

Lemma count_status_some (os : list Order) : forall acc key n,
  fold_left count_status os acc !! key = Some n ->
  acc !! key = None ->
  (0 < n)%nat.
Proof.
  induction os as [|o os IH]; intros acc key n H Hn; cbn [fold_left] in H.
  - congruence.
  - destruct (decide (status_name (status o) = key)) as [E|E].
    + subst key.
      pose proof (count_status_fold os (count_status acc o) (status o)) as F.
      rewrite H in F. unfold count_status in F at 1.
      rewrite lookup_insert_eq in F. cbn in F. lia.
    + apply (IH _ _ _ H). unfold count_status.
      now rewrite lookup_insert_ne.
Qed.

Lemma count_status_key (os : list Order) : forall acc key n,
  fold_left count_status os acc !! key = Some n ->
  acc !! key = None ->
  exists st, key = status_name st.
Proof.
  induction os as [|o os IH]; intros acc key n H Hn; cbn [fold_left] in H.
  - congruence.
  - destruct (decide (status_name (status o) = key)) as [E|E].
    + now exists (status o).
    + apply (IH _ _ _ H). unfold count_status.
      now rewrite lookup_insert_ne.
Qed.

Lemma filter_status_partition (os : list Order) :
  (length (List.filter (fun o => bool_decide (status o = pending)) os)
   + length (List.filter (fun o => bool_decide (status o = paid)) os)
   + length (List.filter (fun o => bool_decide (status o = failed)) os)
   + length (List.filter (fun o => bool_decide (status o = refunded)) os))%nat
  = length os.
Proof.
  induction os as [|o os IH]; [reflexivity|].
  cbn [List.filter length].
  destruct (status o); repeat case_bool_decide; try discriminate;
    try congruence; cbn [length]; lia.
Qed.

(** X25: A refund takes the order out of the revenue.  When a paid order
    created within the period is refunded, the analytics of the same
    period afterwards count one paid order less and one refunded order
    more, and the orders whose amounts are added up to the total revenue
    are the paid orders of before without the refunded one. *)
Theorem refunded_order_leaves_revenue env orderId reason adminId now period
    at_ w o refund a :
  orders w !! orderId = Some o ->
  status o = paid ->
  refunds_create env (order_refundParams o) = Ok refund ->
  at_ - analytics_days period * 86400000 <= createdAt o ->
  getAnalytics period at_ w = Ok a ->
  let w' := snd (AdminService_processRefund env orderId reason adminId now w) in
  let start := at_ - analytics_days period * 86400000 in
  exists a',
    getAnalytics period at_ w' = Ok a'
    /\ totalOrders a = S (totalOrders a')
    /\ default 0%nat (ordersByStatus a !! "paid")
       = S (default 0%nat (ordersByStatus a' !! "paid"))
    /\ default 0%nat (ordersByStatus a' !! "refunded")
       = S (default 0%nat (ordersByStatus a !! "refunded"))
    /\ totalRevenue a = sum_amounts (paid_orders (orders_since start w))
    /\ totalRevenue a' = sum_amounts (paid_orders (orders_since start w'))
    /\ Permutation (o :: paid_orders (orders_since start w'))
         (paid_orders (orders_since start w)).
Proof.
  intros Ho Hs Hg Hin Ha w' start.
  assert (E : orders w'
              = <[orderId := set_updatedAt now (set_status refunded o)]>
                  (orders w)).
  { unfold w'. rewrite (processRefund_paid env _ _ _ now w o Ho Hs), Hg.
    reflexivity. }
  destruct (getAnalytics_valid period at_ w') as [a' Ha'].
  { unfold getAnalytics in Ha.
    destruct (Z.ltb MAX_TIME _) eqn:V; [discriminate|].
    now apply Z.ltb_ge in V. }
  exists a'. split; [exact Ha'|].
  destruct (getAnalytics_returns period at_ w a Ha) as (Hn & Hr & _ & Hc & _).
  destruct (getAnalytics_returns period at_ w' a' Ha')
    as (Hn' & Hr' & _ & Hc' & _).
  fold start in Hn, Hr, Hc, Hn', Hr', Hc'.
  destruct (orders_since_insert start w w' orderId o _ Ho E)
    as (rest & P1 & P2).
  revert P1 P2. cbn [List.filter createdAt set_updatedAt set_status].
  apply Z.leb_le in Hin. fold start in Hin. rewrite Hin.
  intros P1 P2.
  assert (F : forall st,
            length (List.filter (fun x => bool_decide (status x = st))
                      (orders_since start w))
            = ((if bool_decide (status o = st) then 1 else 0)
               + length (List.filter (fun x => bool_decide (status x = st))
                           (List.filter
                              (fun x => Z.leb start (createdAt x)) rest)))%nat
            /\ length (List.filter (fun x => bool_decide (status x = st))
                         (orders_since start w'))
               = ((if bool_decide (refunded = st) then 1 else 0)
                  + length (List.filter
                              (fun x => bool_decide (status x = st))
                              (List.filter
                                 (fun x => Z.leb start (createdAt x)) rest)))%nat).
  { intros st. split.
    - rewrite (Permutation_length (filter_perm _ _ _ P1)).
      cbn [List.filter]. now destruct (bool_decide (status o = st)).
    - rewrite (Permutation_length (filter_perm _ _ _ P2)).
      cbn [List.filter status set_updatedAt set_status].
      now destruct (bool_decide (refunded = st)). }
  split; [|split; [|split; [|split; [|split]]]].
  - rewrite Hn, Hn'. unfold paid_orders.
    destruct (F paid) as [F1 F2]. rewrite F1, F2, Hs.
    rewrite bool_decide_eq_true_2 by reflexivity.
    rewrite bool_decide_eq_false_2 by discriminate. reflexivity.
  - rewrite Hc, Hc'. change "paid" with (status_name paid).
    rewrite !count_status_fold, lookup_empty. cbn [default].
    destruct (F paid) as [F1 F2]. rewrite F1, F2, Hs.
    rewrite bool_decide_eq_true_2 by reflexivity.
    rewrite bool_decide_eq_false_2 by discriminate. reflexivity.
  - rewrite Hc, Hc'. change "refunded" with (status_name refunded).
    rewrite !count_status_fold, lookup_empty. cbn [default].
    destruct (F refunded) as [F1 F2]. rewrite F1, F2, Hs.
    rewrite bool_decide_eq_true_2 by reflexivity.
    rewrite bool_decide_eq_false_2 by discriminate. reflexivity.
  - exact Hr.
  - exact Hr'.
  - unfold paid_orders.
    rewrite (filter_perm (fun x => bool_decide (status x = paid)) _ _ P1).
    rewrite (filter_perm (fun x => bool_decide (status x = paid)) _ _ P2).
    cbn [List.filter status set_updatedAt set_status]. rewrite Hs.
    rewrite (bool_decide_eq_false_2 (refunded = paid)) by discriminate.
    rewrite (bool_decide_eq_true_2 (paid = paid)) by reflexivity.
    reflexivity.
Qed.

Lemma refunded_order_leaves_revenue_witness :
  exists a a',
    getAnalytics "30d" 1000 shop_paid = Ok a
    /\ getAnalytics "30d" 1000 shop_refunded = Ok a'
    /\ totalOrders a = S (totalOrders a')
    /\ default 0%nat (ordersByStatus a' !! "refunded")
       = S (default 0%nat (ordersByStatus a !! "refunded")).
Proof.
  destruct (getAnalytics_valid "30d" 1000 shop_paid) as [a Ha];
    [vm_compute; discriminate|].
  destruct (refunded_order_leaves_revenue (test_env true) "ord_1" "asked"
              "adm_1" 5 "30d" 1000 shop_paid alice_paid_order
              {| refund_id := "re_1"; refund_amount := 999 |} a)
    as (a' & Ha' & N & _ & R & _).
  - vm_compute. reflexivity.
  - reflexivity.
  - reflexivity.
  - vm_compute. discriminate.
  - exact Ha.
  - exists a, a'. split; [exact Ha|]. split; [exact Ha'|].
    split; [exact N | exact R].
Defined.

(** X26: The counts of the analytics agree with each other.  The number of
    orders under each status is the number of orders of the period with
    that status; a status without orders has no entry rather than a zero,
    and there is no entry under any other key; [totalOrders] is the count
    under "paid"; the four counts add up to the number of orders of the
    period; and without a paid order the revenue and the average are zero
    -- there is no division by zero. *)
Theorem analytics_figures_agree period now w a :
  getAnalytics period now w = Ok a ->
  let os := orders_since (now - analytics_days period * 86400000) w in
  (forall st,
     default 0%nat (ordersByStatus a !! status_name st)
     = length (List.filter (fun o => bool_decide (status o = st)) os))
  /\ (forall key n,
        ordersByStatus a !! key = Some n ->
        (0 < n)%nat /\ exists st, key = status_name st)
  /\ default 0%nat (ordersByStatus a !! "paid") = totalOrders a
  /\ (default 0%nat (ordersByStatus a !! "pending")
      + default 0 (ordersByStatus a !! "paid")
      + default 0 (ordersByStatus a !! "failed")
      + default 0 (ordersByStatus a !! "refunded"))%nat
     = length os
  /\ (totalOrders a = 0%nat ->
      totalRevenue a = 0%Q /\ averageOrderValue a = 0%Q).
Proof.
  intros H os.
  destruct (getAnalytics_returns period now w a H)
    as (Hn & Hr & Ha & Hs & _).
  fold os in Hn, Hr, Ha, Hs. rewrite Hn, Hr, Ha, Hs.
  split; [|split; [|split; [|split]]].
  - intros st. rewrite count_status_fold, lookup_empty. reflexivity.
  - intros key n K. split.
    + apply (count_status_some os ∅ key n K). apply lookup_empty.
    + apply (count_status_key os ∅ key n K). apply lookup_empty.
  - change "paid" with (status_name paid).
    rewrite count_status_fold, lookup_empty. reflexivity.
  - change "pending" with (status_name pending).
    change "paid" with (status_name paid).
    change "failed" with (status_name failed).
    change "refunded" with (status_name refunded).
    rewrite !count_status_fold, lookup_empty. cbn [default].
    apply filter_status_partition.
  - intros L. destruct (paid_orders os); [|discriminate]. now split.
Qed.

Lemma analytics_figures_agree_witness :
  exists a,
    getAnalytics "30d" 1000 shop_paid = Ok a
    /\ default 0%nat (ordersByStatus a !! "paid") = totalOrders a
    /\ totalOrders a = 1%nat.
Proof.
  destruct (getAnalytics_valid "30d" 1000 shop_paid) as [a Ha];
    [vm_compute; discriminate|].
  exists a. split; [exact Ha|].
  destruct (analytics_figures_agree "30d" 1000 shop_paid a Ha)
    as (_ & _ & P & _).
  split; [exact P|].
  vm_compute in Ha. injection Ha as <-. reflexivity.
Defined.

(** *** Sorting *)

Section stable_sort.
Context {A : Type} (before : A -> A -> bool).
Hypothesis before_total : forall x y, before x y = false -> before y x = true.
Hypothesis before_trans :
  forall x y z, before x y = true -> before y z = true -> before x z = true.

Lemma insert_sorted_perm x l : Permutation (insert_sorted before x l) (x :: l).
Proof.
  induction l as [|y l IH]; cbn [insert_sorted]; [reflexivity|].
  destruct (before y x); [|reflexivity].
  rewrite IH. constructor.
Qed.

Lemma stable_sort_from_perm l : forall acc,
  Permutation (fold_left (fun sorted x => insert_sorted before x sorted) l acc)
    (acc ++ l).
Proof.
  induction l as [|x l IH]; intros acc; cbn [fold_left].
  - now rewrite app_nil_r.
  - rewrite IH, insert_sorted_perm. apply Permutation_middle.
Qed.

Lemma stable_sort_perm l : Permutation (stable_sort before l) l.
Proof. unfold stable_sort. now rewrite stable_sort_from_perm. Qed.

Lemma insert_sorted_sorted x l :
  StronglySorted (fun a b => before a b = true) l ->
  StronglySorted (fun a b => before a b = true) (insert_sorted before x l).
Proof.
  induction 1 as [|y l Hs IH Hy]; cbn [insert_sorted].
  - repeat constructor.
  - destruct (before y x) eqn:E.
    + constructor; [exact IH|].
      apply List.Forall_forall. intros z Hz.
      apply (Permutation_in _ (insert_sorted_perm x l)) in Hz.
      destruct Hz as [<-|Hz]; [exact E|].
      now apply (proj1 (List.Forall_forall _ _) Hy).
    + apply before_total in E.
      constructor; [now constructor|].
      constructor; [exact E|].
      apply List.Forall_forall. intros z Hz.
      apply (before_trans x y z E).
      now apply (proj1 (List.Forall_forall _ _) Hy).
Qed.

Lemma stable_sort_from_sorted l : forall acc,
  StronglySorted (fun a b => before a b = true) acc ->
  StronglySorted (fun a b => before a b = true)
    (fold_left (fun sorted x => insert_sorted before x sorted) l acc).
Proof.
  induction l as [|x l IH]; intros acc H; cbn [fold_left]; [exact H|].
  now apply IH, insert_sorted_sorted.
Qed.

Lemma stable_sort_sorted l :
  StronglySorted (fun a b => before a b = true) (stable_sort before l).
Proof. apply stable_sort_from_sorted. constructor. Qed.

(** The first [n] of the sorted list, and what they leave out. *)
Lemma take_sorted_split n l :
  exists rest,
    Permutation (take n (stable_sort before l) ++ rest) l
    /\ StronglySorted (fun a b => before a b = true)
         (take n (stable_sort before l))
    /\ (forall x y, In x (take n (stable_sort before l)) -> In y rest ->
                    before x y = true)
    /\ length (take n (stable_sort before l)) = Nat.min n (length l).
Proof.
  exists (drop n (stable_sort before l)).
  pose proof (stable_sort_sorted l) as S.
  rewrite <- (take_drop n (stable_sort before l)) in S.
  split; [now rewrite take_drop, stable_sort_perm|].
  split; [now apply StronglySorted_app_1_l in S|].
  split.
  - intros x y Hx Hy.
    apply (StronglySorted_app_1_elem_of _ _ _ x y S);
      now apply list_elem_of_In.
  - rewrite length_take, (Permutation_length (stable_sort_perm l)).
    reflexivity.
Qed.
End stable_sort.

Lemma StronglySorted_weaken {A} (R R' : A -> A -> Prop) l :
  (forall x y, R x y -> R' x y) ->
  StronglySorted R l -> StronglySorted R' l.
Proof.
  intros HR. induction 1 as [|x l Hs IH Hx]; constructor; [exact IH|].
  eapply List.Forall_impl; [|exact Hx]. intros y. apply HR.
Qed.

(** X27: The recent orders of the analytics are the newest of the period: at
    most ten (all of them when the period has fewer), newest first, and no
    order of the period that is left out is newer than one that is
    listed. *)
Theorem recent_orders_are_the_newest period now w a :
  getAnalytics period now w = Ok a ->
  let os := orders_since (now - analytics_days period * 86400000) w in
  length (recentOrders a) = Nat.min 10 (length os)
  /\ StronglySorted (fun x y => createdAt y <= createdAt x) (recentOrders a)
  /\ exists rest,
       Permutation (recentOrders a ++ rest) os
       /\ forall o o', In o (recentOrders a) -> In o' rest ->
                       createdAt o' <= createdAt o.
Proof.
  intros H os.
  destruct (getAnalytics_returns period now w a H) as (_ & _ & _ & _ & _ & E).
  fold os in E. rewrite E.
  destruct (take_sorted_split
              (fun a b : Order => Z.leb (createdAt b) (createdAt a))) with
    (n := 10%nat) (l := os) as (rest & P & S & R & L).
  - intros x y Hxy. apply Z.leb_gt in Hxy. apply Z.leb_le. lia.
  - intros x y z H1 H2. apply Z.leb_le in H1, H2. apply Z.leb_le. lia.
  - split; [exact L|]. split.
    + eapply StronglySorted_weaken; [|exact S].
      intros x y Hxy. now apply Z.leb_le in Hxy.
    + exists rest. split; [exact P|].
      intros o o' Ho Ho'. apply Z.leb_le. now apply R.
Qed.

Lemma recent_orders_are_the_newest_witness :
  exists a,
    getAnalytics "30d" 1000 shop_paid = Ok a
    /\ length (recentOrders a)
       = Nat.min 10
           (length (orders_since (1000 - analytics_days "30d" * 86400000)
                      shop_paid)).
Proof.
  destruct (getAnalytics_valid "30d" 1000 shop_paid) as [a Ha];
    [vm_compute; discriminate|].
  exists a. split; [exact Ha|].
  exact (proj1 (recent_orders_are_the_newest "30d" 1000 shop_paid a Ha)).
Defined.

(** *** Templates by revenue *)

Lemma orders_of_template_snoc id os o :
  orders_of_template id (os ++ [o])
  = (orders_of_template id os
     ++ (if String.eqb (templateId o) id then [o] else []))%list.
Proof.
  unfold orders_of_template. rewrite List.filter_app. cbn [List.filter].
  reflexivity.
Qed.

Lemma sum_amounts_snoc os o :
  sum_amounts (os ++ [o]) = js_add (sum_amounts os) (amount o).
Proof. unfold sum_amounts. now rewrite fold_left_app. Qed.

Lemma count_entry_miss tpl o gs :
  (forall g, In g gs -> tr_templateId g <> templateId o) ->
  count_entry tpl o gs
  = (gs ++ [ {| tr_templateId := templateId o; tr_template := tpl;
                tr_count := 0 + 1;
                tr_revenue := js_add 0 (amount o) |} ])%list.
Proof.
  induction gs as [|g gs IH]; intros H; cbn [count_entry app].
  - reflexivity.
  - destruct (String.eqb_spec (tr_templateId g) (templateId o)) as [E|E].
    + exfalso. apply (H g); [now left | exact E].
    + rewrite IH; [reflexivity|]. intros g' Hg'. apply H. now right.
Qed.

Lemma count_entry_hit tpl o gs :
  In (templateId o) (List.map tr_templateId gs) ->
  exists l1 g l2,
    gs = (l1 ++ g :: l2)%list
    /\ tr_templateId g = templateId o
    /\ count_entry tpl o gs
       = (l1 ++ {| tr_templateId := tr_templateId g;
                   tr_template := tr_template g;
                   tr_count := tr_count g + 1;
                   tr_revenue := js_add (tr_revenue g) (amount o) |}
             :: l2)%list.
Proof.
  induction gs as [|g gs IH]; intros H; [destruct H|].
  cbn [count_entry].
  destruct (String.eqb_spec (tr_templateId g) (templateId o)) as [E|E].
  - exists [], g, gs. now repeat split.
  - destruct H as [H|H]; [contradiction|].
    destruct (IH H) as (l1 & g' & l2 & -> & Hg' & ->).
    exists (g :: l1), g', l2. now repeat split.
Qed.

Lemma counts_templates_step w done o gs :
  counts_templates w done gs ->
  counts_templates w (done ++ [o])
    (count_template (templates w !! templateId o) o gs).
Proof.
  intros (Hnd & Hin & Hg). unfold count_template.
  destruct (object_prototype_key (templateId o)) eqn:Hp.
  - (* an inherited name: no entry, and no entry is concerned *)
    split; [exact Hnd|]. split.
    + intros id. rewrite Hin. split.
      * intros (Hk & o' & Ho' & E). split; [exact Hk|].
        exists o'. split; [|exact E]. apply in_or_app. now left.
      * intros (Hk & o' & Ho' & E). split; [exact Hk|].
        apply in_app_or in Ho'. destruct Ho' as [Ho'|[<-|[]]].
        -- now exists o'.
        -- congruence.
    + intros g Hgin. rewrite orders_of_template_snoc.
      destruct (String.eqb_spec (templateId o) (tr_templateId g)) as [E|E].
      * exfalso.
        assert (K : object_prototype_key (tr_templateId g) = false).
        { apply Hin. apply in_map_iff. now exists g. }
        congruence.
      * rewrite app_nil_r. now apply Hg.
  - destruct (in_dec string_dec (templateId o) (List.map tr_templateId gs))
      as [Hi|Hi].
    + (* the template has an entry *)
      destruct (count_entry_hit (templates w !! templateId o) o gs Hi)
        as (l1 & g & l2 & -> & Eg & ->).
      assert (M : List.map tr_templateId
                    (l1 ++ {| tr_templateId := tr_templateId g;
                              tr_template := tr_template g;
                              tr_count := tr_count g + 1;
                              tr_revenue :=
                                js_add (tr_revenue g) (amount o) |} :: l2)
                  = List.map tr_templateId (l1 ++ g :: l2)).
      { now rewrite !List.map_app. }
      split; [now rewrite M|]. split.
      * intros id. rewrite M, Hin. split.
        -- intros (Hk & o' & Ho' & E). split; [exact Hk|].
           exists o'. split; [|exact E]. apply in_or_app. now left.
        -- intros (Hk & o' & Ho' & E). split; [exact Hk|].
           apply in_app_or in Ho'. destruct Ho' as [Ho'|[<-|[]]].
           ++ now exists o'.
           ++ apply Hin in Hi. destruct Hi as (_ & o2 & Ho2 & E2).
              exists o2. split; [exact Ho2 | congruence].
      * intros g' Hg'. rewrite orders_of_template_snoc.
        assert (Hother : forall x, In x l1 \/ In x l2 ->
                  tr_templateId x <> templateId o).
        { intros x Hx E. rewrite List.map_app in Hnd. cbn [List.map] in Hnd.
          apply NoDup_remove_2 in Hnd. apply Hnd.
          rewrite Eg, <- E. apply in_or_app.
          destruct Hx as [Hx|Hx]; [left|right];
            apply in_map_iff; now exists x. }
        apply in_app_or in Hg'. destruct Hg' as [Hg'|[<-|Hg']].
        -- destruct (String.eqb_spec (templateId o) (tr_templateId g'))
             as [E|E].
           ++ exfalso. apply (Hother g'); [now left | congruence].
           ++ rewrite app_nil_r. apply Hg. apply in_or_app. now left.
        -- cbn [tr_templateId tr_count tr_revenue tr_template].
           rewrite Eg, String.eqb_refl.
           destruct (Hg g) as (C & R & T);
             [apply in_or_app; right; now left|].
           rewrite Eg in C, R. rewrite length_app, sum_amounts_snoc.
           cbn [length]. rewrite C, R.
           split; [lia|]. split; [reflexivity|]. now rewrite T, Eg.
        -- destruct (String.eqb_spec (templateId o) (tr_templateId g'))
             as [E|E].
           ++ exfalso. apply (Hother g'); [now right | congruence].
           ++ rewrite app_nil_r. apply Hg. apply in_or_app. right. now right.
    + (* the first order of its template *)
      rewrite count_entry_miss.
      2:{ intros g Hgin E. apply Hi. apply in_map_iff. now exists g. }
      assert (Hnone : orders_of_template (templateId o) done = []).
      { unfold orders_of_template.
        destruct (List.filter _ done) as [|o' l] eqn:F; [reflexivity|].
        exfalso. apply Hi. apply Hin. split; [exact Hp|].
        assert (Ho' : In o' (List.filter
                               (fun order =>
                                  String.eqb (templateId order) (templateId o))
                               done))
          by (rewrite F; now left).
        apply filter_In in Ho'. destruct Ho' as [Ho' E].
        apply String.eqb_eq in E. now exists o'. }
      split; [|split].
      * rewrite List.map_app. cbn [List.map tr_templateId].
        apply List.NoDup_app; [exact Hnd | repeat constructor; intros []|].
        intros x Hx [<-|[]]. contradiction.
      * intros id. rewrite List.map_app, in_app_iff, Hin.
        cbn [List.map tr_templateId In]. split.
        -- intros [(Hk & o' & Ho' & E)|[<-|[]]].
           ++ split; [exact Hk|]. exists o'. split; [|exact E].
              apply in_or_app. now left.
           ++ split; [exact Hp|]. exists o. split; [|reflexivity].
              apply in_or_app. right. now left.
        -- intros (Hk & o' & Ho' & E).
           apply in_app_or in Ho'. destruct Ho' as [Ho'|[<-|[]]].
           ++ left. split; [exact Hk|]. now exists o'.
           ++ right. now left.
      * intros g Hgin. rewrite orders_of_template_snoc.
        apply in_app_or in Hgin. destruct Hgin as [Hgin|[<-|[]]].
        -- destruct (String.eqb_spec (templateId o) (tr_templateId g))
             as [E|E].
           ++ exfalso. apply Hi. apply in_map_iff. now exists g.
           ++ rewrite app_nil_r. now apply Hg.
        -- cbn [tr_templateId tr_count tr_revenue tr_template].
           rewrite String.eqb_refl, Hnone. cbn [app length].
           now repeat split.
Qed.

Lemma counts_templates_fold w os : forall done gs,
  counts_templates w done gs ->
  counts_templates w (done ++ os)
    (fold_left
       (fun acc order =>
          count_template (templates w !! templateId order) order acc)
       os gs).
Proof.
  induction os as [|o os IH]; intros done gs H; cbn [fold_left].
  - now rewrite app_nil_r.
  - replace (done ++ o :: os)%list with ((done ++ [o]) ++ os)%list
      by now rewrite <- app_assoc.
    apply IH. now apply counts_templates_step.
Qed.

Lemma counts_templates_nil w : counts_templates w [] [].
Proof.
  split; [constructor|]. split.
  - intros id. split; [intros []|]. now intros (_ & o & [] & _).
  - intros g [].
Qed.

Lemma counts_templates_perm w os gs gs' :
  Permutation gs gs' ->
  counts_templates w os gs -> counts_templates w os gs'.
Proof.
  intros P (Hnd & Hin & Hg). split; [|split].
  - eapply Permutation_NoDup; [|exact Hnd]. now apply Permutation_map.
  - intros id. rewrite <- Hin. split; apply Permutation_in;
      [symmetry|]; now apply Permutation_map.
  - intros g Hgin. apply Hg. eapply Permutation_in; [|exact Hgin].
    now symmetry.
Qed.

Lemma filter_partition_perm {A} (p : A -> bool) (l : list A) :
  Permutation (List.filter p l ++ List.filter (fun x => negb (p x)) l) l.
Proof.
  induction l as [|x l IH]; cbn [List.filter]; [reflexivity|].
  destruct (p x); cbn [negb app].
  - now constructor.
  - rewrite <- Permutation_middle. now constructor.
Qed.

Lemma object_values_perm gs : Permutation (object_values gs) gs.
Proof.
  unfold object_values. rewrite stable_sort_perm.
  apply (filter_partition_perm
           (fun g => bool_decide (is_Some (array_index (tr_templateId g))))).
Qed.

(** X28: The top templates rank the templates of the paid orders of the period
    by revenue.  Taken together, the entries listed and the entries left
    out are one for each template id of a paid order (ids that name a
    property inherited from [Object.prototype] excepted, which get no
    entry), each with the number of its paid orders, their amounts added
    up in the order of the rows, and its template.  The ten entries of
    highest revenue are listed (all of them when there are fewer), highest
    first, and no entry left out has more revenue than a listed one. *)
Theorem top_templates_rank_by_revenue period now w a :
  getAnalytics period now w = Ok a ->
  let ps :=
    paid_orders (orders_since (now - analytics_days period * 86400000) w) in
  exists rest,
    length (topTemplates a)
    = Nat.min 10 (length (topTemplates a ++ rest))
    /\ StronglySorted (fun g g' => (tr_revenue g' <= tr_revenue g)%Q)
         (topTemplates a)
    /\ (forall g g', In g (topTemplates a) -> In g' rest ->
                     (tr_revenue g' <= tr_revenue g)%Q)
    /\ List.NoDup (List.map tr_templateId (topTemplates a ++ rest))
    /\ (forall id,
          In id (List.map tr_templateId (topTemplates a ++ rest))
          <-> object_prototype_key id = false
              /\ exists o, In o ps /\ templateId o = id)
    /\ (forall g, In g (topTemplates a ++ rest) ->
          tr_count g
          = Z.of_nat (length (orders_of_template (tr_templateId g) ps))
          /\ tr_revenue g
             = sum_amounts (orders_of_template (tr_templateId g) ps)
          /\ tr_template g = templates w !! tr_templateId g).
Proof.
  intros H ps.
  destruct (getAnalytics_returns period now w a H) as (_ & _ & _ & _ & E & _).
  fold ps in E. rewrite E.
  set (gs := fold_left
               (fun acc order =>
                  count_template (templates w !! templateId order) order acc)
               ps []).
  destruct (take_sorted_split
              (fun a b : TemplateRevenue =>
                 Qle_bool (tr_revenue b) (tr_revenue a))) with
    (n := 10%nat) (l := object_values gs) as (rest & P & S & R & L).
  - intros x y Hxy. apply Qle_bool_iff.
    destruct (Qlt_le_dec (tr_revenue x) (tr_revenue y)) as [Hl|Hl].
    + now apply Qlt_le_weak.
    + apply Qle_bool_iff in Hl. congruence.
  - intros x y z H1 H2. apply Qle_bool_iff in H1, H2. apply Qle_bool_iff.
    eapply Qle_trans; eassumption.
  - exists rest.
    assert (P' : Permutation gs
                   (take 10
                      (stable_sort
                         (fun a b : TemplateRevenue =>
                            Qle_bool (tr_revenue b) (tr_revenue a))
                         (object_values gs)) ++ rest))
      by (rewrite P; symmetry; apply object_values_perm).
    split.
    { rewrite L. f_equal. rewrite <- (Permutation_length P').
      apply Permutation_length, object_values_perm. }
    split.
    { eapply StronglySorted_weaken; [|exact S].
      intros x y Hxy. now apply Qle_bool_iff in Hxy. }
    split.
    { intros g g' Hg Hg'. apply Qle_bool_iff. now apply R. }
    apply (counts_templates_perm w ps gs _ P').
    apply (counts_templates_fold w ps [] [] (counts_templates_nil w)).
Qed.

Lemma top_templates_rank_by_revenue_witness :
  exists a rest,
    getAnalytics "30d" 1000 shop_paid = Ok a
    /\ length (topTemplates a)
       = Nat.min 10 (length (topTemplates a ++ rest))
    /\ (In "tpl_nda" (List.map tr_templateId (topTemplates a ++ rest))
        <-> object_prototype_key "tpl_nda" = false
            /\ exists o,
                 In o (paid_orders
                         (orders_since
                            (1000 - analytics_days "30d" * 86400000)
                            shop_paid))
                 /\ templateId o = "tpl_nda").
Proof.
  destruct (getAnalytics_valid "30d" 1000 shop_paid) as [a Ha];
    [vm_compute; discriminate|].
  destruct (top_templates_rank_by_revenue "30d" 1000 shop_paid a Ha)
    as (rest & L & _ & _ & _ & I & _).
  exists a, rest. split; [exact Ha|]. split; [exact L|]. apply I.
Defined.

(** *** The period *)






(** ** Validators *)

Lemma trim_end_sublist s :
  sublist (list_ascii_of_string (trim_end s)) (list_ascii_of_string s).
Proof.
  induction s as [|c s IH]; cbn [trim_end list_ascii_of_string].
  - constructor.
  - destruct (trim_end s) as [|c' t] eqn:E.
    + destruct (is_space c); cbn [list_ascii_of_string].
      * apply sublist_nil_l.
      * apply sublist_skip, sublist_nil_l.
    + cbn [list_ascii_of_string] in *. now apply sublist_skip.
Qed.

Lemma skip_space_sublist s :
  sublist (list_ascii_of_string (skip_space s)) (list_ascii_of_string s).
Proof.
  induction s as [|c s IH]; cbn [skip_space list_ascii_of_string].
  - constructor.
  - destruct (is_space c); cbn [list_ascii_of_string].
    + now apply sublist_cons.
    + reflexivity.
Qed.

Lemma remove_angles_sublist s :
  sublist (list_ascii_of_string (remove_angles s)) (list_ascii_of_string s).
Proof.
  induction s as [|c s IH]; cbn [remove_angles list_ascii_of_string].
  - constructor.
  - destruct (Ascii.eqb c "<"%char || Ascii.eqb c ">"%char);
      cbn [list_ascii_of_string].
    + now apply sublist_cons.
    + now apply sublist_skip.
Qed.

Lemma remove_angles_clean s c :
  In c (list_ascii_of_string (remove_angles s)) ->
  c <> "<"%char /\ c <> ">"%char.
Proof.
  induction s as [|c' s IH]; cbn [remove_angles list_ascii_of_string];
    [intros []|].
  destruct (Ascii.eqb_spec c' "<"%char) as [->|N1]; cbn [orb]; [exact IH|].
  destruct (Ascii.eqb_spec c' ">"%char) as [->|N2]; [exact IH|].
  cbn [list_ascii_of_string In]. intros [<-|H]; [now split | now apply IH].
Qed.

(** X30: [sanitizeString] removes every angle bracket and otherwise only
    removes: its result contains neither [<] nor [>], and its characters
    are characters of the input in their order.  The result need not be
    trimmed, though -- white space that stood behind a leading bracket
    stays -- so sanitizing twice can differ from sanitizing once. *)
Theorem sanitizeString_only_removes :
  (forall str c,
     In c (list_ascii_of_string (sanitizeString str)) ->
     c <> "<"%char /\ c <> ">"%char)
  /\ (forall str,
        sublist (list_ascii_of_string (sanitizeString str))
          (list_ascii_of_string str))
  /\ sanitizeString (sanitizeString "< a") <> sanitizeString "< a".
Proof.
  split; [|split].
  - intros str c. apply remove_angles_clean.
  - intros str. unfold sanitizeString, trim.
    etransitivity; [apply remove_angles_sublist|].
    etransitivity; [apply trim_end_sublist|]. apply skip_space_sublist.
  - vm_compute. discriminate.
Qed.
